(** * Medication reminders over WhatsApp: dispatcher tick and reply webhook

    Shallow embedding of [functions/index.js]: the scheduled function
    [checkMedicationReminders] and the HTTP function [handleWhatsAppWebhook],
    together with the helpers they call.

    - Firestore collections are finite maps from document id to a record of
      the fields the functions read and write.
    - Every awaited call (Firestore read or write, Twilio [messages.create])
      is one I/O step.  The environment decides, per step, whether a storage
      call rejects, what the gateway answers and which server timestamp a
      write receives.
    - A rejected promise is an exception: it unwinds to the enclosing
      [try]/[catch] of the source.
    - The clock of a tick is read through the host's [Intl]: the options
      are checked as ECMA-402 prescribes and what the host renders for valid
      options is an input of the tick.
    - The gateway library's constructor [twilio(sid, token)] may throw; which
      configurations it refuses is the environment's.
    - The world keeps a chronological log of the external effects, so that
      the order of writes and sends can be stated. *)

From Stdlib Require Import ZArith String Ascii List Bool Lia.
From stdpp Require Import gmap strings list fin_maps sorting.

Local Open Scope string_scope.
Local Open Scope Z_scope.

(** ** JavaScript string helpers

    A JavaScript string is held as the bytes of its UTF-8 encoding.  The
    helpers below work on these bytes; [trim] knows the encodings of all the
    code points that ECMAScript counts as white space or line terminator. *)

Module JS.

(** White space in one byte: TAB, LF, VT, FF, CR and SP. *)
Definition isWhiteSpace (c : ascii) : bool :=
  let n := nat_of_ascii c in
  ((9 <=? n)%nat && (n <=? 13)%nat) || (n =? 32)%nat.

(** White space in two bytes: U+00A0 (no-break space). *)
Definition isWhiteSpace2 (a b : ascii) : bool :=
  (nat_of_ascii a =? 194)%nat && (nat_of_ascii b =? 160)%nat.

(** White space in three bytes: U+1680, U+2000 to U+200A, U+2028, U+2029,
    U+202F, U+205F, U+3000 and U+FEFF. *)
Definition isWhiteSpace3 (a b c : ascii) : bool :=
  let x := nat_of_ascii a in
  let y := nat_of_ascii b in
  let z := nat_of_ascii c in
  ((x =? 225) && (y =? 154) && (z =? 128))%nat
  || ((x =? 226) && (y =? 128)
      && (((128 <=? z) && (z <=? 138)) || (z =? 168) || (z =? 169) || (z =? 175)))%nat
  || ((x =? 226) && (y =? 129) && (z =? 159))%nat
  || ((x =? 227) && (y =? 128) && (z =? 128))%nat
  || ((x =? 239) && (y =? 187) && (z =? 191))%nat.

(** [s.trimStart()] *)
Fixpoint trimStart (s : string) : string :=
  match s with
  | String a r =>
      if isWhiteSpace a then trimStart r
      else match r with
           | String b r2 =>
               if isWhiteSpace2 a b then trimStart r2
               else match r2 with
                    | String c r3 => if isWhiteSpace3 a b c then trimStart r3 else s
                    | EmptyString => s
                    end
           | EmptyString => s
           end
  | EmptyString => EmptyString
  end.

(** [s.trimEnd()]: the longest suffix made of white space goes.  No
    encoding of a white space code point starts with a continuation byte,
    so such a suffix starts at a code point. *)
Fixpoint trimEnd (s : string) : string :=
  match s with
  | String c r =>
      match trimStart s with
      | EmptyString => EmptyString
      | _ => String c (trimEnd r)
      end
  | EmptyString => EmptyString
  end.

(** [s.trim()] *)
Definition trim (s : string) : string := trimEnd (trimStart s).

Definition lowerChar (c : ascii) : ascii :=
  let n := nat_of_ascii c in
  if ((65 <=? n)%nat && (n <=? 90)%nat) then ascii_of_nat (n + 32) else c.

(** [s.toLowerCase()], on the letters A to Z.  The handler only compares
    the result with 'sair', and no code point outside ASCII lowercases to
    one of s, a, i, r, so the other case mappings do not change the test. *)
Fixpoint toLowerCase (s : string) : string :=
  match s with
  | String c r => String (lowerChar c) (toLowerCase r)
  | EmptyString => EmptyString
  end.

Fixpoint dropChars (n : nat) (s : string) : string :=
  match n, s with
  | S n', String _ r => dropChars n' r
  | _, _ => s
  end.

(** [s.replace(pat, rep)] with a string pattern: the first occurrence only. *)
Fixpoint replace (pat rep s : string) : string :=
  if String.prefix pat s then rep ++ dropChars (String.length pat) s
  else match s with
       | String c r => String c (replace pat rep r)
       | EmptyString => EmptyString
       end.

Definition isDigit (c : ascii) : bool :=
  let n := nat_of_ascii c in (48 <=? n)%nat && (n <=? 57)%nat.

(** [s.replace(/\D/g, '')] *)
Fixpoint onlyDigits (s : string) : string :=
  match s with
  | String c r => if isDigit c then String c (onlyDigits r) else onlyDigits r
  | EmptyString => EmptyString
  end.

(** [s.substring(0, n)] *)
Definition substring0 (n : nat) (s : string) : string := String.substring 0 n s.

(** [arr.includes(x)] on an array of integers *)
Definition includes (x : Z) (arr : list Z) : bool := existsb (Z.eqb x) arr.

(** [!v] for an optional string: [undefined] and the empty string are falsy. *)
Definition falsy (v : option string) : bool :=
  match v with
  | None => true
  | Some s => String.eqb s ""
  end.

Definition digitValue (c : ascii) : option Z :=
  let n := nat_of_ascii c in
  if ((48 <=? n) && (n <=? 57))%nat then Some (Z.of_nat n - 48) else None.

Definition hexDigitValue (c : ascii) : option Z :=
  let n := nat_of_ascii c in
  if ((48 <=? n) && (n <=? 57))%nat then Some (Z.of_nat n - 48)
  else if ((97 <=? n) && (n <=? 102))%nat then Some (Z.of_nat n - 87)
  else if ((65 <=? n) && (n <=? 70))%nat then Some (Z.of_nat n - 55)
  else None.

(** The value of the longest prefix of [s] made of digits of the radix;
    [acc] is [None] as long as no digit was read. *)
Fixpoint parseDigits (radix : Z) (digit : ascii -> option Z) (s : string)
    (acc : option Z) : option Z :=
  match s with
  | String c r =>
      match digit c with
      | Some d => parseDigits radix digit r (Some (radix * default 0 acc + d))
      | None => acc
      end
  | EmptyString => acc
  end.

(** [parseInt(s)] without a radix: leading white space, a sign, [0x] or [0X]
    for radix 16, then digits; [None] is [NaN].  Integers are exact here;
    the code's numbers are exact up to 2^53. *)
Definition parseInt (s : string) : option Z :=
  let s1 := trimStart s in
  let signed :=
    match s1 with
    | String "-" r => (-1, r)
    | String "+" r => (1, r)
    | _ => (1, s1)
    end in
  let magnitude :=
    if String.prefix "0x" signed.2 || String.prefix "0X" signed.2
    then parseDigits 16 hexDigitValue (dropChars 2 signed.2) None
    else parseDigits 10 digitValue signed.2 None in
  option_map (Z.mul signed.1) magnitude.

(** [x % m] on numbers, [NaN] staying [NaN]; the sign is the dividend's. *)
Definition remainder (x : option Z) (m : Z) : option Z :=
  option_map (fun n => Z.rem n m) x.

(** [arr.includes(x)] for a number [x] that may be [NaN], on an array of
    integers: [NaN] is in none. *)
Definition includesNumber (x : option Z) (arr : list Z) : bool :=
  match x with
  | Some n => includes n arr
  | None => false
  end.

End JS.

(** ** Documents *)

(** A document of [medicamentos]. *)
Record Medicamento := {
  m_idosoId : string;
  m_nome : string;
  m_dosagem : string;
  m_ativo : bool;
  m_diasDaSemana : list Z;
  m_horarios : list string;
  m_desativadoEm : option Z
}.

(** A document of [idosos]. *)
Record Idoso := {
  i_nome : string;
  i_whatsapp : string
}.

(** A document of [lembretes_status], the reminder ledger. *)
Record Lembrete := {
  medicamentoId : string;
  idosoId : string;
  dataHora : Z;
  status : string;
  tentativas : Z;
  horarioOriginal : string;
  twilioSid : option string;
  twilioStatus : option string;
  erro : option string;
  ultimaResposta : option Z;
  respostaRecebida : option string;
  adiadoPor : option Z
}.

(** [update({ twilioSid: sid, twilioStatus: st })] *)
Definition update_delivered (sid st : string) (l : Lembrete) : Lembrete :=
  {| medicamentoId := medicamentoId l; idosoId := idosoId l; dataHora := dataHora l;
     status := status l; tentativas := tentativas l; horarioOriginal := horarioOriginal l;
     twilioSid := Some sid; twilioStatus := Some st; erro := erro l;
     ultimaResposta := ultimaResposta l; respostaRecebida := respostaRecebida l;
     adiadoPor := adiadoPor l |}.

(** [update({ status: 'erro', erro: e })] *)
Definition update_failed (e : string) (l : Lembrete) : Lembrete :=
  {| medicamentoId := medicamentoId l; idosoId := idosoId l; dataHora := dataHora l;
     status := "erro"; tentativas := tentativas l; horarioOriginal := horarioOriginal l;
     twilioSid := twilioSid l; twilioStatus := twilioStatus l; erro := Some e;
     ultimaResposta := ultimaResposta l; respostaRecebida := respostaRecebida l;
     adiadoPor := adiadoPor l |}.

(** [update({ status: newStatus, ultimaResposta: serverTimestamp(),
              respostaRecebida: message })] *)
Definition update_reply (newStatus : string) (ts : Z) (message : string)
    (l : Lembrete) : Lembrete :=
  {| medicamentoId := medicamentoId l; idosoId := idosoId l; dataHora := dataHora l;
     status := newStatus; tentativas := tentativas l; horarioOriginal := horarioOriginal l;
     twilioSid := twilioSid l; twilioStatus := twilioStatus l; erro := erro l;
     ultimaResposta := Some ts; respostaRecebida := Some message;
     adiadoPor := adiadoPor l |}.

(** [update({ ativo: false, desativadoEm: serverTimestamp() })] *)
Definition deactivate (ts : Z) (m : Medicamento) : Medicamento :=
  {| m_idosoId := m_idosoId m; m_nome := m_nome m; m_dosagem := m_dosagem m;
     m_ativo := false; m_diasDaSemana := m_diasDaSemana m; m_horarios := m_horarios m;
     m_desativadoEm := Some ts |}.

(** The ledger entry built by the dispatcher; [ts] is what the server puts
    in place of [FieldValue.serverTimestamp()] when the write is applied. *)
Definition lembreteStatus (medId idId currentTime : string) (ts : Z) : Lembrete :=
  {| medicamentoId := medId; idosoId := idId; dataHora := ts;
     status := "enviado"; tentativas := 1; horarioOriginal := currentTime;
     twilioSid := None; twilioStatus := None; erro := None;
     ultimaResposta := None; respostaRecebida := None; adiadoPor := None |}.

(** The entry written when a reminder is postponed. *)
Definition delayedReminder (lembreteData : Lembrete) (idId : string) (ts : Z) : Lembrete :=
  {| medicamentoId := medicamentoId lembreteData; idosoId := idId; dataHora := ts;
     status := "agendado_adiado"; tentativas := 1;
     horarioOriginal := horarioOriginal lembreteData;
     twilioSid := None; twilioStatus := None; erro := None;
     ultimaResposta := None; respostaRecebida := None; adiadoPor := Some 10 |}.

(** ** The schedule test of the dispatcher *)

(** [medicamento.horarios.some(horario => horario.substring(0, 5) === currentTime)] *)
Definition isTimeToRemind (horarios : list string) (currentTime : string) : bool :=
  existsb (fun horario => String.eqb (JS.substring0 5 horario) currentTime) horarios.

(** A medication fires when the day test lets it through and the time test
    holds. *)
Definition isDue (medicamento : Medicamento) (currentDay : Z) (currentTime : string)
    : bool :=
  JS.includes currentDay (m_diasDaSemana medicamento)
  && isTimeToRemind (m_horarios medicamento) currentTime.

(** One element of [remindersToSend]. *)
Record Reminder := {
  r_idoso : string * Idoso;
  r_medicamento : string * Medicamento;
  lembreteId : string
}.

(** A pending [batch.set(ref, data)]: the data still waits for the server
    timestamp. *)
Abbreviation BatchSet := (string * (Z -> Lembrete))%type.

(** ** Replies *)

(** Property lookup [obj[key]] in an object literal. *)
Fixpoint prop (obj : list (string * string)) (key : string) : option string :=
  match obj with
  | (k, v) :: rest => if String.eqb k key then Some v else prop rest key
  | [] => None
  end.

Definition statusMap : list (string * string) :=
  [("1", "tomou"); ("2", "nao_tomou"); ("3", "adiado")].

Definition confirmationMessages (idoso : Idoso) : list (string * string) :=
  [("1", "Perfeito, " ++ i_nome idoso ++ "! ✔ Registramos que você tomou o medicamento.");
   ("2", "Entendido. Foi registrado que o medicamento não foi tomado.");
   ("3", "Ok, vamos lembrar de novo em 10 minutos — responda 1 quando tomar :)")].

Definition optOutMessage (idoso : Idoso) : string :=
  i_nome idoso ++ ", os lembretes foram interrompidos conforme solicitado.".

Definition newline : string := String "010"%char EmptyString.
Definition dquote : string := String "034"%char EmptyString.

Definition helpMessage : string :=
  "Resposta não reconhecida. Responda:" ++ newline ++ "1 - Tomei" ++ newline
  ++ "2 - Não tomei" ++ newline ++ "3 - Adiar" ++ newline
  ++ "Ou envie " ++ dquote ++ "SAIR" ++ dquote ++ " para parar.".

(** [From?.replace('whatsapp:', '') || ''] *)
Definition phoneNumber_of (From : option string) : string :=
  from_option (JS.replace "whatsapp:" "") "" From.

(** [Body?.trim() || ''] *)
Definition message_of (Body : option string) : string :=
  from_option JS.trim "" Body.

(** What the webhook answers. *)
Record Response := {
  http_status : Z;
  success : bool;
  error : option string
}.

(** ** The world: store, I/O counter and effect log *)

(** What [sendWhatsAppMessage] returns:
    [{ success: true, sid, status }] or [{ success: false, error }]. *)
Inductive SendResult :=
| SendOk (sid st : string)
| SendFail (error : string).

(** Outcome of [twilioClient.messages.create]: a message resource, or a
    rejection carrying [error.message]. *)
Inductive TwilioReply :=
| Created (sid st : string)
| Rejected (message : string).

(** External effects, in the order they happen. *)
Inductive Event :=
| EvBatchCommit (collection : string) (ids : list string)
| EvSet (collection : string) (id : string)
| EvUpdate (collection : string) (id : string)
| EvSend (to body : string) (r : SendResult).

Definition is_send (e : Event) : bool :=
  match e with EvSend _ _ _ => true | _ => false end.

(** A write to the reminder ledger. *)
Definition is_ledger_write (e : Event) : bool :=
  match e with
  | EvBatchCommit c _ | EvSet c _ | EvUpdate c _ => String.eqb c "lembretes_status"
  | EvSend _ _ _ => false
  end.

Record World := {
  medicamentos : gmap string Medicamento;
  idosos : gmap string Idoso;
  lembretes_status : gmap string Lembrete;
  ops : nat;
  log : list Event
}.

(** The result of [getTwilioConfig()]. *)
Record TwilioConfig := {
  cfg_sid : option string;
  cfg_token : option string;
  cfg_phone : option string
}.

(** What lies outside the functions: configuration, the gateway library and
    the gateway, storage availability and the server clock; the awaited calls
    are indexed by the I/O step. *)
Record Env := {
  getTwilioConfig : TwilioConfig;
  (** [twilio(sid, token)]: [Some e] when the constructor throws [e] *)
  twilio : string -> string -> option string;
  messages_create : nat -> string -> string -> string -> TwilioReply;
  storage_rejects : nat -> option string;
  serverTimestamp : nat -> Z
}.

(** ** Computations with state and exceptions *)

Inductive Res (A : Type) :=
| Val (a : A)
| Throw (e : string).
Arguments Val {A} a.
Arguments Throw {A} e.

(** [getTwilioClient()]: [Val false] is [null], [Val true] a client, and
    [Throw e] the exception of the constructor. *)
Definition twilioClient_of (env : Env) : Res bool :=
  let cfg := getTwilioConfig env in
  if JS.falsy (cfg_sid cfg) || JS.falsy (cfg_token cfg) then Val false
  else match twilio env (default "" (cfg_sid cfg)) (default "" (cfg_token cfg)) with
       | Some e => Throw e
       | None => Val true
       end.

(** The services answer: every storage call resolves, and the gateway
    library does not refuse the configuration. *)
Definition reliable (env : Env) : Prop :=
  (forall n, storage_rejects env n = None)
  /\ forall e, twilioClient_of env <> Throw e.

Definition M (A : Type) : Type := World -> Res A * World.

Definition ret {A} (a : A) : M A := fun w => (Val a, w).

Definition bind {A B} (m : M A) (k : A -> M B) : M B :=
  fun w => match m w with
           | (Val a, w') => k a w'
           | (Throw e, w') => (Throw e, w')
           end.

(** [try { m } catch (error) { h(error.message) }] *)
Definition try_catch {A} (m : M A) (h : string -> M A) : M A :=
  fun w => match m w with
           | (Val a, w') => (Val a, w')
           | (Throw e, w') => h e w'
           end.

Notation "'let*' x ':=' m 'in' k" := (bind m (fun x => k))
  (at level 10, x pattern, m at level 100, k at level 200).

Definition set_ops (n : nat) (w : World) : World :=
  {| medicamentos := medicamentos w; idosos := idosos w;
     lembretes_status := lembretes_status w; ops := n; log := log w |}.

Definition set_lembretes (ls : gmap string Lembrete) (w : World) : World :=
  {| medicamentos := medicamentos w; idosos := idosos w;
     lembretes_status := ls; ops := ops w; log := log w |}.

Definition set_medicamentos (ms : gmap string Medicamento) (w : World) : World :=
  {| medicamentos := ms; idosos := idosos w;
     lembretes_status := lembretes_status w; ops := ops w; log := log w |}.

Definition emit (e : Event) (w : World) : World :=
  {| medicamentos := medicamentos w; idosos := idosos w;
     lembretes_status := lembretes_status w; ops := ops w; log := log w ++ [e] |}.

(** ** Queries *)

(** [collection('medicamentos').where('ativo', '==', true)] *)
Definition medicamentos_ativos (w : World) : list (string * Medicamento) :=
  filter (fun d => m_ativo d.2 = true) (map_to_list (medicamentos w)).

(** [collection('medicamentos').where('idosoId', '==', id).where('ativo', '==', true)] *)
Definition medicamentos_ativos_de (id : string) (w : World)
    : list (string * Medicamento) :=
  filter (fun d => m_idosoId d.2 = id /\ m_ativo d.2 = true)
         (map_to_list (medicamentos w)).

(** [collection('idosos').where('whatsapp', '==', phone)] *)
Definition idosos_por_whatsapp (phone : string) (w : World) : list (string * Idoso) :=
  filter (fun d => i_whatsapp d.2 = phone) (map_to_list (idosos w)).

(** [orderBy('dataHora', 'desc')] *)
Definition mais_recente (a b : string * Lembrete) : Prop :=
  dataHora b.2 <= dataHora a.2.

#[global] Instance mais_recente_dec a b : Decision (mais_recente a b) :=
  Z_le_dec (dataHora b.2) (dataHora a.2).

(** [collection('lembretes_status').where('idosoId', '==', id)
      .where('status', '==', 'enviado').orderBy('dataHora', 'desc').limit(1)] *)
Definition lembretes_enviados (id : string) (w : World) : list (string * Lembrete) :=
  filter (fun d => idosoId d.2 = id /\ status d.2 = "enviado")
         (map_to_list (lembretes_status w)).

Definition latest_pending (id : string) (w : World) : list (string * Lembrete) :=
  take 1 (merge_sort mais_recente (lembretes_enviados id w)).

(** [collection('lembretes_status').doc()]: an id no document and no
    pending batch write carries. *)
Definition autoId (reserved : list string) (w : World) : string :=
  fresh (dom (lembretes_status w) ∪ list_to_set reserved : gset string).

(** ** The host's clock

    [toLocaleString] and [toLocaleDateString] build an [Intl.DateTimeFormat]
    from their options.  ECMA-402 (CreateDateTimeFormat) checks the time zone
    first and then reads each component option with GetOption, which throws
    a RangeError for a value outside the option's list. *)

(** The options the functions pass. *)
Record DateTimeFormatOptions := {
  o_timeZone : option string;
  o_hour12 : option bool;
  o_weekday : option string;
  o_hour : option string;
  o_minute : option string
}.

(** The values of [weekday]. *)
Definition weekday_values : list string := ["narrow"; "short"; "long"].

(** The values of [hour] and of [minute]. *)
Definition two_digit_values : list string := ["2-digit"; "numeric"].

(** The first component option whose value is outside its list, with that
    value. *)
Definition first_bad_option (o : DateTimeFormatOptions) : option (string * string) :=
  let bad (name : string) (values : list string) (v : option string) :=
    match v with
    | Some x => if bool_decide (x ∈ values) then None else Some (name, x)
    | None => None
    end in
  match bad "weekday" weekday_values (o_weekday o) with
  | Some b => Some b
  | None =>
      match bad "hour" two_digit_values (o_hour o) with
      | Some b => Some b
      | None => bad "minute" two_digit_values (o_minute o)
      end
  end.

(** The host at the instant of an invocation: the time zones it knows, what
    it renders for the instant under a locale and valid options, and the
    message of its RangeError for an option and a value. *)
Record Host := {
  knows_time_zone : string -> bool;
  format_now : string -> DateTimeFormatOptions -> string;
  range_error : string -> string -> string
}.

(** [new Date().toLocaleString(locale, o)] and
    [new Date().toLocaleDateString(locale, o)] with a component among the
    options: the format is built, then applied to the instant. *)
Definition toLocaleString (host : Host) (locale : string) (o : DateTimeFormatOptions)
    : Res string :=
  match o_timeZone o with
  | Some tz =>
      if knows_time_zone host tz then
        match first_bad_option o with
        | Some b => Throw (range_error host b.1 b.2)
        | None => Val (format_now host locale o)
        end
      else Throw (range_error host "timeZone" tz)
  | None =>
      match first_bad_option o with
      | Some b => Throw (range_error host b.1 b.2)
      | None => Val (format_now host locale o)
      end
  end.

(** [getCurrentBrazilTime] *)
Definition getCurrentBrazilTime (host : Host) : M string :=
  fun w =>
    (toLocaleString host "en-US"
       {| o_timeZone := Some "America/Sao_Paulo"; o_hour12 := Some false;
          o_weekday := None; o_hour := Some "2-digit"; o_minute := Some "2-digit" |},
     w).

(** [getCurrentDayOfWeek] *)
Definition getCurrentDayOfWeek (host : Host) : M string :=
  fun w =>
    (toLocaleString host "en-US"
       {| o_timeZone := Some "America/Sao_Paulo"; o_hour12 := None;
          o_weekday := Some "numeric"; o_hour := None; o_minute := None |},
     w).

Section Functions.

Variable env : Env.

(** One awaited storage call: it takes I/O step [ops w]; when the store
    rejects it nothing is read or written and the rejection is thrown. *)
Definition storage {A} (call : nat -> World -> Res A * World) : M A :=
  fun w =>
    let n := ops w in
    match storage_rejects env n with
    | Some e => (Throw e, set_ops (S n) w)
    | None => call n (set_ops (S n) w)
    end.

(** *** Sending *)

(** [formatPhoneForWhatsApp] *)
Definition formatPhoneForWhatsApp (phone : string) : string :=
  let digits := JS.onlyDigits phone in
  if (String.length digits =? 10)%nat || (String.length digits =? 11)%nat
  then "whatsapp:+55" ++ digits
  else "whatsapp:+" ++ digits.

(** [getTwilioClient] *)
Definition getTwilioClient : M bool := fun w => (twilioClient_of env, w).

(** [sendWhatsAppMessage]: the client is built outside the [try], so an
    exception of the constructor goes to the caller; a missing configuration
    or a gateway rejection comes back as [{ success: false, error }]. *)
Definition sendWhatsAppMessage (to message : string) : M SendResult :=
  let* twilioClient := getTwilioClient in
  fun w =>
    let cfg := getTwilioConfig env in
    if negb twilioClient || JS.falsy (cfg_phone cfg)
    then let r := SendFail "Twilio not configured" in
         (Val r, emit (EvSend to message r) w)
    else
      let n := ops w in
      let r := match messages_create env n (default "" (cfg_phone cfg))
                       (formatPhoneForWhatsApp to) message with
               | Created sid st => SendOk sid st
               | Rejected e => SendFail e
               end in
      (Val r, emit (EvSend to message r) (set_ops (S n) w)).

(** [createReminderMessage] *)
Definition createReminderMessage (nomeIdoso medicacao dosagem : string) : string :=
  "Olá, " ++ nomeIdoso ++ " 👋 — Hora do remédio " ++ medicacao ++ " (" ++ dosagem
  ++ "). Responda: 1) ✅ Tomei 2) ❌ Não tomei 3) ⏳ Adiar 10 min.".

(** *** Awaited storage calls *)

Definition get_medicamentos_ativos : M (list (string * Medicamento)) :=
  storage (fun _ w => (Val (medicamentos_ativos w), w)).

Definition get_medicamentos_ativos_de (id : string) : M (list (string * Medicamento)) :=
  storage (fun _ w => (Val (medicamentos_ativos_de id w), w)).

Definition get_idosos_por_whatsapp (phone : string) : M (list (string * Idoso)) :=
  storage (fun _ w => (Val (idosos_por_whatsapp phone w), w)).

(** [collection('idosos').doc(id).get()]; [None] when [!idosoDoc.exists]. *)
Definition get_idoso (id : string) : M (option Idoso) :=
  storage (fun _ w => (Val (idosos w !! id), w)).

Definition get_latest_pending (id : string) : M (list (string * Lembrete)) :=
  storage (fun _ w => (Val (latest_pending id w), w)).

Definition new_doc_ref (reserved : list string) : M string :=
  fun w => (Val (autoId reserved w), w).

Definition apply_sets (ts : Z) (batch : list BatchSet) (ls : gmap string Lembrete)
    : gmap string Lembrete :=
  foldl (fun acc (b : BatchSet) => <[b.1 := b.2 ts]> acc) ls batch.

(** [batch.commit()] of the dispatcher: every queued [set] is applied in one
    write, under one server timestamp. *)
Definition commit_sets (batch : list BatchSet) : M unit :=
  storage (fun n w =>
    (Val tt,
     emit (EvBatchCommit "lembretes_status" batch.*1)
          (set_lembretes (apply_sets (serverTimestamp env n) batch (lembretes_status w)) w))).

(** [ref.update(fields)] on a ledger document; Firestore rejects an update
    of a document that does not exist. *)
Definition update_lembrete (id : string) (fields : Z -> Lembrete -> Lembrete) : M unit :=
  storage (fun n w =>
    match lembretes_status w !! id with
    | None => (Throw "NOT_FOUND", w)
    | Some l =>
        (Val tt,
         emit (EvUpdate "lembretes_status" id)
              (set_lembretes
                 (<[id := fields (serverTimestamp env n) l]> (lembretes_status w)) w))
    end).

(** [ref.set(data)] on a ledger document. *)
Definition set_lembrete (id : string) (data : Z -> Lembrete) : M unit :=
  storage (fun n w =>
    (Val tt,
     emit (EvSet "lembretes_status" id)
          (set_lembretes (<[id := data (serverTimestamp env n)]> (lembretes_status w)) w))).

Definition apply_deactivations (ts : Z) (ids : list string)
    (ms : gmap string Medicamento) : gmap string Medicamento :=
  foldl (fun acc id => alter (deactivate ts) id acc) ms ids.

(** [batch.commit()] of the opt-out: one [batch.update] per listed
    medication, all applied in one write; the commit is rejected as a whole
    when one of the documents is missing. *)
Definition commit_deactivations (ids : list string) : M unit :=
  storage (fun n w =>
    if forallb (fun id => bool_decide (is_Some (medicamentos w !! id))) ids
    then (Val tt,
          emit (EvBatchCommit "medicamentos" ids)
               (set_medicamentos
                  (apply_deactivations (serverTimestamp env n) ids (medicamentos w)) w))
    else (Throw "NOT_FOUND", w)).

(** *** [checkMedicationReminders] *)

(** The first loop: [continue] on a day mismatch, on a time mismatch and on
    a missing patient document; otherwise queue the ledger entry and
    remember the reminder. *)
Fixpoint collect (currentDay : option Z) (currentTime : string)
    (docs : list (string * Medicamento))
    (batch : list BatchSet) (remindersToSend : list Reminder)
    : M (list BatchSet * list Reminder) :=
  match docs with
  | [] => ret (batch, remindersToSend)
  | (medId, medicamento) :: rest =>
      if negb (JS.includesNumber currentDay (m_diasDaSemana medicamento))
      then collect currentDay currentTime rest batch remindersToSend
      else if isTimeToRemind (m_horarios medicamento) currentTime
      then
        let* idosoDoc := get_idoso (m_idosoId medicamento) in
        match idosoDoc with
        | None => collect currentDay currentTime rest batch remindersToSend
        | Some idoso =>
            let* ref := new_doc_ref batch.*1 in
            collect currentDay currentTime rest
              (batch ++ [(ref, lembreteStatus medId (m_idosoId medicamento) currentTime)])
              (remindersToSend
                 ++ [{| r_idoso := (m_idosoId medicamento, idoso);
                        r_medicamento := (medId, medicamento);
                        lembreteId := ref |}])
        end
      else collect currentDay currentTime rest batch remindersToSend
  end.

(** The second loop: send, then record the outcome on the entry. *)
Fixpoint deliver (remindersToSend : list Reminder) : M unit :=
  match remindersToSend with
  | [] => ret tt
  | reminder :: rest =>
      let message :=
        createReminderMessage (i_nome (r_idoso reminder).2)
          (m_nome (r_medicamento reminder).2) (m_dosagem (r_medicamento reminder).2) in
      let* result := sendWhatsAppMessage (i_whatsapp (r_idoso reminder).2) message in
      let* _ :=
        match result with
        | SendOk sid st =>
            update_lembrete (lembreteId reminder) (fun _ => update_delivered sid st)
        | SendFail e =>
            update_lembrete (lembreteId reminder) (fun _ => update_failed e)
        end in
      deliver rest
  end.

(** The tick from the query for the active medications up to and including
    [batch.commit()]. *)
Definition collect_and_commit (currentDay : option Z) (currentTime : string)
    : M (list Reminder) :=
  let* docs := get_medicamentos_ativos in
  match docs with
  | [] => ret []
  | _ =>
      let* collected := collect currentDay currentTime docs [] [] in
      let batch := collected.1 in
      let remindersToSend := collected.2 in
      let* _ := match remindersToSend with
                | [] => ret tt
                | _ => commit_sets batch
                end in
      ret remindersToSend
  end.

(** The tick after its two clock reads, for the values [currentDay]
    ([None] is [NaN]) and [currentTime] of its locals: the query, the two
    loops and the commit between them. *)
Definition dispatch (currentDay : option Z) (currentTime : string) : M unit :=
  let* remindersToSend := collect_and_commit currentDay currentTime in
  deliver remindersToSend.

(** The scheduled function; its [catch] logs and rethrows. *)
Definition checkMedicationReminders (host : Host) : M unit :=
  try_catch
    (let* currentTime := getCurrentBrazilTime host in
     let* weekday := getCurrentDayOfWeek host in
     let currentDay := JS.remainder (JS.parseInt weekday) 7 in
     dispatch currentDay currentTime)
    (fun e w => (Throw e, w)).

(** *** [handleWhatsAppWebhook] *)

(** The ledger block of a coded reply: look the latest pending reminder
    up; when there is one, record the answer on it and, for code 3, add the
    postponed entry. *)
Definition record_reply (idosoId message : string) : M unit :=
  let newStatus := default "" (prop statusMap message) in
  let* lembreteSnapshot := get_latest_pending idosoId in
  match lembreteSnapshot with
  | [] => ret tt
  | (lembreteRef, lembreteData) :: _ =>
      let* _ := update_lembrete lembreteRef
                  (fun ts => update_reply newStatus ts message) in
      if String.eqb message "3" then
        let* delayedReminderRef := new_doc_ref [] in
        set_lembrete delayedReminderRef (delayedReminder lembreteData idosoId)
      else ret tt
  end.

(** The branches taken once the patient is known. *)
Definition handle_reply (idosoId : string) (idoso : Idoso)
    (phoneNumber message : string) : M unit :=
  if bool_decide (message ∈ ["1"; "2"; "3"]) then
    let* _ := record_reply idosoId message in
    let* _ := sendWhatsAppMessage phoneNumber
                (default "" (prop (confirmationMessages idoso) message)) in
    ret tt
  else if String.eqb (JS.toLowerCase message) "sair" then
    let* docs := get_medicamentos_ativos_de idosoId in
    let* _ := commit_deactivations docs.*1 in
    let* _ := sendWhatsAppMessage phoneNumber (optOutMessage idoso) in
    ret tt
  else
    let* _ := sendWhatsAppMessage phoneNumber helpMessage in
    ret tt.

(** The HTTP function on [req.body = { From, Body }]. *)
Definition handleWhatsAppWebhook (From Body : option string) : M Response :=
  try_catch
    (let phoneNumber := phoneNumber_of From in
     let message := message_of Body in
     let* idososSnapshot :=
       get_idosos_por_whatsapp (JS.replace "+55" "" phoneNumber) in
     match idososSnapshot with
     | [] => ret {| http_status := 200; success := false;
                    error := Some "Idoso not found" |}
     | (idosoId, idoso) :: _ =>
         let* _ := handle_reply idosoId idoso phoneNumber message in
         ret {| http_status := 200; success := true; error := None |}
     end)
    (fun e => ret {| http_status := 500; success := false; error := Some e |}).

End Functions.

(** ** Vocabulary of the properties *)

(** A medication gives rise to a reminder in world [w]. *)
Definition fires (currentDay : Z) (currentTime : string) (w : World)
    (d : string * Medicamento) : Prop :=
  isDue d.2 currentDay currentTime = true /\ is_Some (idosos w !! m_idosoId d.2).

#[global] Instance fires_dec currentDay currentTime w d :
  Decision (fires currentDay currentTime w d).
Proof. unfold fires. apply _. Defined.

(** The queued write and the remembered reminder belong together. *)
Definition queued_for (currentTime : string) (w : World) (b : BatchSet) (r : Reminder)
    : Prop :=
  b.1 = lembreteId r
  /\ b.2 = lembreteStatus (r_medicamento r).1 (m_idosoId (r_medicamento r).2) currentTime
  /\ (r_idoso r).1 = m_idosoId (r_medicamento r).2
  /\ idosos w !! (r_idoso r).1 = Some (r_idoso r).2.

(** What the ledger holds for a reminder right after the commit. *)
Definition committed (currentTime : string) (w w1 : World) (ts : Z) (r : Reminder)
    : Prop :=
  lembretes_status w !! lembreteId r = None
  /\ (r_idoso r).1 = m_idosoId (r_medicamento r).2
  /\ idosos w !! (r_idoso r).1 = Some (r_idoso r).2
  /\ lembretes_status w1 !! lembreteId r
     = Some (lembreteStatus (r_medicamento r).1 (m_idosoId (r_medicamento r).2)
               currentTime ts).

(** The body rendered for a reminder. *)
Definition reminderMessage (r : Reminder) : string :=
  createReminderMessage (i_nome (r_idoso r).2) (m_nome (r_medicamento r).2)
    (m_dosagem (r_medicamento r).2).

(** The effects of delivering one reminder: the send, then the update that
    records its outcome. *)
Definition delivery_events (r : Reminder) (res : SendResult) : list Event :=
  [EvSend (i_whatsapp (r_idoso r).2) (reminderMessage r) res;
   EvUpdate "lembretes_status" (lembreteId r)].

(** The entry of [r] after the deliveries is its entry before them, updated
    with the outcome of its own send. *)
Definition outcome_recorded (w1 w2 : World) (r : Reminder) (res : SendResult) : Prop :=
  exists e,
    lembretes_status w1 !! lembreteId r = Some e
    /\ lembretes_status w2 !! lembreteId r
       = Some match res with
              | SendOk sid st => update_delivered sid st e
              | SendFail err => update_failed err e
              end.


(** ** A worked scenario

    One patient with two medications due on Mondays at 09:00, a configured
    gateway, and three environments: one where every call succeeds, one
    where the gateway rejects every message, and one where the sixth I/O
    step after the clock reads (the update recording the first outcome) is
    rejected by the store.  The host reads Monday 09:00 in Sao Paulo. *)

(** The gateway library's constructor: it refuses an account SID that does
    not start with AC. *)
Definition twilio_library (sid token : string) : option string :=
  if String.prefix "AC" sid then None else Some "accountSid must start with AC".

Definition twilio_configured : TwilioConfig :=
  {| cfg_sid := Some "AC0001"; cfg_token := Some "token";
     cfg_phone := Some "whatsapp:+14155238886" |}.

Definition env_accepting : Env :=
  {| getTwilioConfig := twilio_configured;
     twilio := twilio_library;
     messages_create := fun _ _ _ _ => Created "SM0001" "queued";
     storage_rejects := fun _ => None;
     serverTimestamp := fun n => 1000 + Z.of_nat n |}.

Definition env_gateway_down : Env :=
  {| getTwilioConfig := twilio_configured;
     twilio := twilio_library;
     messages_create := fun _ _ _ _ => Rejected "Gateway timeout";
     storage_rejects := fun _ => None;
     serverTimestamp := fun n => 1000 + Z.of_nat n |}.

Definition env_storage_down_at_5 : Env :=
  {| getTwilioConfig := twilio_configured;
     twilio := twilio_library;
     messages_create := fun _ _ _ _ => Created "SM0001" "queued";
     storage_rejects := fun n => if (n =? 5)%nat then Some "UNAVAILABLE" else None;
     serverTimestamp := fun n => 1000 + Z.of_nat n |}.

Definition maria : Idoso := {| i_nome := "Maria"; i_whatsapp := "11999998888" |}.

Definition losartana : Medicamento :=
  {| m_idosoId := "p1"; m_nome := "Losartana"; m_dosagem := "50mg"; m_ativo := true;
     m_diasDaSemana := [1; 3; 5]; m_horarios := ["09:00"]; m_desativadoEm := None |}.

Definition aas : Medicamento :=
  {| m_idosoId := "p1"; m_nome := "AAS"; m_dosagem := "100mg"; m_ativo := true;
     m_diasDaSemana := [1]; m_horarios := ["09:00"; "21:00"]; m_desativadoEm := None |}.

(** Registered, nothing sent yet. *)
Definition w_registered : World :=
  {| medicamentos := <["m1" := losartana]> (<["m2" := aas]> ∅);
     idosos := {["p1" := maria]};
     lembretes_status := ∅;
     ops := 0; log := [] |}.

Definition lembrete_pendente : Lembrete :=
  {| medicamentoId := "m1"; idosoId := "p1"; dataHora := 900;
     status := "enviado"; tentativas := 1; horarioOriginal := "09:00";
     twilioSid := Some "SM0000"; twilioStatus := Some "queued"; erro := None;
     ultimaResposta := None; respostaRecebida := None; adiadoPor := None |}.

(** One reminder delivered and awaiting its answer. *)
Definition w_pending : World :=
  {| medicamentos := <["m1" := losartana]> (<["m2" := aas]> ∅);
     idosos := {["p1" := maria]};
     lembretes_status := {["L1" := lembrete_pendente]};
     ops := 0; log := [] |}.

Definition from_maria : option string := Some "whatsapp:+5511999998888".

(** The options with which [getCurrentBrazilTime] asks for the time. *)
Definition time_options : DateTimeFormatOptions :=
  {| o_timeZone := Some "America/Sao_Paulo"; o_hour12 := Some false;
     o_weekday := None; o_hour := Some "2-digit"; o_minute := Some "2-digit" |}.

(** A host that knows the time zone, on a Monday at 09:00 in São Paulo; its
    RangeError reads as V8's. *)
Definition host_monday_0900 : Host :=
  {| knows_time_zone := fun tz => String.eqb tz "America/Sao_Paulo";
     format_now := fun _ o =>
       match o_weekday o, o_hour o with
       | Some _, _ => "Monday"
       | None, Some _ => "09:00"
       | None, None => "1/1/2024"
       end;
     range_error := fun name value =>
       "Value " ++ value ++ " out of range for Intl.DateTimeFormat options property "
       ++ name |}.

(** ** Reports and health *)

(** [statistics] in the answer of [generateReport]. *)
Record Statistics := {
  st_total : nat;
  st_tomados : nat;
  st_naoTomados : nat;
  st_adiados : nat;
  st_semResposta : nat
}.

(** What [generateReport] answers: [{ success: true, data }] or a status
    with [{ success: false, error }]. *)
Inductive ReportResponse :=
| ReportData (date idosoId : string) (statistics : Statistics)
| ReportError (http_status : Z) (error : string).

(** [collection('lembretes_status').where('idosoId', '==', id)
      .where('dataHora', '>=', startOfDay).where('dataHora', '<=', endOfDay)] *)
Definition lembretes_do_dia (id : string) (startOfDay endOfDay : Z) (w : World)
    : list (string * Lembrete) :=
  filter (fun d => idosoId d.2 = id
                   /\ startOfDay <= dataHora d.2 /\ dataHora d.2 <= endOfDay)
         (map_to_list (lembretes_status w)).

(** One round of the [forEach]: the [switch] on the status, acting on the
    counters [(tomados, naoTomados, adiados, semResposta)]. *)
Definition count_status (counters : nat * nat * nat * nat) (doc : string * Lembrete)
    : nat * nat * nat * nat :=
  let '(tomados, naoTomados, adiados, semResposta) := counters in
  let st := status doc.2 in
  if String.eqb st "tomou" then (S tomados, naoTomados, adiados, semResposta)
  else if String.eqb st "nao_tomou" then (tomados, S naoTomados, adiados, semResposta)
  else if String.eqb st "adiado" then (tomados, naoTomados, S adiados, semResposta)
  else if String.eqb st "enviado" || String.eqb st "alerta_enviado"
       then (tomados, naoTomados, adiados, S semResposta)
  else counters.

Definition statistics_of (docs : list (string * Lembrete)) : Statistics :=
  let '(tomados, naoTomados, adiados, semResposta) :=
    foldl count_status (0, 0, 0, 0)%nat docs in
  {| st_total := tomados + naoTomados + adiados + semResposta;
     st_tomados := tomados; st_naoTomados := naoTomados;
     st_adiados := adiados; st_semResposta := semResposta |}.

(** What [getHealthStatus] answers under [services], with [status]. *)
Record Health := {
  h_status : string;
  h_timestamp : string;
  h_firebase : bool;
  h_twilio : bool;
  h_timezone : string
}.

(** The answer of [getHealthStatus]: the report, or from its [catch] a
    status code with [{ status, error }]. *)
Inductive HealthResponse :=
| HealthOk (health : Health)
| HealthError (http_status : Z) (status error : string).

Section MoreFunctions.

Variable env : Env.

(** The HTTP function on [req.query = { idosoId, date }], for a [date] the
    host reads as a day.  The host's reading comes in as [startOfDay],
    [endOfDay] (the bounds as Firestore timestamps) and [iso]
    ([targetDate.toISOString()]). *)
Definition generateReport (idosoId date : option string)
    (startOfDay endOfDay : Z) (iso : string) : M ReportResponse :=
  try_catch
    (if JS.falsy idosoId || JS.falsy date
     then ret (ReportError 400 "idosoId and date are required")
     else
       let* lembretesSnapshot :=
         storage env (fun _ w =>
           (Val (lembretes_do_dia (default "" idosoId) startOfDay endOfDay w), w)) in
       ret (ReportData iso (default "" idosoId) (statistics_of lembretesSnapshot)))
    (fun e => ret (ReportError 500 e)).

(** The HTTP function [getHealthStatus]; [now] is [new Date().toISOString()]. *)
Definition getHealthStatus (now : string) : HealthResponse :=
  match twilioClient_of env with
  | Val twilioClient =>
      let cfg := getTwilioConfig env in
      HealthOk {| h_status := "ok"; h_timestamp := now; h_firebase := true;
                  h_twilio := twilioClient && negb (JS.falsy (cfg_phone cfg));
                  h_timezone := "America/Sao_Paulo" |}
  | Throw e => HealthError 500 "error" e
  end.

(** *** Histories *)

(** One invocation of a function of the system, or one run of the tick's
    block [dispatch] under given values of its locals. *)
Inductive Action :=
| Tick (host : Host)
| Dispatch (currentDay : option Z) (currentTime : string)
| Webhook (From Body : option string).

(** The world an invocation leaves. *)
Definition step (a : Action) (w : World) : World :=
  match a with
  | Tick host => (checkMedicationReminders env host w).2
  | Dispatch currentDay currentTime => (dispatch env currentDay currentTime w).2
  | Webhook From Body => (handleWhatsAppWebhook env From Body w).2
  end.

(** Invocations one after the other. *)
Definition run (history : list Action) (w : World) : World :=
  foldl (fun w' a => step a w') w history.

End MoreFunctions.

(** ** More vocabulary *)

(** From [w] to [w'] the patients are the same and every ledger entry is
    still there, either as it was or, if it was pending, with one reply
    recorded on it. *)
Definition evolves (w w' : World) : Prop :=
  idosos w' = idosos w
  /\ forall k l, lembretes_status w !! k = Some l ->
       lembretes_status w' !! k = Some l
       \/ (status l = "enviado"
           /\ exists code newStatus ts,
                (code, newStatus) ∈ [("1", "tomou"); ("2", "nao_tomou"); ("3", "adiado")]
                /\ lembretes_status w' !! k = Some (update_reply newStatus ts code l)).

(** From [w] to [w'] no collection changed. *)
Definition same_store (w w' : World) : Prop :=
  medicamentos w' = medicamentos w /\ idosos w' = idosos w
  /\ lembretes_status w' = lembretes_status w.

(** From [w] to [w'] the medications and the patients are the same and every
    ledger entry is still there as it was. *)
Definition keeps_entries (w w' : World) : Prop :=
  medicamentos w' = medicamentos w /\ idosos w' = idosos w
  /\ forall k l, lembretes_status w !! k = Some l -> lembretes_status w' !! k = Some l.

(** Medication document [d] is active and due at [(currentDay, currentTime)],
    and the document of its patient exists. *)
Definition due_in (currentDay : Z) (currentTime : string) (w : World)
    (d : string * Medicamento) : Prop :=
  medicamentos w !! d.1 = Some d.2
  /\ m_ativo d.2 = true
  /\ isDue d.2 currentDay currentTime = true
  /\ is_Some (idosos w !! m_idosoId d.2).

(** Patient [id] has no active medication. *)
Definition opted_out (id : string) (w : World) : Prop :=
  forall k m, medicamentos w !! k = Some m -> m_idosoId m = id -> m_ativo m = false.

(** From [w] to [w'] no medication appeared or disappeared, and each one is
    as it was or, if it was active, deactivated. *)
Definition winds_down (w w' : World) : Prop :=
  forall k,
    medicamentos w' !! k = medicamentos w !! k
    \/ exists m ts, medicamentos w !! k = Some m /\ m_ativo m = true
                    /\ medicamentos w' !! k = Some (deactivate ts m).

(** A computation that leaves the medications alone, however it ends. *)
Definition keeps_meds {A} (m : M A) : Prop :=
  forall w r w', m w = (r, w') -> medicamentos w' = medicamentos w.

(** How many of [docs] have one of the statuses [sts]. *)
Definition with_status (sts : list string) (docs : list (string * Lembrete)) : nat :=
  length (filter (fun d => status d.2 ∈ sts) docs).

(** The statuses the report counts. *)
Definition counted : list string :=
  ["tomou"; "nao_tomou"; "adiado"; "enviado"; "alerta_enviado"].

(** From [w] to [w'] only [ops] moved. *)
Definition untouched (w w' : World) : Prop :=
  medicamentos w' = medicamentos w /\ idosos w' = idosos w
  /\ lembretes_status w' = lembretes_status w /\ log w' = log w.

Definition all_digits (s : string) : Prop := JS.onlyDigits s = s.

(** The gateway configuration is missing. *)
Definition unconfigured (env : Env) : Prop :=
  JS.falsy (cfg_sid (getTwilioConfig env)) || JS.falsy (cfg_token (getTwilioConfig env))
  || JS.falsy (cfg_phone (getTwilioConfig env)) = true.

(** What a send can return when the library accepts the configuration: the
    configuration failure, or the gateway's answer to a message. *)
Definition send_outcome (env : Env) (res : SendResult) : Prop :=
  (unconfigured env /\ res = SendFail "Twilio not configured")
  \/ (~ unconfigured env
      /\ exists n to message,
           res = match messages_create env n (default "" (cfg_phone (getTwilioConfig env)))
                         (formatPhoneForWhatsApp to) message with
                 | Created sid st => SendOk sid st
                 | Rejected e => SendFail e
                 end).

Definition env_unconfigured : Env :=
  {| getTwilioConfig := {| cfg_sid := Some "AC0001"; cfg_token := None;
                           cfg_phone := Some "whatsapp:+14155238886" |};
     twilio := twilio_library;
     messages_create := fun _ _ _ _ => Created "SM0001" "queued";
     storage_rejects := fun _ => None;
     serverTimestamp := fun n => 1000 + Z.of_nat n |}.

(** The environment [env] with a gateway library that accepts every
    configuration. *)
Definition with_accepting_library (env : Env) : Env :=
  {| getTwilioConfig := getTwilioConfig env;
     twilio := fun _ _ => None;
     messages_create := messages_create env;
     storage_rejects := storage_rejects env;
     serverTimestamp := serverTimestamp env |}.

(** A configuration whose account SID the gateway library refuses. *)
Definition env_refused_sid : Env :=
  {| getTwilioConfig := {| cfg_sid := Some "SK0001"; cfg_token := Some "token";
                           cfg_phone := Some "whatsapp:+14155238886" |};
     twilio := twilio_library;
     messages_create := fun _ _ _ _ => Created "SM0001" "queued";
     storage_rejects := fun _ => None;
     serverTimestamp := fun n => 1000 + Z.of_nat n |}.

(** The store rejects the fourth I/O step of a webhook call that starts at
    step 0: for a reply "3" on a pending reminder, the write of the
    postponed entry. *)
Definition env_storage_down_at_3 : Env :=
  {| getTwilioConfig := twilio_configured;
     twilio := twilio_library;
     messages_create := fun _ _ _ _ => Created "SM0001" "queued";
     storage_rejects := fun n => if (n =? 3)%nat then Some "UNAVAILABLE" else None;
     serverTimestamp := fun n => 1000 + Z.of_nat n |}.

(** The two reminders of Monday 09:00 as the first loop queues them, and the
    world once their entries are committed (four I/O steps in). *)
Definition reminder_losartana : Reminder :=
  {| r_idoso := ("p1", maria); r_medicamento := ("m1", losartana); lembreteId := "0" |}.

Definition reminder_aas : Reminder :=
  {| r_idoso := ("p1", maria); r_medicamento := ("m2", aas); lembreteId := "1" |}.

Definition w_committed : World :=
  (collect_and_commit env_accepting (Some 1) "09:00" w_registered).2.

(** * Properties *)

(** ** Schedule test *)

Lemma includes_In (x : Z) (arr : list Z) : JS.includes x arr = true <-> In x arr.
Proof.
  unfold JS.includes. rewrite existsb_exists. split.
  - intros [y [Hy Heq]]. apply Z.eqb_eq in Heq. now subst.
  - intros Hx. exists x. split; [assumption | apply Z.eqb_refl].
Qed.

Lemma isTimeToRemind_spec (horarios : list string) (currentTime : string) :
  isTimeToRemind horarios currentTime = true
  <-> exists horario, In horario horarios /\ JS.substring0 5 horario = currentTime.
Proof.
  unfold isTimeToRemind. rewrite existsb_exists.
  split; intros [h [Hin Heq]]; exists h; split; try assumption;
    now apply String.eqb_eq.
Qed.

Lemma substring0_short (n : nat) (s : string) :
  (String.length s <= n)%nat -> JS.substring0 n s = s.
Proof.
  unfold JS.substring0. revert n.
  induction s as [|c s IH]; intros [|n] Hlen; simpl in *; try reflexivity; try lia.
  f_equal. apply IH. lia.
Qed.

(** For entries written as HH:MM the time test is plain membership. *)
Lemma isTimeToRemind_hhmm (horarios : list string) (currentTime : string) :
  Forall (fun h => (String.length h <= 5)%nat) horarios ->
  (isTimeToRemind horarios currentTime = true <-> In currentTime horarios).
Proof.
  intros Hshort. rewrite isTimeToRemind_spec. rewrite Forall_forall in Hshort.
  split.
  - intros [h [Hin Heq]]. rewrite substring0_short in Heq.
    + now subst.
    + apply Hshort. now apply list_elem_of_In.
  - intros Hin. exists currentTime. split; [assumption|].
    apply substring0_short, Hshort. now apply list_elem_of_In.
Qed.

Example nine_is_not_nine_oh_one :
  isTimeToRemind ["09:00"] "09:01" = false /\ isTimeToRemind ["09:01"] "09:00" = false.
Proof. split; reflexivity. Qed.

(** C2, as stated, fails: an entry carrying seconds fires at its minute
    although the current time is none of the medication's entries. *)
Lemma isDue_not_exact_equality :
  let med := {| m_idosoId := "p1"; m_nome := "AAS"; m_dosagem := "100mg";
                m_ativo := true; m_diasDaSemana := [1];
                m_horarios := ["09:00:00"]; m_desativadoEm := None |} in
  ~ (isDue med 1 "09:00" = true
     <-> In 1 (m_diasDaSemana med) /\ In "09:00" (m_horarios med)).
Proof.
  simpl. intros [Hfires _].
  destruct (Hfires eq_refl) as [_ [Heq | []]]. discriminate Heq.
Qed.

(** C2 (amended): the matcher fires exactly when the current day is one of
    the medication's weekdays and the current time equals the first five
    characters of one of its time-of-day entries; when the entries are
    written as HH:MM (no entry longer than five characters) that is plain
    string equality with one of the entries. *)
Theorem isDue_spec (medicamento : Medicamento) (currentDay : Z) (currentTime : string) :
  (isDue medicamento currentDay currentTime = true
   <-> In currentDay (m_diasDaSemana medicamento)
       /\ exists horario, In horario (m_horarios medicamento)
                          /\ JS.substring0 5 horario = currentTime)
  /\ (Forall (fun h => (String.length h <= 5)%nat) (m_horarios medicamento) ->
      (isDue medicamento currentDay currentTime = true
       <-> In currentDay (m_diasDaSemana medicamento)
           /\ In currentTime (m_horarios medicamento))).
Proof.
  unfold isDue. split.
  - rewrite andb_true_iff, includes_In, isTimeToRemind_spec. reflexivity.
  - intros Hshort. rewrite andb_true_iff, includes_In, isTimeToRemind_hhmm by assumption.
    reflexivity.
Qed.

(** ** The latest pending reminder *)

#[local] Instance mais_recente_total : Total mais_recente.
Proof. intros a b. unfold mais_recente. lia. Qed.

#[local] Instance mais_recente_trans : Transitive mais_recente.
Proof. intros a b c. unfold mais_recente. lia. Qed.

(** ** The clock *)

Lemma getCurrentBrazilTime_run (host : Host) (w : World) :
  getCurrentBrazilTime host w
  = (if knows_time_zone host "America/Sao_Paulo"
     then Val (format_now host "en-US" time_options)
     else Throw (range_error host "timeZone" "America/Sao_Paulo"),
     w).
Proof.
  unfold getCurrentBrazilTime, toLocaleString. simpl.
  now destruct (knows_time_zone host "America/Sao_Paulo").
Qed.

Lemma getCurrentDayOfWeek_run (host : Host) (w : World) :
  getCurrentDayOfWeek host w
  = (Throw (if knows_time_zone host "America/Sao_Paulo"
            then range_error host "weekday" "numeric"
            else range_error host "timeZone" "America/Sao_Paulo"),
     w).
Proof.
  unfold getCurrentDayOfWeek, toLocaleString. simpl.
  now destruct (knows_time_zone host "America/Sao_Paulo").
Qed.

(** The tick never gets past its clock reads. *)
Lemma tick_rethrows (env : Env) (host : Host) (w : World) :
  checkMedicationReminders env host w
  = (Throw (if knows_time_zone host "America/Sao_Paulo"
            then range_error host "weekday" "numeric"
            else range_error host "timeZone" "America/Sao_Paulo"),
     w).
Proof.
  unfold checkMedicationReminders, try_catch, bind.
  rewrite getCurrentBrazilTime_run.
  destruct (knows_time_zone host "America/Sao_Paulo") eqn:Htz; [| reflexivity].
  rewrite getCurrentDayOfWeek_run. now rewrite Htz.
Qed.

(** C9 (the code breaks it): the time of day is asked for with valid options
    and comes back as the host renders it, but the day of the week is asked
    for with [weekday: 'numeric'], which is none of the values of that
    option: on every host and at every instant [getCurrentDayOfWeek] throws
    a RangeError instead of yielding a day. *)
Theorem day_of_week_read_always_throws (host : Host) (w : World) :
  (exists e, getCurrentDayOfWeek host w = (Throw e, w))
  /\ (knows_time_zone host "America/Sao_Paulo" = true ->
      getCurrentBrazilTime host w = (Val (format_now host "en-US" time_options), w)
      /\ getCurrentDayOfWeek host w = (Throw (range_error host "weekday" "numeric"), w)).
Proof.
  rewrite getCurrentDayOfWeek_run, getCurrentBrazilTime_run.
  split; [eauto|]. intros ->. split; reflexivity.
Qed.

(** On a host that knows the time zone and reads Monday 09:00, the time read
    yields "09:00" and the day read throws. *)
Lemma day_of_week_read_always_throws_witness :
  knows_time_zone host_monday_0900 "America/Sao_Paulo" = true
  /\ getCurrentBrazilTime host_monday_0900 w_registered = (Val "09:00", w_registered)
  /\ getCurrentDayOfWeek host_monday_0900 w_registered
     = (Throw "Value numeric out of range for Intl.DateTimeFormat options property weekday",
        w_registered).
Proof.
  split; [reflexivity|].
  exact (proj2 (day_of_week_read_always_throws host_monday_0900 w_registered) eq_refl).
Defined.

Lemma maria_medications_due :
  Forall (due_in 1 "09:00" w_registered) [("m1", losartana); ("m2", aas)].
Proof.
  constructor; [| constructor; [| constructor]];
    (split; [vm_compute; reflexivity|]); (split; [reflexivity|]);
    (split; [reflexivity|]); exists maria; vm_compute; reflexivity.
Qed.

(** C3 (the code breaks it): on a Monday at 09:00, with two active
    medications due then, their patient on file and every service
    answering, the tick fails with the RangeError of its day-of-week read,
    before its first storage call: no ledger entry is created, nothing is
    committed and the world is as it was.  Given the two values of the
    clock, the rest of the tick does commit an entry for each of the two. *)
Theorem tick_at_due_medications_commits_nothing :
  let out := checkMedicationReminders env_accepting host_monday_0900 w_registered in
  Forall (due_in 1 "09:00" w_registered) [("m1", losartana); ("m2", aas)]
  /\ out.1
     = Throw "Value numeric out of range for Intl.DateTimeFormat options property weekday"
  /\ out.2 = w_registered
  /\ lembretes_status out.2 = ∅
  /\ exists rems w1,
       collect_and_commit env_accepting (Some 1) "09:00" w_registered = (Val rems, w1)
       /\ map r_medicamento rems = [("m1", losartana); ("m2", aas)]
       /\ Forall (fun r => exists l, lembretes_status w1 !! lembreteId r = Some l
                                     /\ status l = "enviado") rems.
Proof.
  cbv zeta. rewrite tick_rethrows.
  split; [exact maria_medications_due|].
  split; [vm_compute; reflexivity|]. split; [reflexivity|]. split; [reflexivity|].
  eexists. eexists. split; [vm_compute; reflexivity|].
  split; [reflexivity|].
  constructor; [| constructor; [| constructor]];
    eexists; (split; [vm_compute; reflexivity | reflexivity]).
Qed.



Lemma lembretes_enviados_elem (id : string) (w : World) (k : string) (l : Lembrete) :
  (k, l) ∈ lembretes_enviados id w
  <-> lembretes_status w !! k = Some l /\ idosoId l = id /\ status l = "enviado".
Proof.
  unfold lembretes_enviados. rewrite list_elem_of_filter, elem_of_map_to_list. simpl.
  tauto.
Qed.

Lemma latest_pending_nil (id : string) (w : World) :
  latest_pending id w = []
  <-> forall k l, lembretes_status w !! k = Some l -> idosoId l = id ->
                  status l <> "enviado".
Proof.
  unfold latest_pending.
  pose proof (merge_sort_Permutation mais_recente (lembretes_enviados id w)) as Hperm.
  split.
  - intros Hnil k l Hk Hid Hst.
    assert (Hin : (k, l) ∈ merge_sort mais_recente (lembretes_enviados id w)).
    { rewrite Hperm. apply lembretes_enviados_elem. auto. }
    destruct (merge_sort mais_recente (lembretes_enviados id w)); [inversion Hin | discriminate].
  - intros Hnone.
    destruct (merge_sort mais_recente (lembretes_enviados id w)) as [|[k l] rest] eqn:Hs;
      [reflexivity | exfalso].
    assert (Hin : (k, l) ∈ lembretes_enviados id w).
    { rewrite <- Hperm. left. }
    apply lembretes_enviados_elem in Hin as (Hk & Hid & Hst).
    exact (Hnone k l Hk Hid Hst).
Qed.

Lemma latest_pending_head (id : string) (w : World) (k : string) (l : Lembrete)
    (rest : list (string * Lembrete)) :
  latest_pending id w = (k, l) :: rest ->
  rest = []
  /\ lembretes_status w !! k = Some l /\ idosoId l = id /\ status l = "enviado"
  /\ forall k' l', lembretes_status w !! k' = Some l' -> idosoId l' = id ->
                   status l' = "enviado" -> dataHora l' <= dataHora l.
Proof.
  unfold latest_pending. intros Htake.
  pose proof (merge_sort_Permutation mais_recente (lembretes_enviados id w)) as Hperm.
  pose proof (StronglySorted_merge_sort mais_recente (lembretes_enviados id w))
    as Hsorted.
  destruct (merge_sort mais_recente (lembretes_enviados id w)) as [|x sorted];
    [discriminate|].
  simpl in Htake. rewrite take_0 in Htake. injection Htake as -> <-.
  split; [reflexivity|].
  assert (Hin : (k, l) ∈ lembretes_enviados id w) by (rewrite <- Hperm; left).
  apply lembretes_enviados_elem in Hin as (Hk & Hid & Hst).
  repeat split; try assumption.
  intros k' l' Hk' Hid' Hst'.
  assert (Hin' : (k', l') ∈ (k, l) :: sorted).
  { rewrite Hperm. apply lembretes_enviados_elem. auto. }
  apply StronglySorted_inv in Hsorted as [_ Hall].
  apply elem_of_cons in Hin' as [Heq | Hin'].
  - injection Heq as _ ->. lia.
  - rewrite Forall_forall in Hall. exact (Hall _ Hin').
Qed.

(** C4: the query for the latest pending reminder returns nothing exactly
    when the patient has no reminder in status 'enviado'; it never returns
    more than one document; the document it returns is a ledger entry of
    that patient in status 'enviado' whose creation timestamp no other such
    entry exceeds. *)
Theorem latest_pending_spec (id : string) (w : World) :
  (length (latest_pending id w) <= 1)%nat
  /\ (latest_pending id w = []
      <-> forall k l, lembretes_status w !! k = Some l -> idosoId l = id ->
                      status l <> "enviado")
  /\ forall k l, (k, l) ∈ latest_pending id w ->
       lembretes_status w !! k = Some l /\ idosoId l = id /\ status l = "enviado"
       /\ forall k' l', lembretes_status w !! k' = Some l' -> idosoId l' = id ->
                        status l' = "enviado" -> dataHora l' <= dataHora l.
Proof.
  split; [|split].
  - unfold latest_pending. rewrite length_take. lia.
  - apply latest_pending_nil.
  - intros k l Hin.
    destruct (latest_pending id w) as [|[k0 l0] rest] eqn:Hlp; [inversion Hin|].
    destruct (latest_pending_head id w k0 l0 rest Hlp) as (-> & Hrest).
    apply list_elem_of_singleton in Hin. injection Hin as -> ->. exact Hrest.
Qed.

(** ** Running the primitives when storage is reliable *)

Arguments latest_pending : simpl never.
Arguments autoId : simpl never.
Arguments medicamentos_ativos : simpl never.
Arguments medicamentos_ativos_de : simpl never.
Arguments idosos_por_whatsapp : simpl never.
Arguments helpMessage : simpl never.
Arguments createReminderMessage : simpl never.

Lemma try_catch_rethrow {A} (m : M A) (w : World) :
  try_catch m (fun e w' => (Throw e, w')) w = m w.
Proof. unfold try_catch. now destruct (m w) as [[a|e] w']. Qed.

Lemma bind_val {A B} (m : M A) (k : A -> M B) (w w' : World) (a : A) :
  m w = (Val a, w') -> bind m k w = k a w'.
Proof. intros H. unfold bind. now rewrite H. Qed.

Lemma bind_throw {A B} (m : M A) (k : A -> M B) (w w' : World) (e : string) :
  m w = (Throw e, w') -> bind m k w = (Throw e, w').
Proof. intros H. unfold bind. now rewrite H. Qed.

Lemma new_doc_ref_ok (reserved : list string) (w : World) :
  new_doc_ref reserved w = (Val (autoId reserved w), w).
Proof. reflexivity. Qed.

(** What a send does, by what [getTwilioClient()] gives. *)
Lemma send_cases (env : Env) (to message : string) (w : World) :
  sendWhatsAppMessage env to message w
  = match twilioClient_of env with
    | Throw e => (Throw e, w)
    | Val client =>
        if negb client || JS.falsy (cfg_phone (getTwilioConfig env))
        then (Val (SendFail "Twilio not configured"),
              emit (EvSend to message (SendFail "Twilio not configured")) w)
        else
          let r := match messages_create env (ops w)
                           (default "" (cfg_phone (getTwilioConfig env)))
                           (formatPhoneForWhatsApp to) message with
                   | Created sid st => SendOk sid st
                   | Rejected e => SendFail e
                   end in
          (Val r, emit (EvSend to message r) (set_ops (S (ops w)) w))
    end.
Proof.
  unfold sendWhatsAppMessage, getTwilioClient, bind.
  destruct (twilioClient_of env) as [client | e]; [| reflexivity].
  now destruct (negb client || JS.falsy _).
Qed.

(** With a client or with [null], the client is there exactly when SID and
    token are. *)
Lemma twilioClient_val (env : Env) (client : bool) :
  twilioClient_of env = Val client ->
  client = negb (JS.falsy (cfg_sid (getTwilioConfig env))
                 || JS.falsy (cfg_token (getTwilioConfig env))).
Proof.
  unfold twilioClient_of.
  destruct (JS.falsy _ || JS.falsy _); [intros H; now injection H as <-|].
  destruct (twilio env _ _); [discriminate|]. intros H. now injection H as <-.
Qed.

Lemma send_unconfigured (env : Env) (to message : string) (w : World) :
  (forall e, twilioClient_of env <> Throw e) ->
  unconfigured env ->
  sendWhatsAppMessage env to message w
  = (Val (SendFail "Twilio not configured"),
     emit (EvSend to message (SendFail "Twilio not configured")) w).
Proof.
  intros Hclient Hun. rewrite send_cases.
  destruct (twilioClient_of env) as [client | e] eqn:Hc; [| now destruct (Hclient e)].
  apply twilioClient_val in Hc. unfold unconfigured in Hun. subst client.
  destruct (JS.falsy (cfg_sid _)), (JS.falsy (cfg_token _)), (JS.falsy (cfg_phone _));
    try reflexivity. discriminate Hun.
Qed.

Lemma send_configured (env : Env) (to message : string) (w : World) :
  (forall e, twilioClient_of env <> Throw e) ->
  ~ unconfigured env ->
  exists r,
    sendWhatsAppMessage env to message w
    = (Val r, emit (EvSend to message r) (set_ops (S (ops w)) w))
    /\ r = match messages_create env (ops w) (default "" (cfg_phone (getTwilioConfig env)))
                   (formatPhoneForWhatsApp to) message with
           | Created sid st => SendOk sid st
           | Rejected e => SendFail e
           end.
Proof.
  intros Hclient Hcfg. rewrite send_cases.
  destruct (twilioClient_of env) as [client | e] eqn:Hc; [| now destruct (Hclient e)].
  apply twilioClient_val in Hc. unfold unconfigured in Hcfg. subst client.
  destruct (JS.falsy (cfg_sid _)), (JS.falsy (cfg_token _)), (JS.falsy (cfg_phone _));
    try (now contradiction Hcfg).
  eexists. split; reflexivity.
Qed.

Section Reliable.

Variable env : Env.
Hypothesis Hrel : reliable env.

Lemma storage_ok {A} (call : nat -> World -> Res A * World) (w : World) :
  storage env call w = call (ops w) (set_ops (S (ops w)) w).
Proof. unfold storage. now rewrite (proj1 Hrel). Qed.

Lemma get_idosos_por_whatsapp_ok (phone : string) (w : World) :
  get_idosos_por_whatsapp env phone w
  = (Val (idosos_por_whatsapp phone w), set_ops (S (ops w)) w).
Proof. unfold get_idosos_por_whatsapp. now rewrite storage_ok. Qed.

Lemma get_latest_pending_ok (id : string) (w : World) :
  get_latest_pending env id w = (Val (latest_pending id w), set_ops (S (ops w)) w).
Proof. unfold get_latest_pending. now rewrite storage_ok. Qed.

Lemma get_medicamentos_ativos_ok (w : World) :
  get_medicamentos_ativos env w = (Val (medicamentos_ativos w), set_ops (S (ops w)) w).
Proof. unfold get_medicamentos_ativos. now rewrite storage_ok. Qed.

Lemma get_medicamentos_ativos_de_ok (id : string) (w : World) :
  get_medicamentos_ativos_de env id w
  = (Val (medicamentos_ativos_de id w), set_ops (S (ops w)) w).
Proof. unfold get_medicamentos_ativos_de. now rewrite storage_ok. Qed.

Lemma get_idoso_ok (id : string) (w : World) :
  get_idoso env id w = (Val (idosos w !! id), set_ops (S (ops w)) w).
Proof. unfold get_idoso. now rewrite storage_ok. Qed.

Lemma update_lembrete_ok (id : string) (fields : Z -> Lembrete -> Lembrete)
    (w : World) (l : Lembrete) :
  lembretes_status w !! id = Some l ->
  update_lembrete env id fields w
  = (Val tt,
     emit (EvUpdate "lembretes_status" id)
       (set_lembretes (<[id := fields (serverTimestamp env (ops w)) l]> (lembretes_status w))
          (set_ops (S (ops w)) w))).
Proof. intros Hl. unfold update_lembrete. rewrite storage_ok. simpl. now rewrite Hl. Qed.

Lemma set_lembrete_ok (id : string) (data : Z -> Lembrete) (w : World) :
  set_lembrete env id data w
  = (Val tt,
     emit (EvSet "lembretes_status" id)
       (set_lembretes (<[id := data (serverTimestamp env (ops w))]> (lembretes_status w))
          (set_ops (S (ops w)) w))).
Proof. unfold set_lembrete. now rewrite storage_ok. Qed.

Lemma commit_sets_ok (batch : list BatchSet) (w : World) :
  commit_sets env batch w
  = (Val tt,
     emit (EvBatchCommit "lembretes_status" batch.*1)
       (set_lembretes (apply_sets (serverTimestamp env (ops w)) batch (lembretes_status w))
          (set_ops (S (ops w)) w))).
Proof. unfold commit_sets. now rewrite storage_ok. Qed.

(** A send returns and touches no collection; it adds one event. *)
Lemma send_effect (to message : string) (w : World) :
  exists r w',
    sendWhatsAppMessage env to message w = (Val r, w')
    /\ medicamentos w' = medicamentos w /\ idosos w' = idosos w
    /\ lembretes_status w' = lembretes_status w
    /\ log w' = (log w ++ [EvSend to message r])%list.
Proof.
  unfold sendWhatsAppMessage, getTwilioClient, bind.
  destruct (twilioClient_of env) as [client | e] eqn:Hclient;
    [| now destruct (proj2 Hrel e)].
  destruct (negb client || JS.falsy _);
    eexists; eexists; (split; [reflexivity|]); simpl; auto.
Qed.

(** The webhook, once the patient query has answered. *)
Lemma webhook_known_patient (From Body : option string) (w : World)
    (id : string) (idoso : Idoso) (rest : list (string * Idoso)) :
  idosos_por_whatsapp (JS.replace "+55" "" (phoneNumber_of From)) w = (id, idoso) :: rest ->
  handleWhatsAppWebhook env From Body w
  = match handle_reply env id idoso (phoneNumber_of From) (message_of Body)
            (set_ops (S (ops w)) w) with
    | (Val _, w') => (Val {| http_status := 200; success := true; error := None |}, w')
    | (Throw e, w') =>
        (Val {| http_status := 500; success := false; error := Some e |}, w')
    end.
Proof.
  intros Hknown. unfold handleWhatsAppWebhook, try_catch, bind.
  rewrite get_idosos_por_whatsapp_ok, Hknown.
  now destruct (handle_reply _ _ _ _ _ _) as [[[]|e] w'].
Qed.

End Reliable.

(** ** Coded replies *)

Lemma autoId_fresh (reserved : list string) (w : World) :
  lembretes_status w !! autoId reserved w = None /\ autoId reserved w ∉ reserved.
Proof.
  unfold autoId.
  pose proof (is_fresh (dom (lembretes_status w) ∪ list_to_set reserved : gset string))
    as Hfresh.
  split.
  - apply not_elem_of_dom. set_solver.
  - intros Hin. apply Hfresh. set_solver.
Qed.

Lemma prop_statusMap (code newStatus : string) :
  (code, newStatus) ∈ [("1", "tomou"); ("2", "nao_tomou"); ("3", "adiado")] ->
  prop statusMap code = Some newStatus /\ code ∈ ["1"; "2"; "3"].
Proof.
  intros H. repeat (apply elem_of_cons in H as [H | H]);
    [injection H as -> -> .. | inversion H]; (split; [reflexivity | set_solver]).
Qed.

Lemma prop_confirmationMessages (idoso : Idoso) (code : string) :
  code ∈ ["1"; "2"; "3"] ->
  exists msg, prop (confirmationMessages idoso) code = Some msg
    /\ (code = "3" ->
        msg = "Ok, vamos lembrar de novo em 10 minutos — responda 1 quando tomar :)").
Proof.
  intros H. repeat (apply elem_of_cons in H as [-> | H]); [.. | inversion H];
    eexists; (split; [reflexivity|]); intros Hc; try discriminate Hc; reflexivity.
Qed.

Section CodedReplies.

Variable env : Env.
Hypothesis Hrel : reliable env.

Lemma record_reply_none (id message : string) (w : World) :
  latest_pending id w = [] ->
  record_reply env id message w = (Val tt, set_ops (S (ops w)) w).
Proof.
  intros Hnone. unfold record_reply.
  rewrite (bind_val _ _ _ _ _ (get_latest_pending_ok env Hrel id w)).
  now rewrite Hnone.
Qed.

Lemma record_reply_some (id message : string) (w : World) (k : string) (l : Lembrete)
    (rest : list (string * Lembrete)) :
  latest_pending id w = (k, l) :: rest ->
  let l' := update_reply (default "" (prop statusMap message))
              (serverTimestamp env (S (ops w))) message l in
  exists w',
    record_reply env id message w = (Val tt, w')
    /\ medicamentos w' = medicamentos w /\ idosos w' = idosos w
    /\ (message <> "3" ->
        lembretes_status w' = <[k := l']> (lembretes_status w)
        /\ log w' = (log w ++ [EvUpdate "lembretes_status" k])%list)
    /\ (message = "3" ->
        exists ref,
          lembretes_status w !! ref = None
          /\ lembretes_status w'
             = <[ref := delayedReminder l id (serverTimestamp env (S (S (ops w))))]>
                 (<[k := l']> (lembretes_status w))
          /\ log w' = (log w ++ [EvUpdate "lembretes_status" k;
                                 EvSet "lembretes_status" ref])%list).
Proof.
  intros Hsome l'.
  destruct (latest_pending_head id w k l rest Hsome) as (_ & Hk & _).
  unfold record_reply.
  rewrite (bind_val _ _ _ _ _ (get_latest_pending_ok env Hrel id w)).
  rewrite Hsome.
  erewrite bind_val; [| apply (update_lembrete_ok env Hrel); exact Hk].
  simpl ops. fold l'.
  destruct (String.eqb_spec message "3") as [-> | Hne].
  - set (w1 := emit _ _).
    rewrite (bind_val _ _ _ _ _ (new_doc_ref_ok [] w1)).
    rewrite (set_lembrete_ok env Hrel).
    eexists. split; [reflexivity|]. simpl.
    repeat split; try congruence.
    intros _. exists (autoId [] w1).
    destruct (autoId_fresh [] w1) as [Hfresh _]. simpl in Hfresh.
    split; [| split].
    + destruct (decide (autoId [] w1 = k)) as [Heq | Hneq].
      * rewrite Heq, lookup_insert_eq in Hfresh. discriminate.
      * now rewrite lookup_insert_ne in Hfresh.
    + reflexivity.
    + now rewrite <- app_assoc.
  - eexists. split; [reflexivity|]. simpl.
    repeat split; try congruence.
Qed.

End CodedReplies.


Lemma handle_reply_coded (env : Env) (id : string) (idoso : Idoso)
    (phoneNumber code : string) (w0 : World) :
  code ∈ ["1"; "2"; "3"] ->
  handle_reply env id idoso phoneNumber code w0
  = bind (record_reply env id code)
      (fun _ => bind (sendWhatsAppMessage env phoneNumber
                        (default "" (prop (confirmationMessages idoso) code)))
                  (fun _ => ret tt)) w0.
Proof. intros Hcode. unfold handle_reply. now rewrite bool_decide_true. Qed.

(** A coded reply from a known patient: the ledger block runs to its end,
    then the confirmation is sent, and the send leaves the store alone. *)
Lemma webhook_coded_run (env : Env) (From : option string) (body : string) (w : World)
    (id : string) (idoso : Idoso) (others : list (string * Idoso)) (code : string) :
  reliable env ->
  idosos_por_whatsapp (JS.replace "+55" "" (phoneNumber_of From)) w = (id, idoso) :: others ->
  JS.trim body = code ->
  code ∈ ["1"; "2"; "3"] ->
  exists w1 w2 msg r,
    record_reply env id code (set_ops (S (ops w)) w) = (Val tt, w1)
    /\ handleWhatsAppWebhook env From (Some body) w
       = (Val {| http_status := 200; success := true; error := None |}, w2)
    /\ prop (confirmationMessages idoso) code = Some msg
    /\ log w2 = (log w1 ++ [EvSend (phoneNumber_of From) msg r])%list
    /\ lembretes_status w2 = lembretes_status w1
    /\ medicamentos w2 = medicamentos w1.
Proof.
  intros Hrel Hknown Htrim Hcode.
  destruct (prop_confirmationMessages idoso code Hcode) as (msg & Hmsg & _).
  assert (Hrun : exists w1, record_reply env id code (set_ops (S (ops w)) w) = (Val tt, w1)).
  { destruct (latest_pending id (set_ops (S (ops w)) w)) as [|[k l] rest] eqn:Hlp.
    - eexists. now apply record_reply_none.
    - destruct (record_reply_some env Hrel id code _ k l rest Hlp) as (w1 & Hrun & _).
      now exists w1. }
  destruct Hrun as [w1 Hrun].
  destruct (send_effect env Hrel (phoneNumber_of From) msg w1)
    as (r & w2 & Hsend & Hmeds & _ & Hledger & Hlog).
  exists w1, w2, msg, r.
  rewrite (webhook_known_patient env Hrel From (Some body) w id idoso others Hknown).
  simpl message_of. rewrite Htrim, (handle_reply_coded env id idoso _ code _ Hcode).
  rewrite (bind_val _ _ _ _ _ Hrun), Hmsg. simpl default.
  rewrite (bind_val _ _ _ _ _ Hsend). unfold ret. auto 10.
Qed.

(** ** Opt-out *)

Lemma apply_deactivations_lookup (ts : Z) (ids : list string)
    (ms : gmap string Medicamento) (k : string) :
  apply_deactivations ts ids ms !! k
  = if decide (k ∈ ids) then deactivate ts <$> ms !! k else ms !! k.
Proof.
  unfold apply_deactivations. revert ms.
  induction ids as [|i ids IH]; intros ms; simpl.
  - destruct (decide (k ∈ [])) as [Hin|]; [inversion Hin | reflexivity].
  - rewrite IH.
    destruct (decide (i = k)) as [-> | Hne].
    + rewrite lookup_alter_eq.
      rewrite (decide_True (P := k ∈ k :: ids)) by apply list_elem_of_here.
      destruct (decide (k ∈ ids)) as [Hin | Hout]; [| reflexivity].
      now destruct (ms !! k).
    + rewrite lookup_alter_ne by assumption.
      destruct (decide (k ∈ ids)).
      * rewrite (decide_True (P := k ∈ i :: ids)) by (now right). reflexivity.
      * rewrite (decide_False (P := k ∈ i :: ids)); [reflexivity|].
        intros [Heq | Hin]%elem_of_cons; [now apply Hne | contradiction].
Qed.

Lemma medicamentos_ativos_de_elem (id : string) (w : World) (k : string)
    (m : Medicamento) :
  (k, m) ∈ medicamentos_ativos_de id w
  <-> medicamentos w !! k = Some m /\ m_idosoId m = id /\ m_ativo m = true.
Proof.
  unfold medicamentos_ativos_de. rewrite list_elem_of_filter, elem_of_map_to_list.
  simpl. tauto.
Qed.

Lemma medicamentos_ativos_de_ids (id : string) (w : World) (k : string) :
  k ∈ (medicamentos_ativos_de id w).*1
  <-> exists m, medicamentos w !! k = Some m /\ m_idosoId m = id /\ m_ativo m = true.
Proof.
  rewrite list_elem_of_fmap. split.
  - intros [[k' m] [-> Hin]]. exists m. now apply medicamentos_ativos_de_elem.
  - intros [m Hm]. exists (k, m). split; [reflexivity|].
    now apply medicamentos_ativos_de_elem.
Qed.

Lemma commit_deactivations_ok (env : Env) (ids : list string) (w : World) :
  reliable env ->
  (forall k, k ∈ ids -> is_Some (medicamentos w !! k)) ->
  commit_deactivations env ids w
  = (Val tt,
     emit (EvBatchCommit "medicamentos" ids)
       (set_medicamentos
          (apply_deactivations (serverTimestamp env (ops w)) ids (medicamentos w))
          (set_ops (S (ops w)) w))).
Proof.
  intros Hrel Hall. unfold commit_deactivations. rewrite (storage_ok env Hrel). simpl.
  replace (forallb _ ids) with true; [reflexivity|].
  symmetry. apply forallb_forall. intros k Hk.
  apply bool_decide_eq_true_2, Hall. now apply list_elem_of_In.
Qed.

(** What lowers to a small ASCII letter is that letter or its capital. *)
Lemma lowerChar_letter (c : ascii) :
  ((97 <=? nat_of_ascii (JS.lowerChar c)) && (nat_of_ascii (JS.lowerChar c) <=? 122))%nat
  = true ->
  c = JS.lowerChar c \/ c = ascii_of_nat (nat_of_ascii (JS.lowerChar c) - 32).
Proof.
  destruct c as [[] [] [] [] [] [] [] []]; vm_compute; intros H;
    try discriminate H; auto.
Qed.

(** A body that reads "sair" in some letter case has nothing to trim. *)
Lemma sair_needs_no_trim (body : string) :
  JS.toLowerCase body = "sair" -> message_of (Some body) = body.
Proof.
  intros Hsair.
  destruct body as [|c1 [|c2 [|c3 [|c4 [|c5 rest]]]]]; try discriminate Hsair.
  simpl in Hsair. injection Hsair as H1 H2 H3 H4.
  pose proof (lowerChar_letter c1) as L1. pose proof (lowerChar_letter c2) as L2.
  pose proof (lowerChar_letter c3) as L3. pose proof (lowerChar_letter c4) as L4.
  rewrite H1 in L1. rewrite H2 in L2. rewrite H3 in L3. rewrite H4 in L4.
  destruct (L1 eq_refl) as [-> | ->]; destruct (L2 eq_refl) as [-> | ->];
    destruct (L3 eq_refl) as [-> | ->]; destruct (L4 eq_refl) as [-> | ->];
    reflexivity.
Qed.

Lemma sair_is_no_code (message : string) :
  JS.toLowerCase message = "sair" -> message ∉ ["1"; "2"; "3"].
Proof.
  intros Hsair Hin.
  repeat (apply elem_of_cons in Hin as [-> | Hin]); try discriminate Hsair.
  inversion Hin.
Qed.

(** Throughout this section every storage call of the webhook resolves and
    the gateway library does not refuse the configuration. *)
Section WebhookClaims.

Variable env : Env.
Hypothesis Hrel : reliable env.

Variables (From : option string) (w : World).
Variables (id : string) (idoso : Idoso) (others : list (string * Idoso)).

(** The sender is a known patient: the query on [idosos] answers, and its
    first document is [(id, idoso)]. *)
Hypothesis Hknown :
  idosos_por_whatsapp (JS.replace "+55" "" (phoneNumber_of From)) w = (id, idoso) :: others.

(** C1: a reply whose trimmed body is "1", "2" or "3", from a known patient
    with a pending reminder, sets the status of the latest pending reminder
    to 'tomou', 'nao_tomou' or 'adiado' respectively and stamps it with the
    server time of the update and with the code; for "1" and "2" nothing
    else in the ledger changes; for "3" the ledger gains exactly one
    document, in status 'agendado_adiado', with the original scheduled time,
    [adiadoPor] 10 and [tentativas] 1. *)
Theorem reply_code_transitions_latest_pending (body code newStatus : string)
    (k : string) (l : Lembrete) :
  JS.trim body = code ->
  (code, newStatus) ∈ [("1", "tomou"); ("2", "nao_tomou"); ("3", "adiado")] ->
  (k, l) ∈ latest_pending id w ->
  exists w' l',
    handleWhatsAppWebhook env From (Some body) w
    = (Val {| http_status := 200; success := true; error := None |}, w')
    /\ l' = update_reply newStatus (serverTimestamp env (2 + ops w)) code l
    /\ status l' = newStatus
    /\ ultimaResposta l' = Some (serverTimestamp env (2 + ops w))
    /\ respostaRecebida l' = Some code
    /\ lembretes_status w' !! k = Some l'
    /\ (code <> "3" -> lembretes_status w' = <[k := l']> (lembretes_status w))
    /\ (code = "3" ->
        exists ref d,
          lembretes_status w !! ref = None
          /\ lembretes_status w' = <[ref := d]> (<[k := l']> (lembretes_status w))
          /\ status d = "agendado_adiado"
          /\ horarioOriginal d = horarioOriginal l
          /\ adiadoPor d = Some 10
          /\ tentativas d = 1
          /\ medicamentoId d = medicamentoId l
          /\ idosoId d = id).
Proof.
  intros Htrim Hmap Hpending.
  destruct (prop_statusMap code newStatus Hmap) as [Hprop Hcode].
  destruct (latest_pending id w) as [|[k0 l0] rest] eqn:Hlp; [inversion Hpending|].
  destruct (latest_pending_head id w k0 l0 rest Hlp) as (-> & Hk0 & _).
  apply list_elem_of_singleton in Hpending. injection Hpending as <- <-.
  rewrite (webhook_known_patient env Hrel From (Some body) w id idoso others Hknown).
  simpl message_of. rewrite Htrim, (handle_reply_coded env id idoso _ code _ Hcode).
  destruct (record_reply_some env Hrel id code (set_ops (S (ops w)) w) k l [])
    as (w1 & Hrun & _ & _ & Hother & Hthree); [exact Hlp|].
  rewrite Hprop in Hother, Hthree. simpl in Hother, Hthree.
  rewrite (bind_val _ _ _ _ _ Hrun).
  destruct (send_effect env Hrel (phoneNumber_of From)
              (default "" (prop (confirmationMessages idoso) code)) w1)
    as (r & w2 & Hsend & _ & _ & Hledger & _).
  rewrite (bind_val _ _ _ _ _ Hsend). unfold ret.
  exists w2, (update_reply newStatus (serverTimestamp env (2 + ops w)) code l).
  rewrite Hledger.
  split; [reflexivity|]. split; [reflexivity|]. split; [reflexivity|].
  split; [reflexivity|]. split; [reflexivity|].
  split; [| split].
  - destruct (decide (code = "3")) as [Hc | Hc].
    + destruct (Hthree Hc) as (ref & Hfresh & -> & _).
      rewrite lookup_insert_ne, lookup_insert_eq; [reflexivity|].
      intros ->. rewrite Hfresh in Hk0. discriminate.
    + destruct (Hother Hc) as [-> _]. apply lookup_insert_eq.
  - intros Hc. now destruct (Hother Hc) as [-> _].
  - intros Hc. destruct (Hthree Hc) as (ref & Hfresh & -> & _).
    exists ref. eexists. split; [exact Hfresh|]. split; [reflexivity|].
    simpl. repeat split; reflexivity.
Qed.

(** C10: when the patient has no reminder in status 'enviado', a reply "1",
    "2" or "3" writes nothing to the ledger: no document changes, none is
    created (in particular no 'agendado_adiado' one for "3"), and the only
    effect is the confirmation send, which for "3" still announces a new
    reminder in 10 minutes. *)
Theorem reply_code_without_pending_writes_nothing (body code : string) :
  JS.trim body = code ->
  code ∈ ["1"; "2"; "3"] ->
  (forall k l, lembretes_status w !! k = Some l -> idosoId l = id ->
               status l <> "enviado") ->
  exists w' msg r,
    handleWhatsAppWebhook env From (Some body) w
    = (Val {| http_status := 200; success := true; error := None |}, w')
    /\ lembretes_status w' = lembretes_status w
    /\ prop (confirmationMessages idoso) code = Some msg
    /\ log w' = (log w ++ [EvSend (phoneNumber_of From) msg r])%list
    /\ (code = "3" ->
        msg = "Ok, vamos lembrar de novo em 10 minutos — responda 1 quando tomar :)").
Proof.
  intros Htrim Hcode Hnone.
  apply latest_pending_nil in Hnone.
  destruct (prop_confirmationMessages idoso code Hcode) as (msg & Hmsg & Hten).
  rewrite (webhook_known_patient env Hrel From (Some body) w id idoso others Hknown).
  simpl message_of. rewrite Htrim, (handle_reply_coded env id idoso _ code _ Hcode).
  rewrite (bind_val _ _ _ _ _
             (record_reply_none env Hrel id code (set_ops (S (ops w)) w) Hnone)).
  rewrite Hmsg. simpl default.
  destruct (send_effect env Hrel (phoneNumber_of From) msg
              (set_ops (S (ops (set_ops (S (ops w)) w))) (set_ops (S (ops w)) w)))
    as (r & w2 & Hsend & _ & _ & Hledger & Hlog).
  rewrite (bind_val _ _ _ _ _ Hsend). unfold ret.
  exists w2, msg, r. rewrite Hledger, Hlog. simpl. auto.
Qed.



(** What one "sair" does to the medications, the ledger and the log. *)
Lemma webhook_sair_run (Body : option string) (w0 : World) :
  idosos_por_whatsapp (JS.replace "+55" "" (phoneNumber_of From)) w0 = (id, idoso) :: others ->
  JS.toLowerCase (message_of Body) = "sair" ->
  exists w1 r,
    handleWhatsAppWebhook env From Body w0
    = (Val {| http_status := 200; success := true; error := None |}, w1)
    /\ medicamentos w1
       = apply_deactivations (serverTimestamp env (2 + ops w0))
           (medicamentos_ativos_de id w0).*1 (medicamentos w0)
    /\ idosos w1 = idosos w0
    /\ lembretes_status w1 = lembretes_status w0
    /\ log w1 = (log w0 ++ [EvBatchCommit "medicamentos" (medicamentos_ativos_de id w0).*1;
                            EvSend (phoneNumber_of From) (optOutMessage idoso) r])%list.
Proof.
  intros Hknown0 Hsair.
  rewrite (webhook_known_patient env Hrel From Body w0 id idoso others Hknown0).
  unfold handle_reply.
  rewrite bool_decide_false by now apply sair_is_no_code.
  rewrite Hsair, String.eqb_refl.
  rewrite (bind_val _ _ _ _ _ (get_medicamentos_ativos_de_ok env Hrel id _)).
  erewrite bind_val; cycle 1.
  { apply (commit_deactivations_ok env _ _ Hrel).
    intros k Hk. apply medicamentos_ativos_de_ids in Hk as (m & Hm & _).
    simpl in Hm |- *. rewrite Hm. now exists m. }
  set (w1 := emit _ _).
  destruct (send_effect env Hrel (phoneNumber_of From) (optOutMessage idoso) w1)
    as (r & w2 & Hsend & Hmeds & Hids & Hledger & Hlog).
  rewrite (bind_val _ _ _ _ _ Hsend). unfold ret.
  exists w2, r. rewrite Hmeds, Hids, Hledger, Hlog. simpl.
  repeat (split; [reflexivity|]). now rewrite <- app_assoc.
Qed.


End WebhookClaims.

(** ** The dispatcher tick *)

Lemma apply_sets_lookup_notin (ts : Z) (batch : list BatchSet)
    (ls : gmap string Lembrete) (k : string) :
  k ∉ batch.*1 -> apply_sets ts batch ls !! k = ls !! k.
Proof.
  unfold apply_sets. revert ls.
  induction batch as [|b batch IH]; intros ls Hout; simpl; [reflexivity|].
  rewrite IH.
  - apply lookup_insert_ne. intros Heq. apply Hout. rewrite <- Heq. left.
  - intros Hin. apply Hout. now right.
Qed.

Lemma apply_sets_lookup_in (ts : Z) (batch : list BatchSet)
    (ls : gmap string Lembrete) (b : BatchSet) :
  NoDup batch.*1 -> b ∈ batch -> apply_sets ts batch ls !! b.1 = Some (b.2 ts).
Proof.
  revert ls.
  induction batch as [|b0 batch IH]; intros ls Hnd Hin; [inversion Hin|].
  apply NoDup_cons in Hnd as [Hfirst Hnd].
  apply elem_of_cons in Hin as [-> | Hin].
  - change (apply_sets ts (b0 :: batch) ls)
      with (apply_sets ts batch (<[b0.1 := b0.2 ts]> ls)).
    rewrite apply_sets_lookup_notin by exact Hfirst. apply lookup_insert_eq.
  - change (apply_sets ts (b0 :: batch) ls)
      with (apply_sets ts batch (<[b0.1 := b0.2 ts]> ls)).
    now apply IH.
Qed.

(** The documents the first loop acts on are the active, due medications
    with a patient on file. *)
Lemma fires_due (currentDay : Z) (currentTime : string) (w : World)
    (d : string * Medicamento) :
  d ∈ filter (fires currentDay currentTime w) (medicamentos_ativos w)
  <-> due_in currentDay currentTime w d.
Proof.
  unfold medicamentos_ativos, due_in, fires. rewrite !list_elem_of_filter.
  destruct d as [k m]. rewrite elem_of_map_to_list. simpl. tauto.
Qed.

Lemma reminders_are_the_due (currentDay : Z) (currentTime : string) (w : World)
    (rems : list Reminder) :
  map r_medicamento rems
  = filter (fires currentDay currentTime w) (medicamentos_ativos w) ->
  NoDup (map r_medicamento rems)
  /\ forall d, d ∈ map r_medicamento rems <-> due_in currentDay currentTime w d.
Proof.
  intros ->. split.
  - unfold medicamentos_ativos. apply NoDup_filter, NoDup_filter, NoDup_map_to_list.
  - intros d. apply fires_due.
Qed.

Lemma send_returns_outcome (env : Env) (to message : string) (w : World)
    (r : SendResult) (w' : World) :
  reliable env ->
  sendWhatsAppMessage env to message w = (Val r, w') -> send_outcome env r.
Proof.
  intros Hrel Hsend. destruct (decide (unconfigured env)) as [Hun | Hcfg].
  - rewrite (send_unconfigured env _ _ _ (proj2 Hrel) Hun) in Hsend.
    injection Hsend as <- _. now left.
  - destruct (send_configured env to message w (proj2 Hrel) Hcfg) as (r0 & Hsend0 & Hr0).
    rewrite Hsend0 in Hsend. injection Hsend as <- _. right. split; [exact Hcfg|].
    exists (ops w), to, message. exact Hr0.
Qed.

Lemma Forall2_elem_l {A B} (R : A -> B -> Prop) (xs : list A) (ys : list B) (x : A) :
  Forall2 R xs ys -> x ∈ xs -> exists y, y ∈ ys /\ R x y.
Proof.
  induction 1 as [|x0 y0 xs ys Hxy _ IH]; intros Hx; [inversion Hx|].
  apply elem_of_cons in Hx as [-> | Hx].
  - exists y0. split; [left | exact Hxy].
  - destruct (IH Hx) as (y & Hy & HR). exists y. split; [now right | exact HR].
Qed.

(** Throughout this section the services answer; what the gateway answers
    and how complete the configuration is are arbitrary. *)
Section Tick.

Variable env : Env.
Hypothesis Hrel : reliable env.
Variables (currentDay : Z) (currentTime : string).

(** The first loop reads only: it leaves the store and the log alone, keeps
    what was queued before, and queues one write under a fresh id for each
    medication that fires. *)
Lemma collect_run (docs : list (string * Medicamento)) :
  forall (batch : list BatchSet) (rems : list Reminder) (w : World),
  exists newb newr n,
    collect env (Some currentDay) currentTime docs batch rems w
    = (Val ((batch ++ newb)%list, (rems ++ newr)%list), set_ops n w)
    /\ map r_medicamento newr = filter (fires currentDay currentTime w) docs
    /\ Forall2 (queued_for currentTime w) newb newr
    /\ NoDup newb.*1
    /\ forall x, x ∈ newb.*1 -> lembretes_status w !! x = None /\ x ∉ batch.*1.
Proof.
  induction docs as [|[medId medicamento] docs IH]; intros batch rems w.
  - exists [], [], (ops w). simpl. rewrite !app_nil_r.
    split; [now destruct w|]. split; [reflexivity|]. split; [constructor|].
    split; [constructor|]. intros x Hx. inversion Hx.
  - simpl collect. rewrite filter_cons.
    destruct (JS.includes currentDay (m_diasDaSemana medicamento)) eqn:Hday;
      cbv beta iota delta [negb].
    2:{ destruct (IH batch rems w) as (newb & newr & n & Hrun & Hrest).
        exists newb, newr, n. rewrite Hrun, decide_False; [auto|].
        intros [Hdue _]. unfold isDue in Hdue. simpl in Hdue.
        rewrite Hday in Hdue. discriminate Hdue. }
    destruct (isTimeToRemind (m_horarios medicamento) currentTime) eqn:Htime.
    2:{ destruct (IH batch rems w) as (newb & newr & n & Hrun & Hrest).
        exists newb, newr, n. rewrite Hrun, decide_False; [auto|].
        intros [Hdue _]. unfold isDue in Hdue. simpl in Hdue.
        rewrite Hday, Htime in Hdue. discriminate Hdue. }
    assert (Hdue : isDue medicamento currentDay currentTime = true)
      by (unfold isDue; now rewrite Hday, Htime).
    rewrite (bind_val _ _ _ _ _ (get_idoso_ok env Hrel (m_idosoId medicamento) w)).
    destruct (idosos w !! m_idosoId medicamento) as [idoso|] eqn:Hidoso.
    2:{ destruct (IH batch rems (set_ops (S (ops w)) w))
          as (newb & newr & n & Hrun & Hrest).
        exists newb, newr, n. rewrite Hrun, decide_False; [auto|].
        intros [_ [? Hsome]]. simpl in Hsome. rewrite Hidoso in Hsome.
        discriminate Hsome. }
    set (w' := set_ops (S (ops w)) w).
    rewrite (bind_val _ _ _ _ _ (new_doc_ref_ok batch.*1 w')). cbv beta.
    set (ref := autoId batch.*1 w').
    destruct (autoId_fresh batch.*1 w') as [Hfresh Hunqueued]. fold ref in Hfresh, Hunqueued.
    set (b := (ref, lembreteStatus medId (m_idosoId medicamento) currentTime) : BatchSet).
    set (r := {| r_idoso := (m_idosoId medicamento, idoso);
                 r_medicamento := (medId, medicamento); lembreteId := ref |}).
    destruct (IH (batch ++ [b])%list (rems ++ [r])%list w')
      as (newb & newr & n & Hrun & Hmeds & Hqueued & Hnd & Hnew).
    exists (b :: newb), (r :: newr), n.
    rewrite Hrun, decide_True by (split; [exact Hdue | simpl; eauto]).
    rewrite <- !app_assoc. simpl.
    split; [reflexivity|]. split; [now rewrite Hmeds|].
    split; [constructor; [repeat split; assumption | exact Hqueued]|].
    split.
    + apply NoDup_cons. split; [| exact Hnd].
      intros Hin. destruct (Hnew ref Hin) as [_ Hout]. apply Hout.
      rewrite fmap_app. apply elem_of_app. right. left.
    + intros x [-> | Hx]%elem_of_cons.
      * split; assumption.
      * destruct (Hnew x Hx) as [Hnone Hout]. split; [exact Hnone|].
        intros Hin. apply Hout. rewrite fmap_app. apply elem_of_app. now left.
Qed.

Lemma queued_ids (w : World) (batch : list BatchSet) (rems : list Reminder) :
  Forall2 (queued_for currentTime w) batch rems -> batch.*1 = map lembreteId rems.
Proof.
  induction 1 as [|b r bs rs [Hb _] _ IH]; [reflexivity|].
  rewrite fmap_cons, Hb, IH. reflexivity.
Qed.

Lemma queued_committed (w w1 : World) (ts : Z) (batch : list BatchSet)
    (rems : list Reminder) :
  Forall2 (queued_for currentTime w) batch rems ->
  (forall b, b ∈ batch ->
     lembretes_status w !! b.1 = None /\ lembretes_status w1 !! b.1 = Some (b.2 ts)) ->
  Forall (committed currentTime w w1 ts) rems.
Proof.
  induction 1 as [|b r bs rs (Hid & Hdata & Hpatient & Hidoso) _ IH]; intros Hall;
    constructor.
  - destruct (Hall b) as [Hnew Hnow]; [left|].
    unfold committed. rewrite <- Hid, <- Hdata. auto.
  - apply IH. intros b' Hb'. apply Hall. now right.
Qed.

(** The tick up to the commit: one reminder per active medication that
    fires, each under its own new id, all written by one batch commit, and
    nothing sent so far. *)
Lemma collect_and_commit_run (w : World) :
  exists rems w1 ts,
    collect_and_commit env (Some currentDay) currentTime w = (Val rems, w1)
    /\ map r_medicamento rems
       = filter (fires currentDay currentTime w) (medicamentos_ativos w)
    /\ NoDup (map lembreteId rems)
    /\ Forall (committed currentTime w w1 ts) rems
    /\ (forall k, k ∉ map lembreteId rems ->
                  lembretes_status w1 !! k = lembretes_status w !! k)
    /\ medicamentos w1 = medicamentos w /\ idosos w1 = idosos w
    /\ log w1 = (log w ++ match rems with
                          | [] => []
                          | _ => [EvBatchCommit "lembretes_status" (map lembreteId rems)]
                          end)%list.
Proof.
  unfold collect_and_commit.
  rewrite (bind_val _ _ _ _ _ (get_medicamentos_ativos_ok env Hrel w)).
  set (w0 := set_ops (S (ops w)) w).
  destruct (collect_run (medicamentos_ativos w) [] [] w0)
    as (batch & rems & n & Hrun & Hmeds & Hqueued & Hnd & Hnew).
  simpl in Hrun.
  pose proof (queued_ids w0 batch rems Hqueued) as Hids.
  set (ts := serverTimestamp env n).
  assert (Hgoal : exists w1,
    bind (collect env (Some currentDay) currentTime (medicamentos_ativos w) [] [])
      (fun collected =>
         let batch := collected.1 in
         let remindersToSend := collected.2 in
         bind match remindersToSend with [] => ret tt | _ => commit_sets env batch end
              (fun _ => ret remindersToSend)) w0 = (Val rems, w1)
    /\ lembretes_status w1 = apply_sets ts batch (lembretes_status w)
    /\ medicamentos w1 = medicamentos w /\ idosos w1 = idosos w
    /\ log w1 = (log w ++ match rems with
                          | [] => []
                          | _ => [EvBatchCommit "lembretes_status" (map lembreteId rems)]
                          end)%list).
  { rewrite (bind_val _ _ _ _ _ Hrun). simpl fst. simpl snd. cbv zeta.
    destruct rems as [|r rems].
    - inversion Hqueued; subst. eexists. split; [reflexivity|]. simpl.
      rewrite app_nil_r. auto.
    - rewrite (bind_val _ _ _ _ _ (commit_sets_ok env Hrel batch (set_ops n w0))).
      eexists. split; [reflexivity|]. simpl. rewrite Hids. auto. }
  destruct Hgoal as (w1 & Hrun1 & Hledger & Hsame & Hsame' & Hlog).
  assert (Hres : forall b, b ∈ batch ->
            lembretes_status w !! b.1 = None
            /\ lembretes_status w1 !! b.1 = Some (b.2 ts)).
  { intros b Hb. split.
    - apply (Hnew b.1). now apply list_elem_of_fmap_2.
    - rewrite Hledger. now apply apply_sets_lookup_in. }
  destruct (medicamentos_ativos w) as [|d docs] eqn:Hdocs.
  { exists [], w0, 0. unfold ret. simpl. rewrite app_nil_r.
    split; [reflexivity|]. split; [reflexivity|]. split; [constructor|].
    split; [constructor|]. auto. }
  rewrite <- Hdocs in *. clear Hdocs.
  exists rems, w1, ts.
  split; [exact Hrun1|]. split; [exact Hmeds|].
  split; [now rewrite <- Hids|].
  split; [now apply (queued_committed w w1 ts batch rems)|].
  split; [| auto].
  intros k Hk. rewrite Hledger. apply apply_sets_lookup_notin. now rewrite Hids.
Qed.

Lemma Forall2_impl_elem {A B} (P Q : A -> B -> Prop) (xs : list A) (ys : list B) :
  Forall2 P xs ys -> (forall x y, x ∈ xs -> P x y -> Q x y) -> Forall2 Q xs ys.
Proof.
  induction 1 as [|x y xs ys Hxy _ IH]; intros Himpl; constructor.
  - apply Himpl; [left | exact Hxy].
  - apply IH. intros x' y' Hx'. apply Himpl. now right.
Qed.

(** The second loop when the services answer: every reminder gets its send,
    in order, then the update that records the outcome on its own entry;
    [P] is a property every send result has. *)
Lemma deliver_run_with (P : SendResult -> Prop) :
  (forall to message w r w', sendWhatsAppMessage env to message w = (Val r, w') -> P r) ->
  forall (rems : list Reminder) (w1 : World),
  NoDup (map lembreteId rems) ->
  (forall r, r ∈ rems -> is_Some (lembretes_status w1 !! lembreteId r)) ->
  exists w2 results,
    deliver env rems w1 = (Val tt, w2)
    /\ Forall2 (outcome_recorded w1 w2) rems results
    /\ Forall P results
    /\ medicamentos w2 = medicamentos w1 /\ idosos w2 = idosos w1
    /\ (forall k, k ∉ map lembreteId rems ->
                  lembretes_status w2 !! k = lembretes_status w1 !! k)
    /\ log w2 = (log w1 ++ concat (zip_with delivery_events rems results))%list.
Proof.
  intros HP. induction rems as [|r rest IH]; intros w1 Hnd Hexist.
  - exists w1, []. simpl. rewrite app_nil_r. repeat split; constructor.
  - rewrite map_cons in Hnd. apply NoDup_cons in Hnd as [Hfirst Hnd].
    destruct (Hexist r) as [e He]; [left|].
    simpl deliver. fold (reminderMessage r).
    destruct (send_effect env Hrel (i_whatsapp (r_idoso r).2) (reminderMessage r) w1)
      as (res & wa & Hsend & Hmeds_a & Hids_a & Hledger_a & Hlog_a).
    rewrite (bind_val _ _ _ _ _ Hsend).
    set (e' := match res with
               | SendOk sid st => update_delivered sid st e
               | SendFail err => update_failed err e
               end).
    assert (Hupdate : exists wb,
      (forall k : unit -> M unit,
         bind match res with
              | SendOk sid st =>
                  update_lembrete env (lembreteId r) (fun _ => update_delivered sid st)
              | SendFail err =>
                  update_lembrete env (lembreteId r) (fun _ => update_failed err)
              end k wa = k tt wb)
      /\ lembretes_status wb = <[lembreteId r := e']> (lembretes_status w1)
      /\ medicamentos wb = medicamentos w1 /\ idosos wb = idosos w1
      /\ log wb = (log wa ++ [EvUpdate "lembretes_status" (lembreteId r)])%list).
    { rewrite <- Hledger_a in He.
      destruct res as [sid st | err]; eexists;
        (split; [intros k; apply bind_val, (update_lembrete_ok env Hrel); exact He|]);
        simpl; now rewrite Hledger_a, Hmeds_a, Hids_a. }
    destruct Hupdate as (wb & Hupd & Hledger_b & Hmeds_b & Hids_b & Hlog_b).
    rewrite Hupd.
    destruct (IH wb Hnd)
      as (w2 & results & Hrun & Hrec & Hall & Hmeds & Hids & Hframe & Hlog).
    { intros r' Hr'. rewrite Hledger_b. apply lookup_insert_is_Some'. right.
      apply Hexist. now right. }
    exists w2, (res :: results).
    split; [exact Hrun|].
    split; [| split; [| split; [congruence | split; [congruence | split]]]].
    + constructor.
      * exists e. split; [exact He|].
        rewrite (Hframe _ Hfirst), Hledger_b. apply lookup_insert_eq.
      * apply (Forall2_impl_elem _ _ _ _ Hrec).
        intros r' res' Hr' (e0 & He0 & Hnow). exists e0. split; [| exact Hnow].
        rewrite Hledger_b, lookup_insert_ne in He0; [exact He0|].
        intros Heq. apply Hfirst. rewrite Heq. apply list_elem_of_In, in_map.
        now apply list_elem_of_In.
    + constructor; [exact (HP _ _ _ _ _ Hsend) | exact Hall].
    + intros k Hk. simpl in Hk. apply not_elem_of_cons in Hk as [Hne Hk].
      rewrite (Hframe _ Hk), Hledger_b. now apply lookup_insert_ne.
    + rewrite Hlog, Hlog_b, Hlog_a. simpl. now rewrite <- !app_assoc.
Qed.

Lemma deliver_run (rems : list Reminder) :
  forall w1 : World,
  NoDup (map lembreteId rems) ->
  (forall r, r ∈ rems -> is_Some (lembretes_status w1 !! lembreteId r)) ->
  exists w2 results,
    deliver env rems w1 = (Val tt, w2)
    /\ Forall2 (outcome_recorded w1 w2) rems results
    /\ (forall k, k ∉ map lembreteId rems ->
                  lembretes_status w2 !! k = lembretes_status w1 !! k)
    /\ log w2 = (log w1 ++ concat (zip_with delivery_events rems results))%list.
Proof.
  intros w1 Hnd Hexist.
  destruct (deliver_run_with (fun _ => True) (fun _ _ _ _ _ _ => I) rems w1 Hnd Hexist)
    as (w2 & results & Hrun & Hrec & _ & _ & _ & Hframe & Hlog).
  exists w2, results. auto.
Qed.

(** The entries of a tick exist when the deliveries start. *)
Lemma committed_exists (w w1 : World) (ts : Z) (rems : list Reminder) :
  Forall (committed currentTime w w1 ts) rems ->
  forall r, r ∈ rems -> is_Some (lembretes_status w1 !! lembreteId r).
Proof.
  intros Hall r Hr. rewrite Forall_forall in Hall.
  destruct (Hall r Hr) as (_ & _ & _ & Hentry). rewrite Hentry. eauto.
Qed.

(** X24: the tick after its clock reads, for any values [currentDay] and
    [currentTime] of its locals and with the services answering.  Each
    active medication that is due then and whose patient document exists
    gets exactly one new ledger entry, in status 'enviado', with [tentativas]
    1, the firing time as [horarioOriginal] and no gateway message id; no
    other medication gets one; one batch commit writes all of them and
    nothing else, and no message has been sent when it completes; the
    deliveries run from the committed state, so every send follows the
    commit. *)
Theorem dispatch_commits_entries_before_delivering (w : World) :
  exists rems w1 ts w2 results,
    collect_and_commit env (Some currentDay) currentTime w = (Val rems, w1)
    /\ NoDup (map r_medicamento rems)
    /\ (forall d, d ∈ map r_medicamento rems <-> due_in currentDay currentTime w d)
    /\ NoDup (map lembreteId rems)
    /\ Forall (fun r =>
         lembretes_status w !! lembreteId r = None
         /\ exists e,
              lembretes_status w1 !! lembreteId r = Some e
              /\ status e = "enviado" /\ tentativas e = 1
              /\ horarioOriginal e = currentTime
              /\ twilioSid e = None /\ twilioStatus e = None
              /\ medicamentoId e = (r_medicamento r).1
              /\ idosoId e = m_idosoId (r_medicamento r).2
              /\ dataHora e = ts) rems
    /\ (forall k, k ∉ map lembreteId rems ->
                  lembretes_status w1 !! k = lembretes_status w !! k)
    /\ log w1 = (log w ++ match rems with
                          | [] => []
                          | _ => [EvBatchCommit "lembretes_status" (map lembreteId rems)]
                          end)%list
    /\ dispatch env (Some currentDay) currentTime w = deliver env rems w1
    /\ deliver env rems w1 = (Val tt, w2)
    /\ log w2 = (log w1 ++ concat (zip_with delivery_events rems results))%list.
Proof.
  destruct (collect_and_commit_run w)
    as (rems & w1 & ts & Hrun & Hmeds & Hnd & Hcommitted & Hframe & _ & _ & Hlog).
  destruct (deliver_run rems w1 Hnd (committed_exists w w1 ts rems Hcommitted))
    as (w2 & results & Hdeliver & _ & _ & Hlog2).
  destruct (reminders_are_the_due currentDay currentTime w rems Hmeds) as [Hnd' Hdue].
  exists rems, w1, ts, w2, results.
  split; [exact Hrun|]. split; [exact Hnd'|]. split; [exact Hdue|]. split; [exact Hnd|].
  split; [| split; [exact Hframe | split; [exact Hlog | split; [| auto]]]].
  - eapply Forall_impl; [exact Hcommitted|].
    intros r (Hnew & _ & _ & Hentry). split; [exact Hnew|].
    eexists. split; [exact Hentry|]. simpl. repeat split; reflexivity.
  - unfold dispatch.
    now rewrite (bind_val _ _ _ _ _ Hrun).
Qed.

(** X25: the tick after its clock reads, with the services answering and
    whatever the gateway does.  Every reminder gets its send, in order, and
    what the send returned is recorded on the reminder's own entry: a failed
    send (the configuration failure or a rejection by the gateway) as status
    'erro' with the error detail, a successful one as the gateway message id
    and status. *)
Theorem dispatch_records_every_delivery_outcome (w : World) :
  exists rems w1 w2 results,
    collect_and_commit env (Some currentDay) currentTime w = (Val rems, w1)
    /\ (forall d, d ∈ map r_medicamento rems <-> due_in currentDay currentTime w d)
    /\ dispatch env (Some currentDay) currentTime w = (Val tt, w2)
    /\ log w2 = (log w1 ++ concat (zip_with delivery_events rems results))%list
    /\ Forall (send_outcome env) results
    /\ Forall2 (fun r res =>
         exists e e',
           lembretes_status w1 !! lembreteId r = Some e
           /\ lembretes_status w2 !! lembreteId r = Some e'
           /\ match res with
              | SendFail err =>
                  e' = update_failed err e /\ status e' = "erro" /\ erro e' = Some err
              | SendOk sid st =>
                  e' = update_delivered sid st e /\ status e' = status e
                  /\ twilioSid e' = Some sid /\ twilioStatus e' = Some st
              end) rems results.
Proof.
  destruct (collect_and_commit_run w)
    as (rems & w1 & ts & Hrun & Hmeds & Hnd & Hcommitted & _).
  destruct (deliver_run_with (send_outcome env)
              (fun to message w0 r w' => send_returns_outcome env to message w0 r w' Hrel)
              rems w1 Hnd (committed_exists w w1 ts rems Hcommitted))
    as (w2 & results & Hdeliver & Hrec & Hall & _ & _ & _ & Hlog2).
  destruct (reminders_are_the_due currentDay currentTime w rems Hmeds) as [_ Hdue].
  exists rems, w1, w2, results.
  split; [exact Hrun|]. split; [exact Hdue|].
  split; [| split; [exact Hlog2 | split; [exact Hall|]]].
  - unfold dispatch.
    now rewrite (bind_val _ _ _ _ _ Hrun).
  - eapply Forall2_impl; [exact Hrec|].
    intros r res (e & He & Hnow). exists e. eexists.
    split; [exact He|]. split; [exact Hnow|].
    destruct res; simpl; auto.
Qed.

End Tick.

Lemma env_accepting_reliable : reliable env_accepting.
Proof. split; [intros n; reflexivity | intros e; discriminate]. Defined.

Lemma env_gateway_down_reliable : reliable env_gateway_down.
Proof. split; [intros n; reflexivity | intros e; discriminate]. Defined.

Lemma maria_known_registered :
  idosos_por_whatsapp (JS.replace "+55" "" (phoneNumber_of from_maria)) w_registered
  = [("p1", maria)].
Proof. vm_compute. reflexivity. Defined.

Lemma maria_known_pending :
  idosos_por_whatsapp (JS.replace "+55" "" (phoneNumber_of from_maria)) w_pending
  = [("p1", maria)].
Proof. vm_compute. reflexivity. Defined.

(** After the clock reads, a rejected outcome update ends the delivery loop:
    both medications are due and both entries are committed, the store
    rejects the update that records the first outcome, the rejection leaves
    the loop and is rethrown, and the second reminder is never sent: its
    entry stays 'enviado' without a gateway message id. *)
Lemma storage_failure_aborts_remaining_deliveries :
  let out := dispatch env_storage_down_at_5 (Some 1) "09:00" w_registered in
  map fst (filter (fires 1 "09:00" w_registered) (medicamentos_ativos w_registered))
  = ["m1"; "m2"]
  /\ out.1 = Throw "UNAVAILABLE"
  /\ log out.2
     = [EvBatchCommit "lembretes_status" ["0"; "1"];
        EvSend "11999998888" (createReminderMessage "Maria" "Losartana" "50mg")
          (SendOk "SM0001" "queued")]
  /\ lembretes_status out.2 !! "0" = Some (lembreteStatus "m1" "p1" "09:00" 1003)
  /\ lembretes_status out.2 !! "1" = Some (lembreteStatus "m2" "p1" "09:00" 1003).
Proof. vm_compute. repeat split; reflexivity. Qed.

(** A rejected message, by contrast, is recorded and the loop goes on. *)
Example gateway_failure_does_not_abort :
  let out := dispatch env_gateway_down (Some 1) "09:00" w_registered in
  out.1 = Val tt
  /\ length (filter (fun e => is_send e = true) (log out.2)) = 2%nat
  /\ lembretes_status out.2 !! "0"
     = Some (update_failed "Gateway timeout" (lembreteStatus "m1" "p1" "09:00" 1003))
  /\ lembretes_status out.2 !! "1"
     = Some (update_failed "Gateway timeout" (lembreteStatus "m2" "p1" "09:00" 1003)).
Proof. vm_compute. repeat split; reflexivity. Qed.

(** ** The theorems at work on the scenario *)

Lemma isDue_spec_witness :
  Forall (fun h => (String.length h <= 5)%nat) (m_horarios losartana)
  /\ (isDue losartana 1 "09:00" = true
      <-> In 1 (m_diasDaSemana losartana) /\ In "09:00" (m_horarios losartana))
  /\ (isDue losartana 1 "09:01" = true
      <-> In 1 (m_diasDaSemana losartana) /\ In "09:01" (m_horarios losartana)).
Proof.
  assert (Hshort : Forall (fun h => (String.length h <= 5)%nat) (m_horarios losartana))
    by (repeat constructor).
  split; [exact Hshort|]. split.
  - exact (proj2 (isDue_spec losartana 1 "09:00") Hshort).
  - exact (proj2 (isDue_spec losartana 1 "09:01") Hshort).
Defined.

Lemma latest_pending_spec_witness :
  ("L1", lembrete_pendente) ∈ latest_pending "p1" w_pending
  /\ lembretes_status w_pending !! "L1" = Some lembrete_pendente
  /\ idosoId lembrete_pendente = "p1"
  /\ status lembrete_pendente = "enviado"
  /\ latest_pending "p1" w_registered = [].
Proof.
  assert (Hin : ("L1", lembrete_pendente) ∈ latest_pending "p1" w_pending)
    by (vm_compute; left).
  destruct (latest_pending_spec "p1" w_pending) as (_ & _ & Hfound).
  destruct (Hfound "L1" lembrete_pendente Hin) as (Hk & Hid & Hst & _).
  destruct (latest_pending_spec "p1" w_registered) as (_ & Hnil & _).
  split; [exact Hin|]. split; [exact Hk|]. split; [exact Hid|]. split; [exact Hst|].
  apply Hnil. intros k l Hl. simpl in Hl. rewrite lookup_empty in Hl. discriminate Hl.
Defined.

Lemma reply_code_transitions_latest_pending_witness :
  reliable env_accepting
  /\ idosos_por_whatsapp (JS.replace "+55" "" (phoneNumber_of from_maria)) w_pending
     = [("p1", maria)]
  /\ JS.trim " 3 " = "3"
  /\ ("3", "adiado") ∈ [("1", "tomou"); ("2", "nao_tomou"); ("3", "adiado")]
  /\ ("L1", lembrete_pendente) ∈ latest_pending "p1" w_pending
  /\ exists w' ref d,
       handleWhatsAppWebhook env_accepting from_maria (Some " 3 ") w_pending
       = (Val {| http_status := 200; success := true; error := None |}, w')
       /\ lembretes_status w_pending !! ref = None
       /\ lembretes_status w'
          = <[ref := d]>
              (<["L1" := update_reply "adiado" 1002 "3" lembrete_pendente]>
                 (lembretes_status w_pending))
       /\ status d = "agendado_adiado"
       /\ horarioOriginal d = "09:00"
       /\ adiadoPor d = Some 10
       /\ tentativas d = 1.
Proof.
  assert (Hmap : ("3", "adiado") ∈ [("1", "tomou"); ("2", "nao_tomou"); ("3", "adiado")])
    by (do 2 right; left).
  assert (Hpending : ("L1", lembrete_pendente) ∈ latest_pending "p1" w_pending)
    by (vm_compute; left).
  split; [exact env_accepting_reliable|]. split; [exact maria_known_pending|].
  split; [reflexivity|]. split; [exact Hmap|]. split; [exact Hpending|].
  destruct (reply_code_transitions_latest_pending env_accepting env_accepting_reliable
              from_maria w_pending "p1" maria [] maria_known_pending
              " 3 " "3" "adiado" "L1" lembrete_pendente eq_refl Hmap Hpending)
    as (w' & l' & Hrun & Hl' & _ & _ & _ & _ & _ & Hthree).
  destruct (Hthree eq_refl) as (ref & d & Hnew & Hledger & Hst & Hhor & Hadi & Hten & _).
  exists w', ref, d. rewrite Hl' in Hledger.
  split; [exact Hrun|]. split; [exact Hnew|]. split; [exact Hledger|].
  split; [exact Hst|]. split; [exact Hhor|]. split; [exact Hadi | exact Hten].
Defined.

Lemma reply_code_without_pending_writes_nothing_witness :
  reliable env_accepting
  /\ idosos_por_whatsapp (JS.replace "+55" "" (phoneNumber_of from_maria)) w_registered
     = [("p1", maria)]
  /\ JS.trim "3" = "3"
  /\ "3" ∈ ["1"; "2"; "3"]
  /\ (forall k l, lembretes_status w_registered !! k = Some l -> idosoId l = "p1" ->
                  status l <> "enviado")
  /\ exists w' r,
       handleWhatsAppWebhook env_accepting from_maria (Some "3") w_registered
       = (Val {| http_status := 200; success := true; error := None |}, w')
       /\ lembretes_status w' = lembretes_status w_registered
       /\ log w'
          = [EvSend "+5511999998888"
               "Ok, vamos lembrar de novo em 10 minutos — responda 1 quando tomar :)" r].
Proof.
  assert (Hcode : "3" ∈ ["1"; "2"; "3"]) by (do 2 right; left).
  assert (Hnone : forall k l, lembretes_status w_registered !! k = Some l ->
                              idosoId l = "p1" -> status l <> "enviado").
  { intros k l Hk. simpl in Hk. rewrite lookup_empty in Hk. discriminate Hk. }
  split; [exact env_accepting_reliable|]. split; [exact maria_known_registered|].
  split; [reflexivity|]. split; [exact Hcode|]. split; [exact Hnone|].
  destruct (reply_code_without_pending_writes_nothing env_accepting
              env_accepting_reliable from_maria w_registered "p1" maria []
              maria_known_registered "3" "3" eq_refl Hcode Hnone)
    as (w' & msg & r & Hrun & Hledger & _ & Hlog & Hten).
  exists w', r. rewrite (Hten eq_refl) in Hlog.
  split; [exact Hrun|]. split; [exact Hledger | exact Hlog].
Defined.




(** Monday 09:00 on the scenario: the entry of Losartana is committed, in
    one batch, before the deliveries run. *)
Lemma dispatch_commits_entries_before_delivering_witness :
  reliable env_accepting
  /\ exists rems w1 w2 r e,
       collect_and_commit env_accepting (Some 1) "09:00" w_registered = (Val rems, w1)
       /\ r ∈ rems /\ r_medicamento r = ("m1", losartana)
       /\ lembretes_status w_registered !! lembreteId r = None
       /\ lembretes_status w1 !! lembreteId r = Some e
       /\ status e = "enviado" /\ horarioOriginal e = "09:00" /\ twilioSid e = None
       /\ log w1 = [EvBatchCommit "lembretes_status" (map lembreteId rems)]
       /\ deliver env_accepting rems w1 = (Val tt, w2).
Proof.
  split; [exact env_accepting_reliable|].
  destruct (dispatch_commits_entries_before_delivering env_accepting
              env_accepting_reliable 1 "09:00" w_registered)
    as (rems & w1 & ts & w2 & results & Hrun & _ & Hdue & _ & Hall & _ & Hlog & _
        & Hdeliver & _).
  assert (Hin : ("m1", losartana) ∈ map r_medicamento rems).
  { apply Hdue. exact (Forall_inv maria_medications_due). }
  apply list_elem_of_fmap in Hin as (r & Hr & Hin).
  rewrite Forall_forall in Hall.
  destruct (Hall r Hin) as (Hnew & e & He & Hst & _ & Hhor & Hsid & _).
  exists rems, w1, w2, r, e.
  split; [exact Hrun|]. split; [exact Hin|]. split; [now rewrite Hr|].
  split; [exact Hnew|]. split; [exact He|]. split; [exact Hst|].
  split; [exact Hhor|]. split; [exact Hsid|]. split; [| exact Hdeliver].
  rewrite Hlog. destruct rems; [inversion Hin | reflexivity].
Defined.

(** The same minute with a gateway that rejects every message: the entry of
    Losartana ends in 'erro' with the gateway's message. *)
Lemma dispatch_records_every_delivery_outcome_witness :
  reliable env_gateway_down
  /\ exists rems w1 w2 r e',
       collect_and_commit env_gateway_down (Some 1) "09:00" w_registered = (Val rems, w1)
       /\ dispatch env_gateway_down (Some 1) "09:00" w_registered = (Val tt, w2)
       /\ r ∈ rems /\ r_medicamento r = ("m1", losartana)
       /\ lembretes_status w2 !! lembreteId r = Some e'
       /\ status e' = "erro" /\ erro e' = Some "Gateway timeout".
Proof.
  split; [exact env_gateway_down_reliable|].
  destruct (dispatch_records_every_delivery_outcome env_gateway_down
              env_gateway_down_reliable 1 "09:00" w_registered)
    as (rems & w1 & w2 & results & Hrun & Hdue & Htick & _ & Hall & Hrec).
  assert (Hin : ("m1", losartana) ∈ map r_medicamento rems).
  { apply Hdue. exact (Forall_inv maria_medications_due). }
  apply list_elem_of_fmap in Hin as (r & Hr & Hin).
  destruct (Forall2_elem_l _ _ _ r Hrec Hin) as (res & Hres & e & e' & _ & He' & Hout).
  rewrite Forall_forall in Hall.
  assert (Hfail : res = SendFail "Gateway timeout").
  { destruct (Hall res Hres) as [[Hun _] | (_ & n & to & message & ->)];
      [vm_compute in Hun; discriminate Hun | reflexivity]. }
  subst res. destruct Hout as (_ & Hst & Herr).
  exists rems, w1, w2, r, e'.
  split; [exact Hrun|]. split; [exact Htick|]. split; [exact Hin|].
  split; [now rewrite Hr|]. split; [exact He'|]. split; [exact Hst | exact Herr].
Defined.

(** * Further properties *)

(** ** Phone numbers *)

Lemma onlyDigits_app (a b : string) :
  JS.onlyDigits (a ++ b) = JS.onlyDigits a ++ JS.onlyDigits b.
Proof.
  induction a as [|c a IH]; simpl; [reflexivity|].
  destruct (JS.isDigit c); simpl; now rewrite IH.
Qed.

Lemma onlyDigits_idemp (s : string) : JS.onlyDigits (JS.onlyDigits s) = JS.onlyDigits s.
Proof.
  induction s as [|c s IH]; simpl; [reflexivity|].
  destruct (JS.isDigit c) eqn:Hc; simpl; [now rewrite Hc, IH | exact IH].
Qed.

Lemma prefix_app (pat s : string) : String.prefix pat (pat ++ s) = true.
Proof.
  induction pat as [|c pat IH]; simpl.
  - now destruct s.
  - destruct (ascii_dec c c) as [_ | Hne]; [exact IH | now contradiction Hne].
Qed.

Lemma dropChars_app (pat s : string) : JS.dropChars (String.length pat) (pat ++ s) = s.
Proof. induction pat as [|c pat IH]; simpl; [now destruct s | exact IH]. Qed.

(** Replacing a leading pattern by nothing removes it. *)
Lemma replace_removes_prefix (pat s : string) : JS.replace pat "" (pat ++ s) = s.
Proof.
  assert (Hhit : forall t, String.prefix pat t = true ->
                           JS.replace pat "" t = JS.dropChars (String.length pat) t).
  { intros t Ht. destruct t as [|c t].
    - destruct pat; [reflexivity | discriminate Ht].
    - change (JS.replace pat "" (String c t))
        with (if String.prefix pat (String c t)
              then "" ++ JS.dropChars (String.length pat) (String c t)
              else String c (JS.replace pat "" t)).
      now rewrite Ht. }
  rewrite Hhit by apply prefix_app. apply dropChars_app.
Qed.

Lemma formatPhoneForWhatsApp_formatted (phone : string) :
  formatPhoneForWhatsApp (formatPhoneForWhatsApp phone) = formatPhoneForWhatsApp phone.
Proof.
  assert (Hd : JS.onlyDigits (JS.onlyDigits phone) = JS.onlyDigits phone)
    by apply onlyDigits_idemp.
  destruct ((String.length (JS.onlyDigits phone) =? 10)%nat
            || (String.length (JS.onlyDigits phone) =? 11)%nat) eqn:Hlen.
  - assert (Hfmt : formatPhoneForWhatsApp phone = "whatsapp:+55" ++ JS.onlyDigits phone)
      by (unfold formatPhoneForWhatsApp; now rewrite Hlen).
    rewrite Hfmt. unfold formatPhoneForWhatsApp. rewrite onlyDigits_app, Hd.
    change (JS.onlyDigits "whatsapp:+55") with "55".
    change (String.length ("55" ++ JS.onlyDigits phone))
      with (S (S (String.length (JS.onlyDigits phone)))).
    apply orb_true_iff in Hlen as [Hlen | Hlen]; apply Nat.eqb_eq in Hlen;
      rewrite Hlen; reflexivity.
  - assert (Hfmt : formatPhoneForWhatsApp phone = "whatsapp:+" ++ JS.onlyDigits phone)
      by (unfold formatPhoneForWhatsApp; now rewrite Hlen).
    rewrite Hfmt. unfold formatPhoneForWhatsApp. rewrite onlyDigits_app, Hd.
    change (JS.onlyDigits "whatsapp:+" ++ JS.onlyDigits phone)
      with (JS.onlyDigits phone).
    now rewrite Hlen.
Qed.

(** X1: formatting a number that is already formatted changes nothing,
    whatever the number: with or without punctuation, of any length. *)
Theorem formatPhoneForWhatsApp_idempotent (phone : string) :
  formatPhoneForWhatsApp (formatPhoneForWhatsApp phone) = formatPhoneForWhatsApp phone.
Proof. apply formatPhoneForWhatsApp_formatted. Qed.

(** X2: for a number of 10 or 11 digits, the address the reminder goes to,
    taken as the [From] of a reply, leads the webhook to look the patient up
    under the digits of the stored number: the stored number itself exactly
    when it consists of digits only; and the confirmation goes back to the
    same address. *)
Theorem reminder_address_round_trip (phone : string) :
  String.length (JS.onlyDigits phone) = 10%nat
  \/ String.length (JS.onlyDigits phone) = 11%nat ->
  let From := Some (formatPhoneForWhatsApp phone) in
  JS.replace "+55" "" (phoneNumber_of From) = JS.onlyDigits phone
  /\ (JS.replace "+55" "" (phoneNumber_of From) = phone <-> all_digits phone)
  /\ formatPhoneForWhatsApp (phoneNumber_of From) = formatPhoneForWhatsApp phone.
Proof.
  intros Hlen.
  assert (Hfmt : formatPhoneForWhatsApp phone = "whatsapp:+55" ++ JS.onlyDigits phone).
  { unfold formatPhoneForWhatsApp.
    destruct Hlen as [-> | ->]; reflexivity. }
  assert (Hphone : phoneNumber_of (Some (formatPhoneForWhatsApp phone))
                   = "+55" ++ JS.onlyDigits phone).
  { rewrite Hfmt.
    change (phoneNumber_of (Some ("whatsapp:+55" ++ JS.onlyDigits phone)))
      with (JS.replace "whatsapp:" "" ("whatsapp:" ++ ("+55" ++ JS.onlyDigits phone))).
    apply replace_removes_prefix. }
  cbv zeta. rewrite Hphone, replace_removes_prefix.
  split; [reflexivity|]. split.
  - unfold all_digits. reflexivity.
  - rewrite <- (formatPhoneForWhatsApp_formatted phone), Hfmt.
    unfold formatPhoneForWhatsApp. now rewrite !onlyDigits_app.
Qed.

Lemma reminder_address_round_trip_witness :
  (String.length (JS.onlyDigits "(11) 99999-8888") = 10%nat
   \/ String.length (JS.onlyDigits "(11) 99999-8888") = 11%nat)
  /\ JS.replace "+55" "" (phoneNumber_of (Some (formatPhoneForWhatsApp "(11) 99999-8888")))
     = "11999998888"
  /\ formatPhoneForWhatsApp "(11) 99999-8888" = "whatsapp:+5511999998888".
Proof.
  assert (Hlen : String.length (JS.onlyDigits "(11) 99999-8888") = 10%nat
                 \/ String.length (JS.onlyDigits "(11) 99999-8888") = 11%nat)
    by (right; reflexivity).
  split; [exact Hlen|].
  destruct (reminder_address_round_trip "(11) 99999-8888" Hlen) as (Hkey & _ & _).
  split; [exact Hkey | reflexivity].
Defined.

(** ** Gateway configuration *)

(** X3: what the health check answers tells what a send does.  It answers
    500 exactly when SID and token are present and the gateway library
    refuses them; then every send throws the library's exception to its
    caller, before any gateway call.  Otherwise it reports the gateway as
    unavailable exactly when the SID, the token or the sender number is
    missing; then every send returns 'Twilio not configured' without a
    gateway call.  When it reports it as available, every send takes one
    I/O step and returns what the gateway answered, a rejection coming back
    as a failure with the gateway's message. *)
Theorem health_answer_tells_what_a_send_does (env : Env) (now : string) :
  (forall code st e,
     getHealthStatus env now = HealthError code st e
     <-> (code = 500 /\ st = "error"
          /\ JS.falsy (cfg_sid (getTwilioConfig env)) = false
          /\ JS.falsy (cfg_token (getTwilioConfig env)) = false
          /\ twilio env (default "" (cfg_sid (getTwilioConfig env)))
               (default "" (cfg_token (getTwilioConfig env))) = Some e))
  /\ match getHealthStatus env now with
     | HealthError _ _ e =>
         forall to message w, sendWhatsAppMessage env to message w = (Throw e, w)
     | HealthOk health =>
         h_timestamp health = now
         /\ (h_twilio health = false <-> unconfigured env)
         /\ (h_twilio health = false ->
             forall to message w,
               sendWhatsAppMessage env to message w
               = (Val (SendFail "Twilio not configured"),
                  emit (EvSend to message (SendFail "Twilio not configured")) w))
         /\ (h_twilio health = true ->
             forall to message w,
               let r := match messages_create env (ops w)
                                (default "" (cfg_phone (getTwilioConfig env)))
                                (formatPhoneForWhatsApp to) message with
                        | Created sid st => SendOk sid st
                        | Rejected e => SendFail e
                        end in
               sendWhatsAppMessage env to message w
               = (Val r, emit (EvSend to message r) (set_ops (S (ops w)) w)))
     end.
Proof.
  split.
  - intros code st e. unfold getHealthStatus, twilioClient_of.
    destruct (JS.falsy (cfg_sid _)), (JS.falsy (cfg_token _)); simpl;
      try (split; [discriminate | intros (_ & _ & H1 & H2 & _); discriminate]).
    destruct (twilio env _ _) as [e'|].
    + split.
      * intros H. injection H as <- <- <-. auto.
      * intros (-> & -> & _ & _ & H). now injection H as <-.
    + split; [discriminate | intros (_ & _ & _ & _ & H); discriminate H].
  - unfold getHealthStatus.
    destruct (twilioClient_of env) as [client | e] eqn:Hc.
    + assert (Hflag : client && negb (JS.falsy (cfg_phone (getTwilioConfig env))) = false
                      <-> unconfigured env).
      { rewrite (twilioClient_val env client Hc). unfold unconfigured.
        destruct (JS.falsy (cfg_sid _)), (JS.falsy (cfg_token _)),
          (JS.falsy (cfg_phone _)); simpl; intuition congruence. }
      assert (Hclient : forall e, twilioClient_of env <> Throw e) by (intros e; congruence).
      simpl. split; [reflexivity|]. split; [exact Hflag|]. split.
      * intros Hoff to message w. apply Hflag in Hoff.
        exact (send_unconfigured env to message w Hclient Hoff).
      * intros Hon to message w.
        destruct (send_configured env to message w Hclient) as (r & -> & ->);
          [| reflexivity].
        intros Hun. apply Hflag in Hun. congruence.
    + intros to message w. rewrite send_cases. now rewrite Hc.
Qed.

(** The three answers, at a configuration without token, at a configured
    gateway that rejects, and at an account SID the library refuses. *)
Lemma health_answer_tells_what_a_send_does_witness :
  (exists health,
     getHealthStatus env_unconfigured "2024-01-01T12:00:00.000Z" = HealthOk health
     /\ h_twilio health = false
     /\ (sendWhatsAppMessage env_unconfigured "11999998888" "oi" w_registered).1
        = Val (SendFail "Twilio not configured"))
  /\ (exists health,
        getHealthStatus env_gateway_down "2024-01-01T12:00:00.000Z" = HealthOk health
        /\ h_twilio health = true
        /\ (sendWhatsAppMessage env_gateway_down "11999998888" "oi" w_registered).1
           = Val (SendFail "Gateway timeout"))
  /\ getHealthStatus env_refused_sid "2024-01-01T12:00:00.000Z"
     = HealthError 500 "error" "accountSid must start with AC"
  /\ sendWhatsAppMessage env_refused_sid "11999998888" "oi" w_registered
     = (Throw "accountSid must start with AC", w_registered).
Proof.
  pose proof (health_answer_tells_what_a_send_does env_unconfigured
                "2024-01-01T12:00:00.000Z") as [_ Hoff].
  pose proof (health_answer_tells_what_a_send_does env_gateway_down
                "2024-01-01T12:00:00.000Z") as [_ Hon].
  pose proof (health_answer_tells_what_a_send_does env_refused_sid
                "2024-01-01T12:00:00.000Z") as [_ Herr].
  split; [| split; [| split]].
  - eexists. split; [reflexivity|]. split; [reflexivity|].
    destruct Hoff as (_ & _ & Hsend & _).
    now rewrite (Hsend eq_refl "11999998888" "oi" w_registered).
  - eexists. split; [reflexivity|]. split; [reflexivity|].
    destruct Hon as (_ & _ & _ & Hsend).
    now rewrite (Hsend eq_refl "11999998888" "oi" w_registered).
  - reflexivity.
  - exact (Herr "11999998888" "oi" w_registered).
Defined.

Section TickMore.

Variable env : Env.
Hypothesis Hrel : reliable env.
Variables (currentDay : Z) (currentTime : string).

(** X4: the tick after its clock reads, for any values of its locals, with
    the gateway configuration incomplete and the services answering: an
    entry is committed for every active, due medication with a patient on
    file, the block completes, and every one of these entries ends in
    status 'erro' with the detail 'Twilio not configured'. *)
Theorem unconfigured_dispatch_marks_every_entry_failed (w : World) :
  unconfigured env ->
  exists rems w1 ts w2,
    collect_and_commit env (Some currentDay) currentTime w = (Val rems, w1)
    /\ (forall d, d ∈ map r_medicamento rems <-> due_in currentDay currentTime w d)
    /\ dispatch env (Some currentDay) currentTime w = (Val tt, w2)
    /\ Forall (fun r =>
         lembretes_status w2 !! lembreteId r
         = Some (update_failed "Twilio not configured"
                   (lembreteStatus (r_medicamento r).1 (m_idosoId (r_medicamento r).2)
                      currentTime ts))) rems.
Proof.
  intros Hun.
  destruct (collect_and_commit_run env Hrel currentDay currentTime w)
    as (rems & w1 & ts & Hrun & Hmeds & Hnd & Hcommitted & _).
  destruct (deliver_run_with env Hrel (fun r => r = SendFail "Twilio not configured"))
    with (rems := rems) (w1 := w1)
    as (w2 & results & Hdeliver & Hrec & Hall & _).
  { intros to message w0 r w' Hsend.
    rewrite (send_unconfigured env _ _ _ (proj2 Hrel) Hun) in Hsend. congruence. }
  { exact Hnd. }
  { exact (committed_exists currentTime w w1 ts rems Hcommitted). }
  destruct (reminders_are_the_due currentDay currentTime w rems Hmeds) as [_ Hdue].
  exists rems, w1, ts, w2.
  split; [exact Hrun|]. split; [exact Hdue|]. split.
  - unfold dispatch.
    now rewrite (bind_val _ _ _ _ _ Hrun).
  - clear -Hrec Hall Hcommitted.
    induction Hrec as [|r res rems results (e & He & Hnow) _ IH]; constructor.
    + apply Forall_cons in Hall as [-> _]. apply Forall_cons in Hcommitted as [Hc _].
      destruct Hc as (_ & _ & _ & Hentry). rewrite Hentry in He. injection He as <-.
      exact Hnow.
    + apply IH; [now apply Forall_cons in Hcommitted as [_ ?]
                | now apply Forall_cons in Hall as [_ ?]].
Qed.

End TickMore.

Lemma env_unconfigured_reliable : reliable env_unconfigured.
Proof. split; [intros n; reflexivity | intros e; discriminate]. Defined.

(** Monday 09:00 on the scenario, without token: the entry of Losartana ends
    in 'erro'. *)
Lemma unconfigured_dispatch_marks_every_entry_failed_witness :
  reliable env_unconfigured
  /\ unconfigured env_unconfigured
  /\ exists w2 k l,
       dispatch env_unconfigured (Some 1) "09:00" w_registered = (Val tt, w2)
       /\ lembretes_status w2 !! k = Some l
       /\ medicamentoId l = "m1" /\ status l = "erro"
       /\ erro l = Some "Twilio not configured".
Proof.
  assert (Hun : unconfigured env_unconfigured) by reflexivity.
  split; [exact env_unconfigured_reliable|]. split; [exact Hun|].
  destruct (unconfigured_dispatch_marks_every_entry_failed env_unconfigured
              env_unconfigured_reliable 1 "09:00" w_registered Hun)
    as (rems & w1 & ts & w2 & _ & Hdue & Htick & Hall).
  assert (Hin : ("m1", losartana) ∈ map r_medicamento rems).
  { apply Hdue. exact (Forall_inv maria_medications_due). }
  apply list_elem_of_fmap in Hin as (r & Hr & Hin).
  rewrite Forall_forall in Hall. pose proof (Hall r Hin) as Hentry.
  rewrite <- Hr in Hentry.
  exists w2, (lembreteId r). eexists.
  split; [exact Htick|]. split; [exact Hentry|]. repeat split; reflexivity.
Defined.

(** ** The webhook at its edges *)

Lemma storage_resolves (env : Env) {A} (call : nat -> World -> Res A * World) (w : World) :
  storage_rejects env (ops w) = None ->
  storage env call w = call (ops w) (set_ops (S (ops w)) w).
Proof. intros H. unfold storage. now rewrite H. Qed.

Lemma storage_throws (env : Env) {A} (call : nat -> World -> Res A * World) (w : World)
    (e : string) :
  storage_rejects env (ops w) = Some e ->
  storage env call w = (Throw e, set_ops (S (ops w)) w).
Proof. intros H. unfold storage. now rewrite H. Qed.

Lemma get_idosos_por_whatsapp_resolves (env : Env) (phone : string) (w : World) :
  storage_rejects env (ops w) = None ->
  get_idosos_por_whatsapp env phone w
  = (Val (idosos_por_whatsapp phone w), set_ops (S (ops w)) w).
Proof.
  intros H. unfold get_idosos_por_whatsapp. now rewrite (storage_resolves env _ w H).
Qed.

(** The webhook, once the patient query has answered, whatever the later
    storage calls do. *)
Lemma webhook_known_patient_at (env : Env) (From Body : option string) (w : World)
    (id : string) (idoso : Idoso) (rest : list (string * Idoso)) :
  storage_rejects env (ops w) = None ->
  idosos_por_whatsapp (JS.replace "+55" "" (phoneNumber_of From)) w = (id, idoso) :: rest ->
  handleWhatsAppWebhook env From Body w
  = match handle_reply env id idoso (phoneNumber_of From) (message_of Body)
            (set_ops (S (ops w)) w) with
    | (Val _, w') => (Val {| http_status := 200; success := true; error := None |}, w')
    | (Throw e, w') =>
        (Val {| http_status := 500; success := false; error := Some e |}, w')
    end.
Proof.
  intros Hok Hknown. unfold handleWhatsAppWebhook, try_catch, bind.
  rewrite (get_idosos_por_whatsapp_resolves env _ w Hok), Hknown.
  now destruct (handle_reply _ _ _ _ _ _) as [[[]|e] w'].
Qed.

(** X5: a message from a number no patient is registered under is answered
    with [success: false] and 'Idoso not found'; nothing is sent and nothing
    is written. *)
Theorem unknown_sender_gets_not_found (env : Env) (From Body : option string) (w : World) :
  storage_rejects env (ops w) = None ->
  idosos_por_whatsapp (JS.replace "+55" "" (phoneNumber_of From)) w = [] ->
  exists w',
    handleWhatsAppWebhook env From Body w
    = (Val {| http_status := 200; success := false; error := Some "Idoso not found" |}, w')
    /\ untouched w w'.
Proof.
  intros Hok Hnone. unfold handleWhatsAppWebhook, try_catch, bind.
  rewrite (get_idosos_por_whatsapp_resolves env _ w Hok), Hnone.
  eexists. split; [reflexivity|]. now repeat split.
Qed.

Lemma unknown_sender_gets_not_found_witness :
  storage_rejects env_accepting (ops w_registered) = None
  /\ idosos_por_whatsapp
       (JS.replace "+55" "" (phoneNumber_of (Some "whatsapp:+5521988887777"))) w_registered
     = []
  /\ exists w',
       handleWhatsAppWebhook env_accepting (Some "whatsapp:+5521988887777") (Some "1")
         w_registered
       = (Val {| http_status := 200; success := false; error := Some "Idoso not found" |}, w')
       /\ untouched w_registered w'.
Proof.
  assert (Hnone : idosos_por_whatsapp
                    (JS.replace "+55" "" (phoneNumber_of (Some "whatsapp:+5521988887777")))
                    w_registered = [])
    by (vm_compute; reflexivity).
  split; [reflexivity|]. split; [exact Hnone|].
  exact (unknown_sender_gets_not_found env_accepting (Some "whatsapp:+5521988887777")
           (Some "1") w_registered eq_refl Hnone).
Defined.

(** X6: when the store rejects the patient query, the webhook answers with
    status 500 and the rejection's message; nothing is sent and nothing is
    written. *)
Theorem rejected_patient_query_gives_500 (env : Env) (From Body : option string)
    (w : World) (e : string) :
  storage_rejects env (ops w) = Some e ->
  exists w',
    handleWhatsAppWebhook env From Body w
    = (Val {| http_status := 500; success := false; error := Some e |}, w')
    /\ untouched w w'.
Proof.
  intros Hdown. unfold handleWhatsAppWebhook, try_catch, bind, get_idosos_por_whatsapp.
  rewrite (storage_throws env _ w e Hdown).
  eexists. split; [reflexivity|]. now repeat split.
Qed.

(** X7: the two writes of a reply "3" are separate calls.  When the update of
    the pending reminder resolves and the write of the postponed entry is
    rejected, the webhook answers with status 500, the pending reminder stays
    recorded as 'adiado', no 'agendado_adiado' entry exists and no
    confirmation is sent. *)
Theorem rejected_postponed_write_keeps_the_transition (env : Env) (From : option string)
    (body : string) (w : World) (id : string) (idoso : Idoso)
    (others : list (string * Idoso)) (k : string) (l : Lembrete) (e : string) :
  idosos_por_whatsapp (JS.replace "+55" "" (phoneNumber_of From)) w = (id, idoso) :: others ->
  JS.trim body = "3" ->
  (k, l) ∈ latest_pending id w ->
  storage_rejects env (ops w) = None ->
  storage_rejects env (1 + ops w) = None ->
  storage_rejects env (2 + ops w) = None ->
  storage_rejects env (3 + ops w) = Some e ->
  exists w',
    handleWhatsAppWebhook env From (Some body) w
    = (Val {| http_status := 500; success := false; error := Some e |}, w')
    /\ lembretes_status w'
       = <[k := update_reply "adiado" (serverTimestamp env (2 + ops w)) "3" l]>
           (lembretes_status w)
    /\ log w' = (log w ++ [EvUpdate "lembretes_status" k])%list.
Proof.
  intros Hknown Htrim Hpending H0 H1 H2 H3.
  destruct (latest_pending id w) as [|[k0 l0] rest] eqn:Hlp; [inversion Hpending|].
  destruct (latest_pending_head id w k0 l0 rest Hlp) as (-> & Hk0 & _).
  apply list_elem_of_singleton in Hpending. injection Hpending as <- <-.
  rewrite (webhook_known_patient_at env From (Some body) w id idoso others H0 Hknown).
  simpl message_of. rewrite Htrim.
  rewrite (handle_reply_coded env id idoso _ "3" _ ltac:(do 2 right; left)).
  assert (Hrec : exists w',
    record_reply env id "3" (set_ops (S (ops w)) w) = (Throw e, w')
    /\ lembretes_status w'
       = <[k := update_reply "adiado" (serverTimestamp env (2 + ops w)) "3" l]>
           (lembretes_status w)
    /\ log w' = (log w ++ [EvUpdate "lembretes_status" k])%list).
  { unfold record_reply, get_latest_pending, update_lembrete, set_lembrete.
    erewrite bind_val; [| rewrite storage_resolves by exact H1; reflexivity].
    change (latest_pending id (set_ops (S (ops (set_ops (S (ops w)) w)))
                                 (set_ops (S (ops w)) w)))
      with (latest_pending id w).
    rewrite Hlp.
    erewrite bind_val; [| rewrite storage_resolves by exact H2; simpl;
                          rewrite Hk0; reflexivity].
    change ("3" =? "3")%string with true. cbv iota.
    erewrite bind_val; [| apply new_doc_ref_ok].
    rewrite storage_throws with (e := e) by exact H3.
    eexists. split; [reflexivity|]. simpl. split; reflexivity. }
  destruct Hrec as (w' & Hrec & Hledger & Hlog).
  rewrite (bind_throw _ _ _ _ _ Hrec). exists w'. auto.
Qed.

Lemma rejected_postponed_write_keeps_the_transition_witness :
  idosos_por_whatsapp (JS.replace "+55" "" (phoneNumber_of from_maria)) w_pending
  = [("p1", maria)]
  /\ JS.trim "3" = "3"
  /\ ("L1", lembrete_pendente) ∈ latest_pending "p1" w_pending
  /\ storage_rejects env_storage_down_at_3 (3 + ops w_pending) = Some "UNAVAILABLE"
  /\ exists w',
       handleWhatsAppWebhook env_storage_down_at_3 from_maria (Some "3") w_pending
       = (Val {| http_status := 500; success := false; error := Some "UNAVAILABLE" |}, w')
       /\ lembretes_status w'
          = <["L1" := update_reply "adiado" 1002 "3" lembrete_pendente]>
              (lembretes_status w_pending)
       /\ log w' = [EvUpdate "lembretes_status" "L1"].
Proof.
  assert (Hpending : ("L1", lembrete_pendente) ∈ latest_pending "p1" w_pending)
    by (vm_compute; left).
  split; [exact maria_known_pending|]. split; [reflexivity|]. split; [exact Hpending|].
  split; [reflexivity|].
  exact (rejected_postponed_write_keeps_the_transition env_storage_down_at_3 from_maria
           "3" w_pending "p1" maria [] "L1" lembrete_pendente "UNAVAILABLE"
           maria_known_pending eq_refl Hpending eq_refl eq_refl eq_refl eq_refl).
Defined.

Lemma rejected_patient_query_gives_500_witness :
  storage_rejects env_storage_down_at_3 (ops (set_ops 3 w_pending)) = Some "UNAVAILABLE"
  /\ exists w',
       handleWhatsAppWebhook env_storage_down_at_3 from_maria (Some "1") (set_ops 3 w_pending)
       = (Val {| http_status := 500; success := false; error := Some "UNAVAILABLE" |}, w')
       /\ untouched (set_ops 3 w_pending) w'.
Proof.
  split; [reflexivity|].
  exact (rejected_patient_query_gives_500 env_storage_down_at_3 from_maria (Some "1")
           (set_ops 3 w_pending) "UNAVAILABLE" eq_refl).
Defined.

(** ** What no invocation does, whatever the environment *)

Lemma bind_inv {A B} (m : M A) (k : A -> M B) (w : World) (r : Res B) (w' : World) :
  bind m k w = (r, w') ->
  (exists a w1, m w = (Val a, w1) /\ k a w1 = (r, w'))
  \/ (exists e, m w = (Throw e, w') /\ r = Throw e).
Proof.
  unfold bind. destruct (m w) as [[a | e] w1]; intros H.
  - left. eauto.
  - right. injection H as <- <-. eauto.
Qed.

Lemma storage_inv (env : Env) {A} (call : nat -> World -> Res A * World) (w : World)
    (r : Res A) (w' : World) :
  storage env call w = (r, w') ->
  (exists e, storage_rejects env (ops w) = Some e /\ r = Throw e
             /\ w' = set_ops (S (ops w)) w)
  \/ (storage_rejects env (ops w) = None
      /\ call (ops w) (set_ops (S (ops w)) w) = (r, w')).
Proof.
  unfold storage. destruct (storage_rejects env (ops w)) as [e|]; intros H.
  - left. exists e. injection H as <- <-. auto.
  - right. auto.
Qed.

Lemma send_inv (env : Env) (to message : string) (w : World) (r : Res SendResult)
    (w' : World) :
  sendWhatsAppMessage env to message w = (r, w') -> same_store w w'.
Proof.
  rewrite send_cases. intros H.
  destruct (twilioClient_of env) as [client | e];
    [destruct (negb client || JS.falsy _)|];
    injection H as _ <-; now repeat split.
Qed.

Lemma update_lembrete_inv (env : Env) (k : string) (fields : Z -> Lembrete -> Lembrete)
    (w : World) (r : Res unit) (w' : World) :
  update_lembrete env k fields w = (r, w') ->
  medicamentos w' = medicamentos w /\ idosos w' = idosos w
  /\ ((lembretes_status w' = lembretes_status w /\ log w' = log w /\ exists e, r = Throw e)
      \/ exists l, lembretes_status w !! k = Some l /\ r = Val tt
                   /\ lembretes_status w'
                      = <[k := fields (serverTimestamp env (ops w)) l]> (lembretes_status w)
                   /\ log w' = (log w ++ [EvUpdate "lembretes_status" k])%list).
Proof.
  unfold update_lembrete. intros [(e & _ & -> & ->) | [_ H]]%storage_inv.
  - repeat split; try reflexivity. left. eauto.
  - simpl in H. destruct (lembretes_status w !! k) as [l|] eqn:Hl;
      injection H as <- <-; (repeat split; try reflexivity).
    + right. exists l. auto.
    + left. eauto.
Qed.

Lemma set_lembrete_inv (env : Env) (k : string) (data : Z -> Lembrete)
    (w : World) (r : Res unit) (w' : World) :
  set_lembrete env k data w = (r, w') ->
  medicamentos w' = medicamentos w /\ idosos w' = idosos w
  /\ ((lembretes_status w' = lembretes_status w /\ log w' = log w /\ exists e, r = Throw e)
      \/ (r = Val tt
          /\ lembretes_status w' = <[k := data (serverTimestamp env (ops w))]> (lembretes_status w)
          /\ log w' = (log w ++ [EvSet "lembretes_status" k])%list)).
Proof.
  unfold set_lembrete. intros [(e & _ & -> & ->) | [_ H]]%storage_inv.
  - repeat split; try reflexivity. left. eauto.
  - injection H as <- <-. repeat split; try reflexivity. right. auto.
Qed.

Lemma evolves_of_same (w w' : World) :
  idosos w' = idosos w -> lembretes_status w' = lembretes_status w -> evolves w w'.
Proof. intros Hi Hl. split; [exact Hi|]. intros k l Hk. left. now rewrite Hl. Qed.

Lemma evolves_trans (w w1 w2 : World) : evolves w w1 -> evolves w1 w2 -> evolves w w2.
Proof.
  intros [Hi1 H1] [Hi2 H2]. split; [congruence|].
  intros k l Hk. destruct (H1 k l Hk) as [Hsame | (Hst & code & st & ts & Hin & Hnew)].
  - exact (H2 k l Hsame).
  - right. split; [exact Hst|]. exists code, st, ts. split; [exact Hin|].
    destruct (H2 k _ Hnew) as [Hsame | [Hst' _]]; [exact Hsame|].
    exfalso. simpl in Hst'.
    repeat (apply elem_of_cons in Hin as [Hin | Hin]);
      try (injection Hin as -> ->; discriminate Hst').
    inversion Hin.
Qed.

Lemma evolves_of_keeps (w w' : World) : keeps_entries w w' -> evolves w w'.
Proof. intros (_ & Hi & Hk). split; [exact Hi|]. intros k l Hl. left. auto. Qed.

Lemma evolves_reply (w w' : World) (k : string) (l : Lembrete) (code newStatus : string)
    (ts : Z) :
  lembretes_status w !! k = Some l -> status l = "enviado" ->
  (code, newStatus) ∈ [("1", "tomou"); ("2", "nao_tomou"); ("3", "adiado")] ->
  idosos w' = idosos w ->
  lembretes_status w' = <[k := update_reply newStatus ts code l]> (lembretes_status w) ->
  evolves w w'.
Proof.
  intros Hk Hst Hin Hi Hl. split; [exact Hi|]. intros k0 l0 Hk0. rewrite Hl.
  destruct (decide (k = k0)) as [<- | Hne].
  - right. rewrite Hk in Hk0. injection Hk0 as <-. split; [exact Hst|].
    exists code, newStatus, ts. split; [exact Hin | apply lookup_insert_eq].
  - left. now rewrite lookup_insert_ne.
Qed.

Lemma evolves_insert_new (w w1 w' : World) (ref : string) (d : Lembrete) :
  evolves w w1 -> lembretes_status w1 !! ref = None ->
  idosos w' = idosos w1 -> lembretes_status w' = <[ref := d]> (lembretes_status w1) ->
  evolves w w'.
Proof.
  intros Hev Hnew Hi Hl. apply (evolves_trans w w1 w'); [exact Hev|].
  split; [exact Hi|]. intros k l Hk. left. rewrite Hl, lookup_insert_ne; [exact Hk|].
  intros ->. rewrite Hnew in Hk. discriminate Hk.
Qed.

Lemma in_statusMap (message : string) :
  message ∈ ["1"; "2"; "3"] ->
  (message, default "" (prop statusMap message))
  ∈ [("1", "tomou"); ("2", "nao_tomou"); ("3", "adiado")].
Proof.
  intros H. repeat (apply elem_of_cons in H as [-> | H]); [.. | inversion H]; simpl.
  - left.
  - right. left.
  - do 2 right. left.
Qed.

(** The ledger block only ever records a reply on the latest pending entry
    and adds a new entry, whichever of its storage calls are rejected. *)
Lemma record_reply_evolves (env : Env) (id message : string) (w : World)
    (r : Res unit) (w' : World) :
  message ∈ ["1"; "2"; "3"] ->
  record_reply env id message w = (r, w') -> evolves w w'.
Proof.
  intros Hcode H. unfold record_reply in H.
  apply bind_inv in H as [(snap & w1 & Hq & H) | (e & Hq & ->)].
  2:{ unfold get_latest_pending in Hq.
      apply storage_inv in Hq as [(e' & _ & _ & ->) | [_ Hq]]; [| discriminate Hq].
      now apply evolves_of_same. }
  unfold get_latest_pending in Hq.
  apply storage_inv in Hq as [(e' & _ & Hr & _) | [_ Hq]]; [discriminate Hr|].
  injection Hq as <- <-.
  destruct (latest_pending id (set_ops (S (ops w)) w)) as [|[k l] rest] eqn:Hlp.
  { injection H as _ <-. now apply evolves_of_same. }
  destruct (latest_pending_head id _ k l rest Hlp) as (_ & Hk & _ & Hst & _).
  simpl in Hk.
  apply bind_inv in H as [([] & w2 & Hu & H) | (e & Hu & ->)];
    apply update_lembrete_inv in Hu
      as (_ & Hi2 & [(Hl2 & _ & e' & He') | (l0 & Hk0 & Hval & Hl2 & _)]);
    try discriminate He'; try discriminate Hval; simpl in Hi2, Hl2.
  - simpl in Hk0. rewrite Hk in Hk0. injection Hk0 as <-.
    assert (Hev2 : evolves w w2)
      by (eapply evolves_reply; eauto using in_statusMap).
    destruct (String.eqb message "3"); [| injection H as _ <-; exact Hev2].
    apply bind_inv in H as [(ref & w3 & Hn & H) | (e & Hn & _)]; [| discriminate Hn].
    injection Hn as <- <-.
    destruct (autoId_fresh [] w2) as [Hfresh _].
    apply set_lembrete_inv in H as (_ & Hi3 & [(Hl3 & _) | (_ & Hl3 & _)]).
    + apply (evolves_trans w w2 w'); [exact Hev2 | now apply evolves_of_same].
    + eapply evolves_insert_new; eauto.
  - now apply evolves_of_same.
Qed.

Lemma commit_deactivations_inv (env : Env) (ids : list string) (w : World)
    (r : Res unit) (w' : World) :
  commit_deactivations env ids w = (r, w') ->
  idosos w' = idosos w /\ lembretes_status w' = lembretes_status w.
Proof.
  unfold commit_deactivations. intros [(e & _ & -> & ->) | [_ H]]%storage_inv;
    [now split|].
  destruct (forallb _ ids); injection H as <- <-; now split.
Qed.

Lemma handle_reply_evolves (env : Env) (id : string) (idoso : Idoso)
    (phoneNumber message : string) (w : World) (r : Res unit) (w' : World) :
  handle_reply env id idoso phoneNumber message w = (r, w') -> evolves w w'.
Proof.
  unfold handle_reply. intros H.
  destruct (bool_decide (message ∈ ["1"; "2"; "3"])) eqn:Hcode.
  - apply bool_decide_eq_true_1 in Hcode.
    apply bind_inv in H as [([] & w1 & Hrec & H) | (e & Hrec & ->)];
      [| exact (record_reply_evolves env id message w _ w' Hcode Hrec)].
    apply (evolves_trans w w1 w');
      [exact (record_reply_evolves env id message w _ w1 Hcode Hrec)|].
    apply bind_inv in H as [(res & w2 & Hsend & H) | (e & Hsend & ->)];
      apply send_inv in Hsend as (_ & Hi & Hl);
      [injection H as _ <- |]; now apply evolves_of_same.
  - destruct (String.eqb (JS.toLowerCase message) "sair").
    + apply bind_inv in H as [(docs & w1 & Hq & H) | (e & Hq & ->)];
        unfold get_medicamentos_ativos_de in Hq;
        apply storage_inv in Hq as [(e' & _ & Hr & Hw1) | [_ Hq]];
        try discriminate; try (subst w'; now apply evolves_of_same).
      injection Hq as <- <-.
      apply bind_inv in H as [([] & w2 & Hc & H) | (e & Hc & ->)];
        apply commit_deactivations_inv in Hc as [Hi2 Hl2]; simpl in Hi2, Hl2;
        [| now apply evolves_of_same].
      apply bind_inv in H as [(res & w3 & Hsend & H) | (e & Hsend & ->)];
        apply send_inv in Hsend as (_ & Hi & Hl);
        [injection H as _ <- |]; apply evolves_of_same; congruence.
    + apply bind_inv in H as [(res & w3 & Hsend & H) | (e & Hsend & ->)];
        apply send_inv in Hsend as (_ & Hi & Hl);
        [injection H as _ <- |]; now apply evolves_of_same.
Qed.

Lemma webhook_evolves (env : Env) (From Body : option string) (w : World) :
  evolves w (handleWhatsAppWebhook env From Body w).2.
Proof.
  destruct (handleWhatsAppWebhook env From Body w) as [r w'] eqn:H. simpl.
  unfold handleWhatsAppWebhook, try_catch in H.
  match type of H with
  | context [bind ?m ?k w] => destruct (bind m k w) as [[resp | e] w0] eqn:Hbody
  end; injection H as _ <-;
    (apply bind_inv in Hbody as [(snap & w1 & Hq & Hbody) | (e' & Hq & _)];
     unfold get_idosos_por_whatsapp in Hq;
     apply storage_inv in Hq as [(e'' & _ & Hr & Hw1) | [_ Hq]];
     try discriminate; try (subst; now apply evolves_of_same);
     injection Hq as <- <-;
     destruct (idosos_por_whatsapp _ _) as [|[id idoso] rest];
     [try discriminate; injection Hbody as _ <-; now apply evolves_of_same|];
     apply bind_inv in Hbody as [([] & w2 & Hh & Hbody) | (e' & Hh & _)];
     apply handle_reply_evolves in Hh;
     try (injection Hbody as _ <-);
     apply (evolves_trans w (set_ops (S (ops w)) w)); try assumption;
     now apply evolves_of_same).
Qed.

(** X8: whatever the message, the gateway and the store do, one call of the
    webhook leaves the patients as they were and loses no ledger entry; an
    entry it changes was pending ('enviado') and differs from before only by
    the recorded reply: status 'tomou', 'nao_tomou' or 'adiado', the reply
    timestamp and the code.  Entries in any other status stay as they were. *)
Theorem webhook_only_records_replies_on_pending_entries (env : Env)
    (From Body : option string) (w : World) :
  evolves w (handleWhatsAppWebhook env From Body w).2.
Proof. apply webhook_evolves. Qed.

(** The first loop, whichever patient fetches are rejected: it never writes,
    and the ids it queues are new. *)
Lemma collect_inv (env : Env) (currentDay : option Z) (currentTime : string)
    (docs : list (string * Medicamento)) :
  forall (batch : list BatchSet) (rems : list Reminder) (w : World)
         (r : Res (list BatchSet * list Reminder)) (w' : World),
  collect env currentDay currentTime docs batch rems w = (r, w') ->
  untouched w w'
  /\ forall b rs, r = Val (b, rs) ->
       exists newb newr,
         b = (batch ++ newb)%list /\ rs = (rems ++ newr)%list
         /\ newb.*1 = map lembreteId newr
         /\ forall x, x ∈ newb.*1 -> lembretes_status w !! x = None.
Proof.
  assert (Hstay : forall w, untouched w w) by (intros w; now repeat split).
  assert (Hops : forall n w w', untouched (set_ops n w) w' -> untouched w w')
    by (intros n w w' H; exact H).
  induction docs as [|[medId medicamento] docs IH]; intros batch rems w r w' H.
  - injection H as <- <-. split; [apply Hstay|].
    intros b rs Heq. injection Heq as <- <-. exists [], [].
    rewrite !app_nil_r. repeat split. intros x Hx. inversion Hx.
  - simpl collect in H.
    destruct (negb (JS.includesNumber currentDay (m_diasDaSemana medicamento)));
      [exact (IH _ _ _ _ _ H)|].
    destruct (isTimeToRemind (m_horarios medicamento) currentTime);
      [| exact (IH _ _ _ _ _ H)].
    apply bind_inv in H as [(idosoDoc & w1 & Hq & H) | (e & Hq & ->)];
      unfold get_idoso in Hq;
      apply storage_inv in Hq as [(e' & _ & Hr & Hw1) | [_ Hq]]; try discriminate.
    + injection Hq as <- <-.
      destruct (idosos w !! m_idosoId medicamento) as [idoso|].
      * apply bind_inv in H as [(ref & w2 & Hn & H) | (e & Hn & _)]; [| discriminate Hn].
        injection Hn as <- <-.
        destruct (IH _ _ _ _ _ H) as [Hun Hres]. split; [exact (Hops _ _ _ Hun)|].
        intros b rs Heq. destruct (Hres b rs Heq) as (newb & newr & -> & -> & Hids & Hnew).
        eexists (_ :: newb), (_ :: newr). rewrite <- !app_assoc.
        split; [reflexivity|]. split; [reflexivity|].
        split; [rewrite fmap_cons, Hids; reflexivity|].
        rewrite fmap_cons. intros x [-> | Hx]%elem_of_cons; [| exact (Hnew x Hx)].
        exact (proj1 (autoId_fresh batch.*1 (set_ops (S (ops w)) w))).
      * destruct (IH _ _ _ _ _ H) as [Hun Hres]. split; [exact (Hops _ _ _ Hun) | exact Hres].
    + subst w'. split; [now repeat split|]. intros b rs Heq. discriminate Heq.
Qed.

(** The second loop, whichever calls are rejected: it touches only the
    entries of its own reminders. *)
Lemma deliver_inv (env : Env) (rems : list Reminder) :
  forall (w : World) (r : Res unit) (w' : World),
  deliver env rems w = (r, w') ->
  medicamentos w' = medicamentos w /\ idosos w' = idosos w
  /\ forall k, k ∉ map lembreteId rems -> lembretes_status w' !! k = lembretes_status w !! k.
Proof.
  induction rems as [|rem rest IH]; intros w r w' H.
  - injection H as _ <-. auto.
  - simpl deliver in H.
    apply bind_inv in H as [(res & w1 & Hsend & H) | (e & Hsend & _)];
      apply send_inv in Hsend as (Hm1 & Hi1 & Hl1);
      [| split; [exact Hm1 | split; [exact Hi1 | intros k _; now rewrite Hl1]]].
    assert (Hupd : forall w2 (ru : Res unit),
               match res with
               | SendOk sid st =>
                   update_lembrete env (lembreteId rem) (fun _ => update_delivered sid st)
               | SendFail e =>
                   update_lembrete env (lembreteId rem) (fun _ => update_failed e)
               end w1 = (ru, w2) ->
               medicamentos w2 = medicamentos w /\ idosos w2 = idosos w
               /\ forall k, k <> lembreteId rem ->
                            lembretes_status w2 !! k = lembretes_status w !! k).
    { intros w2 ru Hu.
      destruct res; apply update_lembrete_inv in Hu
        as (Hm2 & Hi2 & [(Hl2 & _) | (l0 & _ & _ & Hl2 & _)]);
        (split; [congruence | split; [congruence|]]); intros k Hk; rewrite Hl2, ?Hl1;
        try reflexivity; now rewrite lookup_insert_ne. }
    apply bind_inv in H as [([] & w2 & Hu & H) | (e & Hu & ->)];
      apply Hupd in Hu as (Hm2 & Hi2 & Hl2).
    + destruct (IH _ _ _ H) as (Hm3 & Hi3 & Hl3).
      split; [congruence | split; [congruence|]]. intros k Hk.
      simpl in Hk. apply not_elem_of_cons in Hk as [Hne Hk].
      rewrite (Hl3 k Hk). now apply Hl2.
    + split; [exact Hm2 | split; [exact Hi2|]]. intros k Hk.
      simpl in Hk. apply not_elem_of_cons in Hk as [Hne _]. now apply Hl2.
Qed.

(** The tick up to the commit, whichever calls are rejected. *)
Lemma collect_and_commit_inv (env : Env) (currentDay : option Z) (currentTime : string)
    (w : World) (r : Res (list Reminder)) (w1 : World) :
  collect_and_commit env currentDay currentTime w = (r, w1) ->
  keeps_entries w w1
  /\ (forall rems, r = Val rems ->
        forall x, x ∈ map lembreteId rems -> lembretes_status w !! x = None)
  /\ (forall e, r = Throw e -> untouched w w1).
Proof.
  assert (Hkeep : forall w', untouched w w' -> keeps_entries w w').
  { intros w' (Hm & Hi & Hl & _). split; [exact Hm | split; [exact Hi|]].
    intros k l Hk. now rewrite Hl. }
  unfold collect_and_commit. intros H.
  apply bind_inv in H as [(docs & w0 & Hq & H) | (e & Hq & ->)];
    unfold get_medicamentos_ativos in Hq;
    apply storage_inv in Hq as [(e' & _ & Hr & Hw0) | [_ Hq]]; try discriminate.
  2:{ subst w1. assert (Hun : untouched w (set_ops (S (ops w)) w)) by now repeat split.
      split; [exact (Hkeep _ Hun)|]. split; [intros rems Heq; discriminate Heq|].
      intros _ _. exact Hun. }
  injection Hq as <- <-.
  destruct (medicamentos_ativos (set_ops (S (ops w)) w)) as [|d docs] eqn:Hdocs.
  { injection H as <- <-.
    assert (Hun : untouched w (set_ops (S (ops w)) w)) by now repeat split.
    split; [exact (Hkeep _ Hun)|]. split.
    - intros rems Heq. injection Heq as <-. intros x Hx. inversion Hx.
    - intros _ _. exact Hun. }
  rewrite <- Hdocs in H. clear Hdocs d docs.
  apply bind_inv in H as [([batch rems] & w2 & Hc & H) | (e & Hc & ->)];
    apply collect_inv in Hc as [Hun Hres].
  2:{ split; [exact (Hkeep _ Hun)|]. split; [intros rems Heq; discriminate Heq|].
      intros _ _. exact Hun. }
  destruct (Hres batch rems eq_refl) as (newb & newr & -> & -> & Hids & Hnew).
  simpl in H, Hnew. cbv zeta in H.
  destruct newr as [|rem newr].
  { injection H as <- <-. split; [exact (Hkeep _ Hun)|]. split.
    - intros rems Heq. injection Heq as <-. intros x Hx. inversion Hx.
    - intros e Heq. discriminate Heq. }
  destruct Hun as (Hm2 & Hi2 & Hl2 & Hlog2).
  apply bind_inv in H as [([] & w3 & Hcommit & H) | (e & Hcommit & ->)];
    unfold commit_sets in Hcommit;
    apply storage_inv in Hcommit as [(e' & _ & Hr & Hw3) | [_ Hcommit]];
    try discriminate.
  - injection Hcommit as <-. injection H as <- <-. simpl.
    split; [| split].
    + split; [exact Hm2 | split; [exact Hi2|]]. intros k l Hk. simpl.
      rewrite apply_sets_lookup_notin, Hl2; [exact Hk|].
      intros Hin. apply Hnew in Hin. congruence.
    + intros rems Heq. injection Heq as <-. rewrite <- Hids. exact Hnew.
    + intros e Heq. discriminate Heq.
  - subst w1. split; [| split].
    + apply Hkeep. now repeat split.
    + intros rems Heq. discriminate Heq.
    + intros _ _. now repeat split.
Qed.

Lemma dispatch_keeps (env : Env) (currentDay : option Z) (currentTime : string) (w : World) :
  keeps_entries w (dispatch env currentDay currentTime w).2.
Proof.
  unfold dispatch.
  destruct (bind _ _ w) as [r w'] eqn:H. simpl.
  apply bind_inv in H as [(rems & w1 & Hc & H) | (e & Hc & _)];
    apply collect_and_commit_inv in Hc as ((Hm1 & Hi1 & Hk1) & Hnew & _);
    [| now repeat split].
  apply deliver_inv in H as (Hm2 & Hi2 & Hl2).
  split; [congruence | split; [congruence|]]. intros k l Hk.
  rewrite Hl2; [now apply Hk1|].
  intros Hin. rewrite (Hnew rems eq_refl k Hin) in Hk. discriminate Hk.
Qed.

(** X9: whatever the host, the gateway and the store do, a tick changes no
    medication, no patient and no ledger entry that existed before it; and
    so does the tick after its clock reads, for any values of its locals,
    [NaN] as the day included: all it writes are the entries it creates. *)
Theorem tick_keeps_existing_entries (env : Env) (host : Host) (currentDay : option Z)
    (currentTime : string) (w : World) :
  keeps_entries w (checkMedicationReminders env host w).2
  /\ keeps_entries w (dispatch env currentDay currentTime w).2.
Proof.
  split; [| apply dispatch_keeps].
  rewrite tick_rethrows. split; [reflexivity | split; [reflexivity | auto]].
Qed.

(** X10: along any history of ticks and webhook calls, under any behaviour of
    the gateway and the store, no patient changes and no ledger entry is
    lost; an entry the history found pending is at the end either as it was
    or with one reply recorded on it, and an entry it found in any other
    status ('tomou', 'nao_tomou', 'adiado', 'erro', 'agendado_adiado') is
    exactly as it was: nothing leaves these states, and a postponed entry is
    never sent again. *)
Theorem history_never_leaves_a_settled_state (env : Env) (history : list Action)
    (w : World) :
  evolves w (run env history w)
  /\ forall k l, lembretes_status w !! k = Some l -> status l <> "enviado" ->
                 lembretes_status (run env history w) !! k = Some l.
Proof.
  assert (Hev : forall h w0, evolves w0 (run env h w0)).
  { induction h as [|a h IH]; intros w0; [now apply evolves_of_same|].
    apply (evolves_trans w0 (step env a w0)); [| exact (IH _)].
    destruct a as [host | d t | f b]; simpl.
    - rewrite tick_rethrows. now apply evolves_of_same.
    - apply evolves_of_keeps, dispatch_keeps.
    - apply webhook_evolves. }
  split; [exact (Hev history w)|].
  intros k l Hk Hst. destruct (Hev history w) as [_ H].
  destruct (H k l Hk) as [Hsame | [Hpend _]]; [exact Hsame | contradiction].
Qed.



(** ** Ticks, one after the other *)

Section TickSequences.

Variable env : Env.
Hypothesis Hrel : reliable env.
Variables (currentDay : Z) (currentTime : string).

(** A whole tick with storage calls resolving. *)
Lemma dispatch_run (w : World) :
  exists rems w1 ts w2,
    collect_and_commit env (Some currentDay) currentTime w = (Val rems, w1)
    /\ dispatch env (Some currentDay) currentTime w = (Val tt, w2)
    /\ map r_medicamento rems
       = filter (fires currentDay currentTime w) (medicamentos_ativos w)
    /\ NoDup (map lembreteId rems)
    /\ Forall (committed currentTime w w1 ts) rems
    /\ log w1 = (log w ++ match rems with
                          | [] => []
                          | _ => [EvBatchCommit "lembretes_status" (map lembreteId rems)]
                          end)%list
    /\ (forall k, k ∉ map lembreteId rems ->
                  lembretes_status w2 !! k = lembretes_status w !! k)
    /\ (forall r, r ∈ rems -> is_Some (lembretes_status w2 !! lembreteId r))
    /\ medicamentos w2 = medicamentos w /\ idosos w2 = idosos w
    /\ exists results,
         log w2 = (log w1 ++ concat (zip_with delivery_events rems results))%list.
Proof.
  destruct (collect_and_commit_run env Hrel currentDay currentTime w)
    as (rems & w1 & ts & Hrun & Hmeds & Hnd & Hcommitted & Hframe1 & Hm1 & Hi1 & Hlog1).
  pose proof (committed_exists currentTime w w1 ts rems Hcommitted) as Hexist.
  destruct (deliver_run env Hrel rems w1 Hnd Hexist)
    as (w2 & results & Hdeliver & Hrec & Hframe2 & Hlog2).
  destruct (deliver_inv env rems w1 _ w2 Hdeliver) as (Hm2 & Hi2 & _).
  exists rems, w1, ts, w2.
  split; [exact Hrun|]. split.
  { unfold dispatch.
    now rewrite (bind_val _ _ _ _ _ Hrun). }
  split; [exact Hmeds|]. split; [exact Hnd|]. split; [exact Hcommitted|].
  split; [exact Hlog1|]. split.
  { intros k Hk. rewrite (Hframe2 k Hk). exact (Hframe1 k Hk). }
  split.
  { intros r Hr. clear -Hrec Hr.
    induction Hrec as [|r0 res rs ress (e & _ & Hnow) _ IH]; [inversion Hr|].
    apply elem_of_cons in Hr as [-> | Hr]; [rewrite Hnow; eauto | exact (IH Hr)]. }
  split; [congruence|]. split; [congruence|]. exists results. exact Hlog2.
Qed.

(** X12: the tick after its clock reads, for values of its locals at which
    no active medication with a patient on file is due, and with the
    services answering: it completes, writes nothing and sends nothing. *)
Theorem quiet_dispatch_leaves_no_trace (w : World) :
  (forall d, ~ due_in currentDay currentTime w d) ->
  exists w',
    dispatch env (Some currentDay) currentTime w = (Val tt, w')
    /\ untouched w w'.
Proof.
  intros Hquiet.
  destruct (dispatch_run w)
    as (rems & w1 & ts & w2 & _ & Htick & Hmeds & _ & _ & Hlog1 & Hframe & _
        & Hm & Hi & results & Hlog2).
  destruct (reminders_are_the_due currentDay currentTime w rems Hmeds) as [_ Hdue].
  destruct rems as [|r rems].
  2:{ exfalso. apply (Hquiet (r_medicamento r)), Hdue. left. }
  exists w2. split; [exact Htick|].
  split; [exact Hm | split; [exact Hi | split]].
  - apply map_eq. intros k. apply Hframe. intros Hin. inversion Hin.
  - rewrite Hlog2, Hlog1. simpl. now rewrite !app_nil_r.
Qed.

(** X13: the tick after its clock reads keeps no record of the minutes it
    has served.  Run a second time with the same values of its locals and
    the services answering, it acts on the same medications, those active
    and due with a patient on file, and commits a second entry for each,
    under ids the first run did not use; the entries of both runs are in
    the ledger. *)
Theorem repeated_dispatch_duplicates_entries (w : World) :
  exists rems1 w1 w2 rems2 w3,
    collect_and_commit env (Some currentDay) currentTime w = (Val rems1, w1)
    /\ dispatch env (Some currentDay) currentTime w = (Val tt, w2)
    /\ collect_and_commit env (Some currentDay) currentTime w2 = (Val rems2, w3)
    /\ (forall d, d ∈ map r_medicamento rems1 <-> due_in currentDay currentTime w d)
    /\ map r_medicamento rems2 = map r_medicamento rems1
    /\ (forall x, x ∈ map lembreteId rems2 -> x ∉ map lembreteId rems1)
    /\ Forall (fun r => is_Some (lembretes_status w3 !! lembreteId r)) (rems1 ++ rems2).
Proof.
  destruct (dispatch_run w)
    as (rems1 & w1 & ts1 & w2 & Hrun1 & Htick1 & Hmeds1 & _ & _ & _ & _ & Hexist1
        & Hm2 & Hi2 & _).
  destruct (collect_and_commit_run env Hrel currentDay currentTime w2)
    as (rems2 & w3 & ts2 & Hrun2 & Hmeds2 & _ & Hcommitted2 & Hframe3 & _).
  assert (Hfresh : forall x, x ∈ map lembreteId rems2 -> x ∉ map lembreteId rems1).
  { intros x Hx2 Hx1.
    apply list_elem_of_fmap in Hx2 as (r2 & -> & Hr2).
    apply list_elem_of_fmap in Hx1 as (r1 & Heq & Hr1).
    rewrite Forall_forall in Hcommitted2. destruct (Hcommitted2 r2 Hr2) as (Hnew & _).
    destruct (Hexist1 r1 Hr1) as [e He]. rewrite <- Heq in He. congruence. }
  destruct (reminders_are_the_due currentDay currentTime w rems1 Hmeds1) as [_ Hdue].
  exists rems1, w1, w2, rems2, w3.
  split; [exact Hrun1|]. split; [exact Htick1|]. split; [exact Hrun2|].
  split; [exact Hdue|].
  split; [| split; [exact Hfresh|]].
  - rewrite Hmeds2, Hmeds1. unfold medicamentos_ativos. rewrite Hm2.
    apply list_filter_iff. intros d. unfold fires. now rewrite Hi2.
  - apply Forall_app. split.
    + apply Forall_forall. intros r Hr.
      rewrite Hframe3; [exact (Hexist1 r Hr)|].
      intros Hin. apply (Hfresh _ Hin). apply list_elem_of_fmap. eauto.
    + apply Forall_forall. intros r Hr.
      exact (committed_exists currentTime w2 w3 ts2 rems2 Hcommitted2 r Hr).
Qed.

End TickSequences.

(** Tuesday 09:00 on the scenario: neither medication is due. *)
Lemma quiet_dispatch_leaves_no_trace_witness :
  reliable env_accepting
  /\ (forall d, ~ due_in 2 "09:00" w_registered d)
  /\ exists w',
       dispatch env_accepting (Some 2) "09:00" w_registered = (Val tt, w')
       /\ untouched w_registered w'.
Proof.
  assert (Hquiet : forall d, ~ due_in 2 "09:00" w_registered d).
  { intros d Hd. apply fires_due in Hd. vm_compute in Hd. inversion Hd. }
  split; [exact env_accepting_reliable|]. split; [exact Hquiet|].
  exact (quiet_dispatch_leaves_no_trace env_accepting env_accepting_reliable 2 "09:00"
           w_registered Hquiet).
Defined.

(** Monday 09:00 twice on the scenario: Losartana ends with two entries. *)
Lemma repeated_dispatch_duplicates_entries_witness :
  reliable env_accepting
  /\ exists w2 rems2 w3 r1 r2,
       dispatch env_accepting (Some 1) "09:00" w_registered = (Val tt, w2)
       /\ collect_and_commit env_accepting (Some 1) "09:00" w2 = (Val rems2, w3)
       /\ r_medicamento r1 = ("m1", losartana) /\ r_medicamento r2 = ("m1", losartana)
       /\ lembreteId r1 <> lembreteId r2
       /\ is_Some (lembretes_status w3 !! lembreteId r1)
       /\ is_Some (lembretes_status w3 !! lembreteId r2).
Proof.
  split; [exact env_accepting_reliable|].
  destruct (repeated_dispatch_duplicates_entries env_accepting env_accepting_reliable
              1 "09:00" w_registered)
    as (rems1 & w1 & w2 & rems2 & w3 & _ & H2 & H3 & Hdue & Hsame & Hfresh & Hall).
  assert (Hin1 : ("m1", losartana) ∈ map r_medicamento rems1).
  { apply Hdue. exact (Forall_inv maria_medications_due). }
  assert (Hin2 : ("m1", losartana) ∈ map r_medicamento rems2) by (now rewrite Hsame).
  apply list_elem_of_fmap in Hin1 as (r1 & Hr1 & Hin1).
  apply list_elem_of_fmap in Hin2 as (r2 & Hr2 & Hin2).
  rewrite Forall_forall in Hall.
  exists w2, rems2, w3, r1, r2.
  split; [exact H2|]. split; [exact H3|]. split; [now rewrite Hr1|].
  split; [now rewrite Hr2|]. split; [| split].
  - intros Heq. apply (Hfresh (lembreteId r2)).
    + apply list_elem_of_fmap. now exists r2.
    + rewrite <- Heq. apply list_elem_of_fmap. now exists r1.
  - apply Hall, elem_of_app. now left.
  - apply Hall, elem_of_app. now right.
Defined.

(** ** Replies, one after the other *)

Lemma keeps_meds_ret {A} (a : A) : keeps_meds (ret a).
Proof. intros w r w' H. now injection H as _ <-. Qed.

Lemma keeps_meds_bind {A B} (m : M A) (k : A -> M B) :
  keeps_meds m -> (forall a, keeps_meds (k a)) -> keeps_meds (bind m k).
Proof.
  intros Hm Hk w r w' [(a & w1 & H1 & H2) | (e & H1 & _)]%bind_inv.
  - rewrite (Hk a _ _ _ H2). exact (Hm _ _ _ H1).
  - exact (Hm _ _ _ H1).
Qed.

Lemma keeps_meds_send (env : Env) (to message : string) :
  keeps_meds (sendWhatsAppMessage env to message).
Proof. intros w r w' (Hm & _)%send_inv. exact Hm. Qed.

Lemma keeps_meds_query (env : Env) {A} (q : World -> A) :
  keeps_meds (storage env (fun _ w => (Val (q w), w))).
Proof.
  intros w r w' [(e & _ & _ & ->) | [_ H]]%storage_inv; [reflexivity|].
  now injection H as _ <-.
Qed.

Lemma keeps_meds_record_reply (env : Env) (id message : string) :
  keeps_meds (record_reply env id message).
Proof.
  unfold record_reply. apply keeps_meds_bind; [apply keeps_meds_query|].
  intros [|[k l] rest]; [apply keeps_meds_ret|].
  apply keeps_meds_bind.
  { intros w r w' H. now apply update_lembrete_inv in H as (Hm & _). }
  intros _. destruct (String.eqb message "3"); [| apply keeps_meds_ret].
  apply keeps_meds_bind.
  { intros w r w' H. now injection H as _ <-. }
  intros ref w r w' H. now apply set_lembrete_inv in H as (Hm & _).
Qed.

Lemma winds_down_of_same (w w' : World) :
  medicamentos w' = medicamentos w -> winds_down w w'.
Proof. intros H k. left. now rewrite H. Qed.

Lemma winds_down_trans (w w1 w2 : World) :
  winds_down w w1 -> winds_down w1 w2 -> winds_down w w2.
Proof.
  intros H1 H2 k.
  destruct (H1 k) as [Hsame | (m & ts & Hk & Hact & Hnew)].
  - destruct (H2 k) as [Hsame2 | (m & ts & Hk2 & Hact2 & Hnew2)].
    + left. congruence.
    + right. exists m, ts. rewrite <- Hsame. auto.
  - right. exists m, ts. split; [exact Hk | split; [exact Hact|]].
    destruct (H2 k) as [Hsame2 | (m2 & ts2 & Hk2 & Hact2 & _)]; [congruence|].
    rewrite Hnew in Hk2. injection Hk2 as <-. discriminate Hact2.
Qed.

Lemma winds_down_deactivations (id : string) (ts : Z) (w0 w w' : World) :
  medicamentos w0 = medicamentos w ->
  medicamentos w'
  = apply_deactivations ts (medicamentos_ativos_de id w0).*1 (medicamentos w) ->
  winds_down w w'.
Proof.
  intros H0 Hnew k. rewrite Hnew, apply_deactivations_lookup.
  destruct (decide (k ∈ (medicamentos_ativos_de id w0).*1)) as [Hin | _]; [| now left].
  apply medicamentos_ativos_de_ids in Hin as (m & Hk & _ & Hact).
  rewrite H0 in Hk. right. exists m, ts. rewrite Hk. auto.
Qed.

Lemma handle_reply_winds_down (env : Env) (id : string) (idoso : Idoso)
    (phoneNumber message : string) (w : World) (r : Res unit) (w' : World) :
  handle_reply env id idoso phoneNumber message w = (r, w') -> winds_down w w'.
Proof.
  unfold handle_reply. intros H.
  destruct (bool_decide (message ∈ ["1"; "2"; "3"])).
  { apply winds_down_of_same. revert H. apply keeps_meds_bind.
    - apply keeps_meds_record_reply.
    - intros _. apply keeps_meds_bind; [apply keeps_meds_send | intros; apply keeps_meds_ret]. }
  destruct (String.eqb (JS.toLowerCase message) "sair").
  2:{ apply winds_down_of_same. revert H.
      apply keeps_meds_bind; [apply keeps_meds_send | intros; apply keeps_meds_ret]. }
  apply bind_inv in H as [(docs & w1 & Hq & H) | (e & Hq & ->)];
    unfold get_medicamentos_ativos_de in Hq;
    apply storage_inv in Hq as [(e' & _ & Hr & Hw1) | [_ Hq]];
    try discriminate; try (subst w'; now apply winds_down_of_same).
  injection Hq as <- <-.
  assert (Hsend : forall w2 (r2 : Res unit) w3,
             bind (sendWhatsAppMessage env phoneNumber (optOutMessage idoso))
               (fun _ => ret tt) w2 = (r2, w3) -> medicamentos w3 = medicamentos w2).
  { intros w2 r2 w3. apply keeps_meds_bind;
      [apply keeps_meds_send | intros; apply keeps_meds_ret]. }
  apply bind_inv in H as [([] & w2 & Hc & H) | (e & Hc & ->)];
    unfold commit_deactivations in Hc;
    apply storage_inv in Hc as [(e' & _ & Hr & Hw2) | [_ Hc]];
    try discriminate; try (subst; now apply winds_down_of_same).
  - simpl in Hc. destruct (forallb _ _); [| discriminate Hc].
    injection Hc as <-. apply Hsend in H.
    eapply winds_down_deactivations; [| rewrite H; reflexivity]. reflexivity.
  - simpl in Hc. destruct (forallb _ _); [discriminate Hc|].
    injection Hc as _ <-. now apply winds_down_of_same.
Qed.

Lemma webhook_winds_down (env : Env) (From Body : option string) (w : World) :
  winds_down w (handleWhatsAppWebhook env From Body w).2.
Proof.
  destruct (handleWhatsAppWebhook env From Body w) as [r w'] eqn:H. simpl.
  unfold handleWhatsAppWebhook, try_catch in H.
  match type of H with
  | context [bind ?m ?k w] => destruct (bind m k w) as [[resp | e] w0] eqn:Hbody
  end; injection H as _ <-;
    (apply bind_inv in Hbody as [(snap & w1 & Hq & Hbody) | (e' & Hq & _)];
     unfold get_idosos_por_whatsapp in Hq;
     apply storage_inv in Hq as [(e'' & _ & Hr & Hw1) | [_ Hq]];
     try discriminate; try (subst; now apply winds_down_of_same);
     injection Hq as <- <-;
     destruct (idosos_por_whatsapp _ _) as [|[id idoso] rest];
     [try discriminate; injection Hbody as _ <-; now apply winds_down_of_same|];
     apply bind_inv in Hbody as [([] & w2 & Hh & Hbody) | (e' & Hh & _)];
     apply handle_reply_winds_down in Hh;
     try (injection Hbody as _ <-);
     apply (winds_down_trans w (set_ops (S (ops w)) w)); try assumption;
     now apply winds_down_of_same).
Qed.

Lemma run_winds_down (env : Env) (history : list Action) :
  forall w, winds_down w (run env history w).
Proof.
  induction history as [|a h IH]; intros w; [now apply winds_down_of_same|].
  apply (winds_down_trans w (step env a w)); [| exact (IH _)].
  destruct a as [host | d t | f b]; simpl.
  - rewrite tick_rethrows. now apply winds_down_of_same.
  - apply winds_down_of_same. exact (proj1 (dispatch_keeps env d t w)).
  - apply webhook_winds_down.
Qed.

(** X14: along any history of ticks and webhook calls, under any behaviour
    of the gateway and the store, no medication is added or removed; a
    medication is at the end as it was or, if it was active, deactivated
    with a timestamp; an inactive medication is never reactivated and its
    deactivation timestamp never rewritten. *)
Theorem history_only_deactivates_medications (env : Env) (history : list Action)
    (w : World) :
  winds_down w (run env history w)
  /\ forall k m, medicamentos w !! k = Some m -> m_ativo m = false ->
                 medicamentos (run env history w) !! k = Some m.
Proof.
  split; [apply run_winds_down|]. intros k m Hk Hoff.
  destruct (run_winds_down env history w k) as [-> | (m' & ts & Hk' & Hact & _)];
    [exact Hk|].
  rewrite Hk in Hk'. injection Hk' as <-. congruence.
Qed.

Lemma opted_out_after_deactivations (id : string) (ts : Z) (w w' : World) :
  medicamentos w'
  = apply_deactivations ts (medicamentos_ativos_de id w).*1 (medicamentos w) ->
  opted_out id w'.
Proof.
  intros Hnew k m Hk Hid. rewrite Hnew, apply_deactivations_lookup in Hk.
  destruct (decide (k ∈ (medicamentos_ativos_de id w).*1)) as [_ | Hout].
  - destruct (medicamentos w !! k) as [m0|]; [| discriminate Hk].
    now injection Hk as <-.
  - destruct (m_ativo m) eqn:Hact; [exfalso | reflexivity].
    apply Hout, medicamentos_ativos_de_ids. now exists m.
Qed.

Lemma opted_out_winds_down (id : string) (w w' : World) :
  opted_out id w -> winds_down w w' -> opted_out id w'.
Proof.
  intros Hout Hdown k m Hk Hid.
  destruct (Hdown k) as [Hsame | (m0 & ts & _ & _ & Hnew)].
  - rewrite Hsame in Hk. exact (Hout k m Hk Hid).
  - rewrite Hnew in Hk. now injection Hk as <-.
Qed.

Section OptOut.

Variable env : Env.
Hypothesis Hrel : reliable env.

(** X15: opting out is permanent. Once a known patient's 'sair' has been
    handled, then after any further history of ticks and webhook calls,
    whatever the gateway and the store do during it, a tick at any day and
    time collects and commits no reminder for a medication of that
    patient. *)
Theorem opt_out_is_permanent (From Body : option string) (w : World)
    (id : string) (idoso : Idoso) (others : list (string * Idoso))
    (env' : Env) (history : list Action) (currentDay : Z) (currentTime : string) :
  idosos_por_whatsapp (JS.replace "+55" "" (phoneNumber_of From)) w = (id, idoso) :: others ->
  JS.toLowerCase (message_of Body) = "sair" ->
  exists rems w3,
    collect_and_commit env (Some currentDay) currentTime
      (run env' history (handleWhatsAppWebhook env From Body w).2) = (Val rems, w3)
    /\ Forall (fun r => m_idosoId (r_medicamento r).2 <> id) rems.
Proof.
  intros Hknown Hsair.
  destruct (webhook_sair_run env Hrel From id idoso others Body w Hknown Hsair)
    as (w1 & r & Hrun & Hmeds & _).
  rewrite Hrun. cbn [snd].
  assert (Hout : opted_out id (run env' history w1)).
  { apply (opted_out_winds_down id w1); [| apply run_winds_down].
    exact (opted_out_after_deactivations id _ w w1 Hmeds). }
  destruct (collect_and_commit_run env Hrel currentDay currentTime (run env' history w1))
    as (rems & w3 & ts & Hcc & Hfired & _).
  exists rems, w3. split; [exact Hcc|].
  apply Forall_forall. intros rem Hin Hid.
  assert (Hmem : r_medicamento rem
                 ∈ filter (fires currentDay currentTime (run env' history w1))
                     (medicamentos_ativos (run env' history w1))).
  { rewrite <- Hfired. apply list_elem_of_In, in_map, list_elem_of_In, Hin. }
  apply list_elem_of_filter in Hmem as [_ Hmem].
  unfold medicamentos_ativos in Hmem.
  apply list_elem_of_filter in Hmem as [Hact Hmem].
  destruct (r_medicamento rem) as [k m]. apply elem_of_map_to_list in Hmem.
  simpl in *. rewrite (Hout k m Hmem Hid) in Hact. discriminate Hact.
Qed.

End OptOut.

Lemma opt_out_is_permanent_witness :
  reliable env_accepting
  /\ idosos_por_whatsapp (JS.replace "+55" "" (phoneNumber_of from_maria)) w_registered
     = [("p1", maria)]
  /\ JS.toLowerCase (message_of (Some " SAIR ")) = "sair"
  /\ exists rems w3,
       collect_and_commit env_accepting (Some 1) "09:00"
         (run env_gateway_down [Dispatch (Some 1) "09:00"; Webhook from_maria (Some "1")]
            (handleWhatsAppWebhook env_accepting from_maria (Some " SAIR ") w_registered).2)
       = (Val rems, w3)
       /\ Forall (fun r => m_idosoId (r_medicamento r).2 <> "p1") rems.
Proof.
  assert (Hsair : JS.toLowerCase (message_of (Some " SAIR ")) = "sair")
    by (vm_compute; reflexivity).
  split; [exact env_accepting_reliable|].
  split; [exact maria_known_registered|]. split; [exact Hsair|].
  exact (opt_out_is_permanent env_accepting env_accepting_reliable from_maria
           (Some " SAIR ") w_registered "p1" maria [] env_gateway_down
           [Dispatch (Some 1) "09:00"; Webhook from_maria (Some "1")] 1 "09:00"
           maria_known_registered Hsair).
Defined.

Section RepliesInSequence.

Variable env : Env.
Hypothesis Hrel : reliable env.

Variables (From : option string) (w : World).
Variables (id : string) (idoso : Idoso) (others : list (string * Idoso)).

Hypothesis Hknown :
  idosos_por_whatsapp (JS.replace "+55" "" (phoneNumber_of From)) w = (id, idoso) :: others.

(** What a coded reply answering the pending entry [k] leaves in the
    ledger. *)
Lemma coded_reply_ledger (body code : string) (k : string) (l : Lembrete) :
  JS.trim body = code ->
  code ∈ ["1"; "2"; "3"] ->
  (k, l) ∈ latest_pending id w ->
  exists w' l',
    handleWhatsAppWebhook env From (Some body) w
    = (Val {| http_status := 200; success := true; error := None |}, w')
    /\ idosos w' = idosos w
    /\ lembretes_status w !! k = Some l /\ idosoId l = id /\ status l = "enviado"
    /\ l' = update_reply (default "" (prop statusMap code))
              (serverTimestamp env (2 + ops w)) code l
    /\ (code <> "3" -> lembretes_status w' = <[k := l']> (lembretes_status w))
    /\ (code = "3" ->
        exists ref,
          lembretes_status w !! ref = None /\ ref <> k
          /\ lembretes_status w'
             = <[ref := delayedReminder l id (serverTimestamp env (3 + ops w))]>
                 (<[k := l']> (lembretes_status w))).
Proof.
  intros Htrim Hcode Hpending.
  destruct (latest_pending id w) as [|[k0 l0] rest] eqn:Hlp; [inversion Hpending|].
  destruct (latest_pending_head id w k0 l0 rest Hlp) as (-> & Hk0 & Hid0 & Hst0 & _).
  apply list_elem_of_singleton in Hpending. injection Hpending as <- <-.
  destruct (webhook_coded_run env From body w id idoso others code Hrel Hknown Htrim Hcode)
    as (w1 & w2 & msg & r & Hrec & Hrun & _ & _ & Hledger & _).
  destruct (record_reply_some env Hrel id code (set_ops (S (ops w)) w) k l [])
    as (w1' & Hrec' & _ & _ & Hother & Hthree); [exact Hlp|].
  rewrite Hrec in Hrec'. injection Hrec' as <-.
  exists w2. eexists. split; [exact Hrun|].
  split.
  { pose proof (webhook_evolves env From (Some body) w) as [Hid _].
    now rewrite Hrun in Hid. }
  split; [exact Hk0|]. split; [exact Hid0|]. split; [exact Hst0|].
  split; [reflexivity|]. rewrite Hledger. split.
  - intros Hc. now destruct (Hother Hc) as [-> _].
  - intros Hc. destruct (Hthree Hc) as (ref & Hfresh & -> & _).
    exists ref. split; [exact Hfresh|]. split; [| reflexivity].
    intros ->. simpl in Hfresh. rewrite Hfresh in Hk0. discriminate.
Qed.

Lemma statusMap_not_pending (code : string) :
  code ∈ ["1"; "2"; "3"] -> default "" (prop statusMap code) <> "enviado".
Proof.
  intros H. repeat (apply elem_of_cons in H as [-> | H]); [.. | inversion H];
    discriminate.
Qed.

Lemma coded_reply_pending (body code : string) (k : string) (l : Lembrete) :
  JS.trim body = code ->
  code ∈ ["1"; "2"; "3"] ->
  (k, l) ∈ latest_pending id w ->
  exists w',
    handleWhatsAppWebhook env From (Some body) w
    = (Val {| http_status := 200; success := true; error := None |}, w')
    /\ idosos w' = idosos w
    /\ forall id' k' l',
         (k', l') ∈ lembretes_enviados id' w'
         <-> ((k', l') ∈ lembretes_enviados id' w /\ k' <> k).
Proof.
  intros Htrim Hcode Hpending.
  destruct (coded_reply_ledger body code k l Htrim Hcode Hpending)
    as (w' & l' & Hrun & Hidosos & Hk & Hid & Hst & Hl' & Hother & Hthree).
  exists w'. split; [exact Hrun|]. split; [exact Hidosos|].
  assert (Hl'st : status l' <> "enviado").
  { rewrite Hl'. simpl. now apply statusMap_not_pending. }
  assert (Hone : forall id' k' l0,
             (<[k := l']> (lembretes_status w) !! k' = Some l0
              /\ idosoId l0 = id' /\ status l0 = "enviado")
             <-> ((lembretes_status w !! k' = Some l0
                   /\ idosoId l0 = id' /\ status l0 = "enviado") /\ k' <> k)).
  { intros id' k' l0. destruct (decide (k' = k)) as [-> | Hne].
    - rewrite lookup_insert_eq. split.
      + intros (Heq & _ & Hst0). injection Heq as <-. contradiction.
      + intros [_ Hne]. contradiction.
    - rewrite lookup_insert_ne by congruence. tauto. }
  intros id' k' l0. rewrite !lembretes_enviados_elem.
  destruct (decide (code = "3")) as [Hc | Hc].
  - destruct (Hthree Hc) as (ref & Hfresh & Hrefk & ->).
    destruct (decide (k' = ref)) as [-> | Hne].
    + rewrite lookup_insert_eq. split.
      * intros (Heq & _ & Hst0). injection Heq as <-. discriminate Hst0.
      * intros [(Hin & _) _]. rewrite Hfresh in Hin. discriminate.
    + rewrite lookup_insert_ne by congruence. apply Hone.
  - rewrite (Hother Hc). apply Hone.
Qed.

(** X16: a reply "1", "2" or "3" uses up exactly the reminder it answers:
    afterwards the reminders awaiting an answer, of every patient, are
    those that awaited one before, less the answered one.  For "3" the
    postponed copy is not among them. *)
Theorem coded_reply_consumes_the_answered_reminder (body code : string)
    (k : string) (l : Lembrete) :
  JS.trim body = code ->
  code ∈ ["1"; "2"; "3"] ->
  (k, l) ∈ latest_pending id w ->
  exists w',
    handleWhatsAppWebhook env From (Some body) w
    = (Val {| http_status := 200; success := true; error := None |}, w')
    /\ forall id' k' l',
         (k', l') ∈ lembretes_enviados id' w'
         <-> ((k', l') ∈ lembretes_enviados id' w /\ k' <> k).
Proof.
  intros Htrim Hcode Hpending.
  destruct (coded_reply_pending body code k l Htrim Hcode Hpending)
    as (w' & Hrun & _ & Hiff).
  now exists w'.
Qed.

(** X17: when the answered reminder was the patient's only pending one, a
    second coded reply finds nothing to answer and leaves the ledger as the
    first reply left it; in particular a reminder postponed with "3" cannot
    be confirmed by a later "1". *)
Theorem second_reply_finds_nothing_pending (body code body2 code2 : string)
    (k : string) (l : Lembrete) :
  JS.trim body = code ->
  code ∈ ["1"; "2"; "3"] ->
  JS.trim body2 = code2 ->
  code2 ∈ ["1"; "2"; "3"] ->
  (k, l) ∈ latest_pending id w ->
  (forall k' l', lembretes_status w !! k' = Some l' -> idosoId l' = id ->
                 status l' = "enviado" -> k' = k) ->
  exists w1 w2,
    handleWhatsAppWebhook env From (Some body) w
    = (Val {| http_status := 200; success := true; error := None |}, w1)
    /\ handleWhatsAppWebhook env From (Some body2) w1
       = (Val {| http_status := 200; success := true; error := None |}, w2)
    /\ lembretes_status w2 = lembretes_status w1.
Proof.
  intros Htrim Hcode Htrim2 Hcode2 Hpending Honly.
  destruct (coded_reply_pending body code k l Htrim Hcode Hpending)
    as (w1 & Hrun & Hidosos & Hiff).
  assert (Hknown1 : idosos_por_whatsapp (JS.replace "+55" "" (phoneNumber_of From)) w1
                    = (id, idoso) :: others).
  { rewrite <- Hknown. unfold idosos_por_whatsapp. now rewrite Hidosos. }
  assert (Hnone : latest_pending id (set_ops (S (ops w1)) w1) = []).
  { apply latest_pending_nil. intros k' l' Hk' Hid' Hst'.
    assert (Hin : (k', l') ∈ lembretes_enviados id w1)
      by (apply lembretes_enviados_elem; auto).
    apply Hiff in Hin as [Hin Hne]. apply lembretes_enviados_elem in Hin as (Hin & _).
    exact (Hne (Honly k' l' Hin Hid' Hst')). }
  destruct (webhook_coded_run env From body2 w1 id idoso others code2
              Hrel Hknown1 Htrim2 Hcode2)
    as (w1a & w2 & msg & r & Hrec & Hrun2 & _ & _ & Hledger & _).
  rewrite (record_reply_none env Hrel id code2 _ Hnone) in Hrec.
  injection Hrec as <-.
  exists w1, w2. split; [exact Hrun|]. split; [exact Hrun2 | exact Hledger].
Qed.

End RepliesInSequence.

Lemma coded_reply_consumes_the_answered_reminder_witness :
  reliable env_accepting
  /\ idosos_por_whatsapp (JS.replace "+55" "" (phoneNumber_of from_maria)) w_pending
     = [("p1", maria)]
  /\ JS.trim " 3 " = "3"
  /\ "3" ∈ ["1"; "2"; "3"]
  /\ ("L1", lembrete_pendente) ∈ latest_pending "p1" w_pending
  /\ exists w',
       handleWhatsAppWebhook env_accepting from_maria (Some " 3 ") w_pending
       = (Val {| http_status := 200; success := true; error := None |}, w')
       /\ forall id' k' l',
            (k', l') ∈ lembretes_enviados id' w'
            <-> ((k', l') ∈ lembretes_enviados id' w_pending /\ k' <> "L1").
Proof.
  assert (Hcode : "3" ∈ ["1"; "2"; "3"]) by (do 2 right; left).
  assert (Hpending : ("L1", lembrete_pendente) ∈ latest_pending "p1" w_pending)
    by (vm_compute; left).
  split; [exact env_accepting_reliable|]. split; [exact maria_known_pending|].
  split; [reflexivity|]. split; [exact Hcode|]. split; [exact Hpending|].
  exact (coded_reply_consumes_the_answered_reminder env_accepting env_accepting_reliable
           from_maria w_pending "p1" maria [] maria_known_pending
           " 3 " "3" "L1" lembrete_pendente eq_refl Hcode Hpending).
Defined.

Lemma second_reply_finds_nothing_pending_witness :
  reliable env_accepting
  /\ idosos_por_whatsapp (JS.replace "+55" "" (phoneNumber_of from_maria)) w_pending
     = [("p1", maria)]
  /\ JS.trim " 3 " = "3"
  /\ "3" ∈ ["1"; "2"; "3"]
  /\ JS.trim "1" = "1"
  /\ "1" ∈ ["1"; "2"; "3"]
  /\ ("L1", lembrete_pendente) ∈ latest_pending "p1" w_pending
  /\ (forall k' l', lembretes_status w_pending !! k' = Some l' -> idosoId l' = "p1" ->
                    status l' = "enviado" -> k' = "L1")
  /\ exists w1 w2,
       handleWhatsAppWebhook env_accepting from_maria (Some " 3 ") w_pending
       = (Val {| http_status := 200; success := true; error := None |}, w1)
       /\ handleWhatsAppWebhook env_accepting from_maria (Some "1") w1
          = (Val {| http_status := 200; success := true; error := None |}, w2)
       /\ lembretes_status w2 = lembretes_status w1.
Proof.
  assert (Hcode : "3" ∈ ["1"; "2"; "3"]) by (do 2 right; left).
  assert (Hcode2 : "1" ∈ ["1"; "2"; "3"]) by left.
  assert (Hpending : ("L1", lembrete_pendente) ∈ latest_pending "p1" w_pending)
    by (vm_compute; left).
  assert (Honly : forall k' l', lembretes_status w_pending !! k' = Some l' ->
                    idosoId l' = "p1" -> status l' = "enviado" -> k' = "L1").
  { intros k' l' Hk' _ _. destruct (decide (k' = "L1")) as [Heq | Hne]; [exact Heq|].
    unfold w_pending in Hk'. simpl in Hk'.
    rewrite lookup_singleton_ne in Hk' by congruence. discriminate Hk'. }
  split; [exact env_accepting_reliable|]. split; [exact maria_known_pending|].
  split; [reflexivity|]. split; [exact Hcode|].
  split; [reflexivity|]. split; [exact Hcode2|].
  split; [exact Hpending|]. split; [exact Honly|].
  exact (second_reply_finds_nothing_pending env_accepting env_accepting_reliable
           from_maria w_pending "p1" maria [] maria_known_pending
           " 3 " "3" "1" "1" "L1" lembrete_pendente eq_refl Hcode eq_refl Hcode2
           Hpending Honly).
Defined.

(** ** Reports *)

Lemma foldl_count_status (docs : list (string * Lembrete)) :
  forall a b c d : nat,
    foldl count_status (a, b, c, d) docs
    = ((a + with_status ["tomou"] docs)%nat,
       (b + with_status ["nao_tomou"] docs)%nat,
       (c + with_status ["adiado"] docs)%nat,
       (d + with_status ["enviado"; "alerta_enviado"] docs)%nat).
Proof.
  unfold with_status.
  induction docs as [|x docs IH]; intros a b c d; simpl foldl.
  - simpl. now rewrite !Nat.add_0_r.
  - rewrite !filter_cons.
    destruct (String.eqb_spec (status x.2) "tomou") as [E1 | N1];
      [| destruct (String.eqb_spec (status x.2) "nao_tomou") as [E2 | N2];
         [| destruct (String.eqb_spec (status x.2) "adiado") as [E3 | N3];
            [| destruct (String.eqb_spec (status x.2) "enviado") as [E4 | N4];
               [| destruct (String.eqb_spec (status x.2) "alerta_enviado")
                    as [E5 | N5]]]]];
      simpl orb; cbv iota; rewrite IH;
      repeat case_decide; simpl length;
      repeat match goal with
             | H : _ ∈ _ |- _ => rewrite ?elem_of_cons, elem_of_nil in H
             | H : _ ∉ _ |- _ => rewrite ?elem_of_cons, elem_of_nil in H
             end;
      try (exfalso; intuition congruence);
      repeat first [lia | apply (f_equal2 pair)].

Qed.

Lemma statistics_of_counts (docs : list (string * Lembrete)) :
  statistics_of docs
  = {| st_total := with_status ["tomou"] docs + with_status ["nao_tomou"] docs
                   + with_status ["adiado"] docs
                   + with_status ["enviado"; "alerta_enviado"] docs;
       st_tomados := with_status ["tomou"] docs;
       st_naoTomados := with_status ["nao_tomou"] docs;
       st_adiados := with_status ["adiado"] docs;
       st_semResposta := with_status ["enviado"; "alerta_enviado"] docs |}.
Proof. unfold statistics_of. now rewrite foldl_count_status. Qed.

Lemma with_status_counted (docs : list (string * Lembrete)) :
  with_status counted docs
  = (with_status ["tomou"] docs + with_status ["nao_tomou"] docs
     + with_status ["adiado"] docs + with_status ["enviado"; "alerta_enviado"] docs)%nat
  /\ length docs
     = (with_status counted docs
        + length (filter (fun d => status d.2 ∉ counted) docs))%nat.
Proof.
  unfold with_status, counted.
  induction docs as [|x docs [IH1 IH2]]; [split; reflexivity|].
  rewrite !filter_cons.
  repeat case_decide; simpl length;
    repeat match goal with
           | H : _ ∈ _ |- _ => rewrite ?elem_of_cons, elem_of_nil in H
           | H : _ ∉ _ |- _ => rewrite ?elem_of_cons, elem_of_nil in H
           end;
    try (exfalso; intuition congruence);
    split; lia.
Qed.

Lemma generateReport_run (env : Env) (idosoId date : option string)
    (startOfDay endOfDay : Z) (iso : string) (w : World) :
  JS.falsy idosoId = false ->
  JS.falsy date = false ->
  storage_rejects env (ops w) = None ->
  generateReport env idosoId date startOfDay endOfDay iso w
  = (Val (ReportData iso (default "" idosoId)
            (statistics_of (lembretes_do_dia (default "" idosoId) startOfDay endOfDay w))),
     set_ops (S (ops w)) w).
Proof.
  intros Hid Hdate Hok. unfold generateReport.
  rewrite Hid, Hdate. simpl orb. cbv iota. unfold try_catch, bind.
  now rewrite (storage_resolves env _ w Hok).
Qed.

(** X18: for a request with both parameters that the store serves,
    [generateReport] answers with the tally of the patient's ledger entries
    of that day: [tomados], [naoTomados] and [adiados] count the entries in
    status 'tomou', 'nao_tomou' and 'adiado', [semResposta] those in
    'enviado' or 'alerta_enviado', and [total] is the number of entries in
    one of these five statuses; entries in any other status ('erro',
    'agendado_adiado') are in no count, so [total] falls short of the number
    of entries by exactly their number.  The request changes nothing. *)
Theorem report_tallies_the_day_by_status (env : Env) (idosoId date : option string)
    (startOfDay endOfDay : Z) (iso : string) (w : World) :
  JS.falsy idosoId = false ->
  JS.falsy date = false ->
  storage_rejects env (ops w) = None ->
  exists id stats w',
    idosoId = Some id
    /\ generateReport env idosoId date startOfDay endOfDay iso w
       = (Val (ReportData iso id stats), w')
    /\ untouched w w'
    /\ st_tomados stats = with_status ["tomou"] (lembretes_do_dia id startOfDay endOfDay w)
    /\ st_naoTomados stats
       = with_status ["nao_tomou"] (lembretes_do_dia id startOfDay endOfDay w)
    /\ st_adiados stats = with_status ["adiado"] (lembretes_do_dia id startOfDay endOfDay w)
    /\ st_semResposta stats
       = with_status ["enviado"; "alerta_enviado"]
           (lembretes_do_dia id startOfDay endOfDay w)
    /\ st_total stats = with_status counted (lembretes_do_dia id startOfDay endOfDay w)
    /\ length (lembretes_do_dia id startOfDay endOfDay w)
       = (st_total stats
          + length (filter (fun d => status d.2 ∉ counted)
                      (lembretes_do_dia id startOfDay endOfDay w)))%nat.
Proof.
  intros Hid Hdate Hok.
  destruct idosoId as [id|]; [| discriminate Hid].
  exists id. eexists. eexists. split; [reflexivity|].
  split; [exact (generateReport_run env (Some id) date _ _ iso w Hid Hdate Hok)|].
  split; [repeat split|].
  simpl default. rewrite statistics_of_counts. simpl.
  destruct (with_status_counted (lembretes_do_dia id startOfDay endOfDay w)) as [H1 H2].
  repeat split; try reflexivity.
  - now rewrite H1.
  - now rewrite H2, H1.
Qed.

(** X19: whatever the store does, [generateReport] changes no collection and
    sends nothing.  A request that lacks [idosoId] or [date], or has one of
    them empty, is answered 400 without the store being asked; when the
    store rejects the query the answer is 500 with the store's message. *)
Theorem report_is_read_only (env : Env) (idosoId date : option string)
    (startOfDay endOfDay : Z) (iso : string) (w : World) :
  exists resp w',
    generateReport env idosoId date startOfDay endOfDay iso w = (Val resp, w')
    /\ untouched w w'
    /\ (JS.falsy idosoId || JS.falsy date = true ->
        resp = ReportError 400 "idosoId and date are required" /\ w' = w)
    /\ (JS.falsy idosoId || JS.falsy date = false ->
        forall e, storage_rejects env (ops w) = Some e -> resp = ReportError 500 e).
Proof.
  unfold generateReport, try_catch, bind.
  destruct (JS.falsy idosoId || JS.falsy date) eqn:Hmissing.
  - exists (ReportError 400 "idosoId and date are required"), w. unfold ret.
    split; [reflexivity|]. split; [repeat split|]. split; [auto | discriminate].
  - destruct (storage_rejects env (ops w)) as [e|] eqn:Hstore.
    + rewrite (storage_throws env _ w e Hstore). unfold ret.
      exists (ReportError 500 e), (set_ops (S (ops w)) w).
      split; [reflexivity|]. split; [repeat split|]. split; [discriminate|].
      intros _ e' He'. congruence.
    + rewrite (storage_resolves env _ w Hstore). unfold ret.
      eexists. exists (set_ops (S (ops w)) w).
      split; [reflexivity|]. split; [repeat split|]. split; [discriminate|].
      intros _ e' He'. discriminate He'.
Qed.

Lemma filter_length_insert_replace {A} (P : string * A -> Prop)
    `{!forall x, Decision (P x)} (m : gmap string A) (k : string) (x y : A) :
  m !! k = Some x ->
  (length (filter P (map_to_list (<[k := y]> m))) + (if decide (P (k, x)) then 1 else 0)
   = length (filter P (map_to_list m)) + (if decide (P (k, y)) then 1 else 0))%nat.
Proof.
  intros Hk.
  rewrite <- (insert_delete_eq m k y).
  rewrite (map_to_list_insert (delete k m) k y) by apply lookup_delete_eq.
  rewrite <- (map_to_list_delete m k x Hk).
  rewrite !filter_cons. repeat case_decide; simpl length; lia.
Qed.

Lemma filter_length_insert_new {A} (P : string * A -> Prop)
    `{!forall x, Decision (P x)} (m : gmap string A) (k : string) (y : A) :
  m !! k = None ->
  length (filter P (map_to_list (<[k := y]> m)))
  = (length (filter P (map_to_list m)) + (if decide (P (k, y)) then 1 else 0))%nat.
Proof.
  intros Hk. rewrite (map_to_list_insert m k y Hk).
  rewrite filter_cons. case_decide; simpl length; lia.
Qed.

Section ReportAfterReply.

Variable env : Env.
Hypothesis Hrel : reliable env.

Variables (From : option string) (w : World).
Variables (id : string) (idoso : Idoso) (others : list (string * Idoso)).

Hypothesis Hknown :
  idosos_por_whatsapp (JS.replace "+55" "" (phoneNumber_of From)) w = (id, idoso) :: others.

Lemma tally_after_reply (body code : string) (k : string) (l : Lembrete)
    (startOfDay endOfDay : Z) :
  JS.trim body = code ->
  code ∈ ["1"; "2"; "3"] ->
  (k, l) ∈ latest_pending id w ->
  startOfDay <= dataHora l <= endOfDay ->
  exists w',
    handleWhatsAppWebhook env From (Some body) w
    = (Val {| http_status := 200; success := true; error := None |}, w')
    /\ forall sts,
         "agendado_adiado" ∉ sts ->
         (with_status sts (lembretes_do_dia id startOfDay endOfDay w')
          + (if decide ("enviado" ∈ sts) then 1 else 0)
          = with_status sts (lembretes_do_dia id startOfDay endOfDay w)
            + (if decide (default "" (prop statusMap code) ∈ sts) then 1 else 0))%nat.
Proof.
  intros Htrim Hcode Hpending Hday.
  destruct (coded_reply_ledger env Hrel From w id idoso others Hknown body code k l
              Htrim Hcode Hpending)
    as (w' & l' & Hrun & _ & Hk & Hid & Hst & Hl' & Hother & Hthree).
  exists w'. split; [exact Hrun|]. intros sts Hsts.
  unfold with_status, lembretes_do_dia. rewrite !list_filter_filter.
  set (P := fun a : string * Lembrete =>
              status a.2 ∈ sts
              /\ idosoId a.2 = id /\ startOfDay <= dataHora a.2 /\ dataHora a.2 <= endOfDay).
  assert (Hreplace :
            (length (filter P (map_to_list (<[k := l']> (lembretes_status w))))
             + (if decide ("enviado" ∈ sts) then 1 else 0)
             = length (filter P (map_to_list (lembretes_status w)))
               + (if decide (default "" (prop statusMap code) ∈ sts) then 1 else 0))%nat).
  { pose proof (filter_length_insert_replace P (lembretes_status w) k l l' Hk) as Hcount.
    assert (Hold : P (k, l) <-> "enviado" ∈ sts).
    { unfold P. simpl. rewrite Hst. intuition lia. }
    assert (Hnew : P (k, l') <-> default "" (prop statusMap code) ∈ sts).
    { unfold P. rewrite Hl'. simpl. intuition lia. }
    repeat case_decide; tauto || lia. }
  destruct (decide (code = "3")) as [Hc | Hc].
  - destruct (Hthree Hc) as (ref & Hfresh & Hne & ->).
    rewrite filter_length_insert_new
      by (rewrite lookup_insert_ne by congruence; exact Hfresh).
    rewrite decide_False; [lia|].
    unfold P. simpl. tauto.
  - rewrite (Hother Hc). exact Hreplace.
Qed.

(** X20: a reply "1", "2" or "3" to a reminder of the reported day moves
    one entry of the patient's report from [semResposta] to the count of
    the code ([tomados], [naoTomados] or [adiados]) and leaves the other
    counts and [total] as they were; for "3" the postponed copy adds to no
    count. *)
Theorem reply_moves_one_count_in_the_report (body code : string) (k : string)
    (l : Lembrete) (date : option string) (startOfDay endOfDay : Z) (iso : string) :
  JS.trim body = code ->
  code ∈ ["1"; "2"; "3"] ->
  (k, l) ∈ latest_pending id w ->
  startOfDay <= dataHora l <= endOfDay ->
  JS.falsy (Some id) = false ->
  JS.falsy date = false ->
  exists w' before after,
    handleWhatsAppWebhook env From (Some body) w
    = (Val {| http_status := 200; success := true; error := None |}, w')
    /\ (generateReport env (Some id) date startOfDay endOfDay iso w).1
       = Val (ReportData iso id before)
    /\ (generateReport env (Some id) date startOfDay endOfDay iso w').1
       = Val (ReportData iso id after)
    /\ st_semResposta before = S (st_semResposta after)
    /\ st_tomados after
       = (st_tomados before + (if String.eqb code "1" then 1 else 0))%nat
    /\ st_naoTomados after
       = (st_naoTomados before + (if String.eqb code "2" then 1 else 0))%nat
    /\ st_adiados after
       = (st_adiados before + (if String.eqb code "3" then 1 else 0))%nat
    /\ st_total after = st_total before.
Proof.
  intros Htrim Hcode Hpending Hday Hid Hdate.
  destruct (tally_after_reply body code k l startOfDay endOfDay
              Htrim Hcode Hpending Hday) as (w' & Hrun & Htally).
  exists w'. eexists. eexists. split; [exact Hrun|].
  rewrite !(generateReport_run env (Some id) date _ _ iso _ Hid Hdate (proj1 Hrel _)).
  simpl default. cbn [fst].
  split; [reflexivity|]. split; [reflexivity|].
  rewrite !statistics_of_counts. simpl.
  assert (H1 := Htally ["tomou"]). assert (H2 := Htally ["nao_tomou"]).
  assert (H3 := Htally ["adiado"]). assert (H4 := Htally ["enviado"; "alerta_enviado"]).
  repeat (apply elem_of_cons in Hcode as [-> | Hcode]); [.. | inversion Hcode];
    simpl in H1, H2, H3, H4 |- *;
    repeat match goal with
           | H : _ ∉ _ -> _ |- _ =>
               let Hn := fresh in
               assert (Hn := H ltac:(rewrite ?elem_of_cons, elem_of_nil;
                                     intuition discriminate));
               clear H
           end;
    repeat case_decide;
    repeat match goal with
           | H : _ ∈ _ |- _ => rewrite ?elem_of_cons, elem_of_nil in H
           | H : _ ∉ _ |- _ => rewrite ?elem_of_cons, elem_of_nil in H
           end;
    try (exfalso; intuition congruence);
    repeat split; lia.
Qed.

End ReportAfterReply.

(** ** From the reminder to its answer *)

Section RoundTrip.

Variable env : Env.
Hypothesis Hrel : reliable env.
Variables (currentDay : Z) (currentTime : string).

(** The tick after its clock reads, told by what its sends returned. *)
Lemma dispatch_outcomes (P : SendResult -> Prop) (w : World) :
  (forall to message w0 r w', sendWhatsAppMessage env to message w0 = (Val r, w') -> P r) ->
  exists rems ts w2,
    dispatch env (Some currentDay) currentTime w = (Val tt, w2)
    /\ map r_medicamento rems
       = filter (fires currentDay currentTime w) (medicamentos_ativos w)
    /\ idosos w2 = idosos w
    /\ (forall k, k ∉ map lembreteId rems ->
                  lembretes_status w2 !! k = lembretes_status w !! k)
    /\ Forall (fun r =>
         lembretes_status w !! lembreteId r = None
         /\ exists res,
              P res
              /\ lembretes_status w2 !! lembreteId r
                 = Some (let e := lembreteStatus (r_medicamento r).1
                                    (m_idosoId (r_medicamento r).2) currentTime ts in
                         match res with
                         | SendOk sid st => update_delivered sid st e
                         | SendFail err => update_failed err e
                         end)) rems.
Proof.
  intros HP.
  destruct (collect_and_commit_run env Hrel currentDay currentTime w)
    as (rems & w1 & ts & Hrun & Hmeds & Hnd & Hcommitted & Hframe1 & _ & Hi1 & _).
  destruct (deliver_run_with env Hrel P HP rems w1 Hnd
              (committed_exists currentTime w w1 ts rems Hcommitted))
    as (w2 & results & Hdeliver & Hrec & Hall & _ & Hi2 & Hframe2 & _).
  exists rems, ts, w2. split.
  { unfold dispatch.
    now rewrite (bind_val _ _ _ _ _ Hrun). }
  split; [exact Hmeds|]. split; [congruence|]. split.
  { intros k Hk. now rewrite (Hframe2 k Hk), (Hframe1 k Hk). }
  clear -Hrec Hall Hcommitted.
  induction Hrec as [|r res rems results (e & He & Hnow) _ IH]; constructor.
  - apply Forall_cons in Hall as [HPres _]. apply Forall_cons in Hcommitted as [Hc _].
    destruct Hc as (Hnew & _ & _ & Hentry). rewrite Hentry in He. injection He as <-.
    split; [exact Hnew|]. exists res. split; [exact HPres | exact Hnow].
  - apply IH; [now apply Forall_cons in Hcommitted as [_ ?]
              | now apply Forall_cons in Hall as [_ ?]].
Qed.

Variables (From : option string) (w : World).
Variables (id : string) (idoso : Idoso) (others : list (string * Idoso)).

Hypothesis Hknown :
  idosos_por_whatsapp (JS.replace "+55" "" (phoneNumber_of From)) w = (id, idoso) :: others.

Hypothesis Hnone :
  forall k l, lembretes_status w !! k = Some l -> idosoId l = id -> status l <> "enviado".

(** X21: from the reminder to its answer.  With the services answering and
    the gateway configured and accepting, for a patient with nothing pending
    and an active medication that is due, the tick after its clock reads,
    run for those values of its locals, followed by the patient's reply "1",
    "2" or "3", ends with an entry that this run created, for a due
    medication of that patient, carrying [currentTime] as [horarioOriginal],
    the gateway's message id and the status of the reply. *)
Theorem reply_answers_a_reminder_of_the_dispatch (km : string) (m : Medicamento)
    (body code newStatus : string) :
  ~ unconfigured env ->
  (forall n from to message,
     exists sid st, messages_create env n from to message = Created sid st) ->
  due_in currentDay currentTime w (km, m) ->
  m_idosoId m = id ->
  JS.trim body = code ->
  (code, newStatus) ∈ [("1", "tomou"); ("2", "nao_tomou"); ("3", "adiado")] ->
  exists w2 w3 k l m',
    dispatch env (Some currentDay) currentTime w = (Val tt, w2)
    /\ handleWhatsAppWebhook env From (Some body) w2
       = (Val {| http_status := 200; success := true; error := None |}, w3)
    /\ lembretes_status w !! k = None
    /\ lembretes_status w3 !! k = Some l
    /\ status l = newStatus /\ respostaRecebida l = Some code
    /\ idosoId l = id /\ horarioOriginal l = currentTime /\ is_Some (twilioSid l)
    /\ medicamentos w !! medicamentoId l = Some m'
    /\ m_idosoId m' = id /\ isDue m' currentDay currentTime = true.
Proof.
  intros Hcfg Haccept Hfires Hmid Htrim Hmap. apply fires_due in Hfires.
  destruct (prop_statusMap code newStatus Hmap) as [Hprop Hcode].
  destruct (dispatch_outcomes (fun r => exists sid st, r = SendOk sid st) w)
    as (rems & ts & w2 & Htick & Hmeds & Hidosos & Hframe & Hout).
  { intros to message w0 r w' Hsend.
    destruct (send_configured env to message w0 (proj2 Hrel) Hcfg) as (r0 & Hsend0 & Hr0).
    rewrite Hsend0 in Hsend. injection Hsend as <- _. rewrite Hr0.
    destruct (Haccept (ops w0) (default "" (cfg_phone (getTwilioConfig env)))
                (formatPhoneForWhatsApp to) message) as (sid & st & ->).
    now exists sid, st. }
  rewrite Forall_forall in Hout.
  assert (Hknown2 : idosos_por_whatsapp (JS.replace "+55" "" (phoneNumber_of From)) w2
                    = (id, idoso) :: others).
  { rewrite <- Hknown. unfold idosos_por_whatsapp. now rewrite Hidosos. }
  (* the patient's reminder is pending after the tick *)
  assert (Hrem : exists rem, rem ∈ rems /\ r_medicamento rem = (km, m)).
  { rewrite <- Hmeds in Hfires. apply list_elem_of_fmap in Hfires as (rem & Heq & Hin).
    now exists rem. }
  destruct Hrem as (rem & Hrem & Hremm).
  destruct (Hout rem Hrem) as (_ & res & (sid & st & ->) & Hentry).
  rewrite Hremm in Hentry. simpl in Hentry.
  destruct (latest_pending id w2) as [|[k0 l0] rest] eqn:Hlp.
  { exfalso. apply (proj1 (latest_pending_nil id w2) Hlp _ _ Hentry); [exact Hmid|].
    reflexivity. }
  destruct (latest_pending_head id w2 k0 l0 rest Hlp) as (-> & Hk0 & Hid0 & Hst0 & _).
  (* and the latest pending one was created by the tick *)
  assert (Hk0in : k0 ∈ map lembreteId rems).
  { destruct (decide (k0 ∈ map lembreteId rems)) as [Hin | Hout0]; [exact Hin|].
    exfalso. rewrite (Hframe k0 Hout0) in Hk0. exact (Hnone k0 l0 Hk0 Hid0 Hst0). }
  apply list_elem_of_fmap in Hk0in as (rem0 & -> & Hrem0).
  destruct (Hout rem0 Hrem0) as (Hnew0 & res0 & (sid0 & st0 & ->) & Hentry0).
  rewrite Hk0 in Hentry0. injection Hentry0 as ->.
  assert (Hmed0 : r_medicamento rem0
                  ∈ filter (fires currentDay currentTime w) (medicamentos_ativos w)).
  { rewrite <- Hmeds. apply list_elem_of_fmap. now exists rem0. }
  apply list_elem_of_filter in Hmed0 as [[Hdue _] Hact].
  unfold medicamentos_ativos in Hact.
  apply list_elem_of_filter in Hact as [_ Hact].
  destruct (r_medicamento rem0) as [km0 m0] eqn:Hm0.
  apply elem_of_map_to_list in Hact. simpl in Hdue, Hid0, Hk0 |- *.
  assert (Hpending : (lembreteId rem0,
                      update_delivered sid0 st0
                        (lembreteStatus km0 (m_idosoId m0) currentTime ts))
                     ∈ latest_pending id w2) by (rewrite Hlp; left).
  destruct (coded_reply_ledger env Hrel From w2 id idoso others Hknown2 body code
              _ _ Htrim Hcode Hpending)
    as (w3 & l' & Hrun & _ & _ & _ & _ & Hl' & Hother & Hthree).
  rewrite Hprop in Hl'. simpl in Hl'.
  assert (Hk3 : lembretes_status w3 !! lembreteId rem0 = Some l').
  { destruct (decide (code = "3")) as [Hc | Hc].
    - destruct (Hthree Hc) as (ref & _ & Hne & ->).
      rewrite lookup_insert_ne by exact Hne. apply lookup_insert_eq.
    - rewrite (Hother Hc). apply lookup_insert_eq. }
  exists w2, w3, (lembreteId rem0), l', m0.
  split; [exact Htick|]. split; [exact Hrun|]. split; [exact Hnew0|].
  split; [exact Hk3|]. rewrite Hl'. simpl.
  split; [reflexivity|]. split; [reflexivity|]. split; [exact Hid0|].
  split; [reflexivity|]. split; [eauto|]. split; [exact Hact|].
  split; [exact Hid0 | exact Hdue].
Qed.

(** X22: a reminder whose delivery failed cannot be answered.  With the
    services answering, when every send fails (the configuration is
    incomplete, or the gateway rejects), the tick after its clock reads
    leaves an entry in status 'erro' for every active, due medication with a
    patient on file, and every entry it creates is in that status; for a
    patient with nothing pending before, a reply "1", "2" or "3" after it is
    confirmed to the patient and changes nothing in the ledger. *)
Theorem failed_reminder_cannot_be_answered (body code : string) :
  (unconfigured env
   \/ forall n from to message,
        exists e, messages_create env n from to message = Rejected e) ->
  JS.trim body = code ->
  code ∈ ["1"; "2"; "3"] ->
  exists w2 w3,
    dispatch env (Some currentDay) currentTime w = (Val tt, w2)
    /\ (forall d, due_in currentDay currentTime w d ->
          exists k l, lembretes_status w !! k = None
                      /\ lembretes_status w2 !! k = Some l
                      /\ medicamentoId l = d.1 /\ status l = "erro")
    /\ (forall k l, lembretes_status w !! k = None -> lembretes_status w2 !! k = Some l ->
                    status l = "erro")
    /\ handleWhatsAppWebhook env From (Some body) w2
       = (Val {| http_status := 200; success := true; error := None |}, w3)
    /\ lembretes_status w3 = lembretes_status w2.
Proof.
  intros Hfail Htrim Hcode.
  destruct (dispatch_outcomes (fun r => exists e, r = SendFail e) w)
    as (rems & ts & w2 & Htick & Hmeds & Hidosos & Hframe & Hout).
  { intros to message w0 r w' Hsend. destruct Hfail as [Hun | Hreject].
    - rewrite (send_unconfigured env _ _ _ (proj2 Hrel) Hun) in Hsend. injection Hsend as <- _. eauto.
    - destruct (decide (unconfigured env)) as [Hun | Hcfg].
      + rewrite (send_unconfigured env _ _ _ (proj2 Hrel) Hun) in Hsend. injection Hsend as <- _. eauto.
      + destruct (send_configured env to message w0 (proj2 Hrel) Hcfg) as (r0 & Hsend0 & Hr0).
        rewrite Hsend0 in Hsend. injection Hsend as <- _. rewrite Hr0.
        destruct (Hreject (ops w0) (default "" (cfg_phone (getTwilioConfig env)))
                    (formatPhoneForWhatsApp to) message) as (e & ->).
        eauto. }
  rewrite Forall_forall in Hout.
  assert (Hnew : forall k l, k ∈ map lembreteId rems -> lembretes_status w2 !! k = Some l ->
                             status l = "erro").
  { intros k l Hin Hk. apply list_elem_of_fmap in Hin as (rem & -> & Hrem).
    destruct (Hout rem Hrem) as (_ & res & (e & ->) & Hentry).
    rewrite Hk in Hentry. now injection Hentry as ->. }
  assert (Hknown2 : idosos_por_whatsapp (JS.replace "+55" "" (phoneNumber_of From)) w2
                    = (id, idoso) :: others).
  { rewrite <- Hknown. unfold idosos_por_whatsapp. now rewrite Hidosos. }
  assert (Hnone2 : latest_pending id (set_ops (S (ops w2)) w2) = []).
  { apply latest_pending_nil. intros k l Hk Hid Hst. simpl in Hk.
    destruct (decide (k ∈ map lembreteId rems)) as [Hin | Hout0].
    - rewrite (Hnew k l Hin Hk) in Hst. discriminate Hst.
    - rewrite (Hframe k Hout0) in Hk. exact (Hnone k l Hk Hid Hst). }
  destruct (webhook_coded_run env From body w2 id idoso others code
              Hrel Hknown2 Htrim Hcode)
    as (w2a & w3 & msg & r & Hrec & Hrun & _ & _ & Hledger & _).
  rewrite (record_reply_none env Hrel id code _ Hnone2) in Hrec.
  injection Hrec as <-.
  exists w2, w3. split; [exact Htick|].
  split; [| split; [| split; [exact Hrun | exact Hledger]]].
  - intros d Hd. apply fires_due in Hd. rewrite <- Hmeds in Hd.
    apply list_elem_of_fmap in Hd as (rem & -> & Hrem).
    destruct (Hout rem Hrem) as (Hfresh & res & (e & ->) & Hentry).
    exists (lembreteId rem). eexists.
    split; [exact Hfresh|]. split; [exact Hentry|]. split; reflexivity.
  - intros k l Hfresh Hk.
    destruct (decide (k ∈ map lembreteId rems)) as [Hin | Hout0];
      [exact (Hnew k l Hin Hk)|].
    rewrite (Hframe k Hout0), Hfresh in Hk. discriminate Hk.
Qed.

End RoundTrip.

Lemma report_tallies_the_day_by_status_witness :
  JS.falsy (Some "p1") = false
  /\ JS.falsy (Some "2024-05-06") = false
  /\ storage_rejects env_accepting (ops w_pending) = None
  /\ exists stats w',
       generateReport env_accepting (Some "p1") (Some "2024-05-06") 0 2000
         "2024-05-06T00:00:00.000Z" w_pending
       = (Val (ReportData "2024-05-06T00:00:00.000Z" "p1" stats), w')
       /\ st_total stats = with_status counted (lembretes_do_dia "p1" 0 2000 w_pending).
Proof.
  split; [reflexivity|]. split; [reflexivity|]. split; [reflexivity|].
  destruct (report_tallies_the_day_by_status env_accepting (Some "p1")
              (Some "2024-05-06") 0 2000 "2024-05-06T00:00:00.000Z" w_pending
              eq_refl eq_refl eq_refl)
    as (id & stats & w' & Hid & Hrun & _ & _ & _ & _ & _ & Htotal & _).
  injection Hid as <-. exists stats, w'. split; [exact Hrun | exact Htotal].
Defined.

Lemma reply_moves_one_count_in_the_report_witness :
  reliable env_accepting
  /\ idosos_por_whatsapp (JS.replace "+55" "" (phoneNumber_of from_maria)) w_pending
     = [("p1", maria)]
  /\ JS.trim " 3 " = "3"
  /\ "3" ∈ ["1"; "2"; "3"]
  /\ ("L1", lembrete_pendente) ∈ latest_pending "p1" w_pending
  /\ 0 <= dataHora lembrete_pendente <= 2000
  /\ JS.falsy (Some "p1") = false
  /\ JS.falsy (Some "2024-05-06") = false
  /\ exists w' before after,
       handleWhatsAppWebhook env_accepting from_maria (Some " 3 ") w_pending
       = (Val {| http_status := 200; success := true; error := None |}, w')
       /\ (generateReport env_accepting (Some "p1") (Some "2024-05-06") 0 2000
             "2024-05-06T00:00:00.000Z" w_pending).1
          = Val (ReportData "2024-05-06T00:00:00.000Z" "p1" before)
       /\ (generateReport env_accepting (Some "p1") (Some "2024-05-06") 0 2000
             "2024-05-06T00:00:00.000Z" w').1
          = Val (ReportData "2024-05-06T00:00:00.000Z" "p1" after)
       /\ st_semResposta before = S (st_semResposta after)
       /\ st_adiados after = (st_adiados before + 1)%nat
       /\ st_total after = st_total before.
Proof.
  assert (Hcode : "3" ∈ ["1"; "2"; "3"]) by (do 2 right; left).
  assert (Hpending : ("L1", lembrete_pendente) ∈ latest_pending "p1" w_pending)
    by (vm_compute; left).
  assert (Hday : 0 <= dataHora lembrete_pendente <= 2000) by (simpl; lia).
  split; [exact env_accepting_reliable|]. split; [exact maria_known_pending|].
  split; [reflexivity|]. split; [exact Hcode|]. split; [exact Hpending|].
  split; [exact Hday|]. split; [reflexivity|]. split; [reflexivity|].
  destruct (reply_moves_one_count_in_the_report env_accepting env_accepting_reliable
              from_maria w_pending "p1" maria [] maria_known_pending
              " 3 " "3" "L1" lembrete_pendente (Some "2024-05-06") 0 2000
              "2024-05-06T00:00:00.000Z" eq_refl Hcode Hpending Hday eq_refl eq_refl)
    as (w' & before & after & Hrun & Hb & Ha & Hsem & _ & _ & Hadi & Htot).
  exists w', before, after.
  split; [exact Hrun|]. split; [exact Hb|]. split; [exact Ha|].
  split; [exact Hsem|]. split; [exact Hadi | exact Htot].
Defined.

Lemma nothing_pending_registered :
  forall k l, lembretes_status w_registered !! k = Some l -> idosoId l = "p1" ->
              status l <> "enviado".
Proof. intros k l Hk. simpl in Hk. rewrite lookup_empty in Hk. discriminate Hk. Defined.

(** Monday 09:00 on the scenario, then Maria answers "1". *)
Lemma reply_answers_a_reminder_of_the_dispatch_witness :
  reliable env_accepting
  /\ idosos_por_whatsapp (JS.replace "+55" "" (phoneNumber_of from_maria)) w_registered
     = [("p1", maria)]
  /\ (forall k l, lembretes_status w_registered !! k = Some l -> idosoId l = "p1" ->
                  status l <> "enviado")
  /\ ~ unconfigured env_accepting
  /\ (forall n from to message,
        exists sid st, messages_create env_accepting n from to message = Created sid st)
  /\ due_in 1 "09:00" w_registered ("m1", losartana)
  /\ m_idosoId losartana = "p1"
  /\ JS.trim "1" = "1"
  /\ ("1", "tomou") ∈ [("1", "tomou"); ("2", "nao_tomou"); ("3", "adiado")]
  /\ exists w2 w3 k l,
       dispatch env_accepting (Some 1) "09:00" w_registered = (Val tt, w2)
       /\ handleWhatsAppWebhook env_accepting from_maria (Some "1") w2
          = (Val {| http_status := 200; success := true; error := None |}, w3)
       /\ lembretes_status w_registered !! k = None
       /\ lembretes_status w3 !! k = Some l
       /\ status l = "tomou" /\ horarioOriginal l = "09:00".
Proof.
  assert (Hcfg : ~ unconfigured env_accepting).
  { intros H. vm_compute in H. discriminate H. }
  assert (Haccept : forall n from to message,
            exists sid st, messages_create env_accepting n from to message
                           = Created sid st).
  { intros n from to message. exists "SM0001", "queued". reflexivity. }
  pose proof (Forall_inv maria_medications_due) as Hdue.
  assert (Hmap : ("1", "tomou") ∈ [("1", "tomou"); ("2", "nao_tomou"); ("3", "adiado")])
    by left.
  split; [exact env_accepting_reliable|]. split; [exact maria_known_registered|].
  split; [exact nothing_pending_registered|]. split; [exact Hcfg|].
  split; [exact Haccept|]. split; [exact Hdue|]. split; [reflexivity|].
  split; [reflexivity|]. split; [exact Hmap|].
  destruct (reply_answers_a_reminder_of_the_dispatch env_accepting env_accepting_reliable
              1 "09:00" from_maria w_registered "p1" maria [] maria_known_registered
              nothing_pending_registered "m1" losartana "1" "1" "tomou"
              Hcfg Haccept Hdue eq_refl eq_refl Hmap)
    as (w2 & w3 & k & l & m' & Htick & Hrun & Hnew & Hk & Hst & _ & _ & Hhor & _).
  exists w2, w3, k, l.
  split; [exact Htick|]. split; [exact Hrun|]. split; [exact Hnew|].
  split; [exact Hk|]. split; [exact Hst | exact Hhor].
Defined.

(** Monday 09:00 on the scenario with a gateway that rejects, then Maria
    answers "1": the entry of Losartana is and stays in 'erro'. *)
Lemma failed_reminder_cannot_be_answered_witness :
  reliable env_gateway_down
  /\ idosos_por_whatsapp (JS.replace "+55" "" (phoneNumber_of from_maria)) w_registered
     = [("p1", maria)]
  /\ (forall k l, lembretes_status w_registered !! k = Some l -> idosoId l = "p1" ->
                  status l <> "enviado")
  /\ (unconfigured env_gateway_down
      \/ forall n from to message,
           exists e, messages_create env_gateway_down n from to message = Rejected e)
  /\ JS.trim "1" = "1"
  /\ "1" ∈ ["1"; "2"; "3"]
  /\ exists w2 w3 k l,
       dispatch env_gateway_down (Some 1) "09:00" w_registered = (Val tt, w2)
       /\ handleWhatsAppWebhook env_gateway_down from_maria (Some "1") w2
          = (Val {| http_status := 200; success := true; error := None |}, w3)
       /\ lembretes_status w3 !! k = Some l
       /\ medicamentoId l = "m1" /\ status l = "erro".
Proof.
  assert (Hfail : unconfigured env_gateway_down
                  \/ forall n from to message,
                       exists e, messages_create env_gateway_down n from to message
                                 = Rejected e).
  { right. intros n from to message. exists "Gateway timeout". reflexivity. }
  assert (Hcode : "1" ∈ ["1"; "2"; "3"]) by left.
  split; [exact env_gateway_down_reliable|]. split; [exact maria_known_registered|].
  split; [exact nothing_pending_registered|]. split; [exact Hfail|].
  split; [reflexivity|]. split; [exact Hcode|].
  destruct (failed_reminder_cannot_be_answered env_gateway_down env_gateway_down_reliable
              1 "09:00" from_maria w_registered "p1" maria [] maria_known_registered
              nothing_pending_registered "1" "1" Hfail eq_refl Hcode)
    as (w2 & w3 & Htick & Hdue & _ & Hrun & Hledger).
  destruct (Hdue ("m1", losartana) (Forall_inv maria_medications_due))
    as (k & l & _ & Hk & Hmed & Hst).
  exists w2, w3, k, l. split; [exact Htick|]. split; [exact Hrun|].
  split; [now rewrite Hledger|]. split; [exact Hmed | exact Hst].
Defined.

(** ** The tick as it stands, and where the loops stop *)

(** X23: as the code stands the tick fails on every invocation, whatever
    the host, the configuration, the gateway and the store: it rethrows the
    RangeError of a clock read (of the day-of-week read when the host knows
    the time zone) before its first storage call, and leaves the world as
    it found it: no query, no entry, no message. *)
Theorem tick_always_rethrows (env : Env) (host : Host) (w : World) :
  exists e,
    checkMedicationReminders env host w = (Throw e, w)
    /\ (knows_time_zone host "America/Sao_Paulo" = true ->
        e = range_error host "weekday" "numeric")
    /\ (knows_time_zone host "America/Sao_Paulo" = false ->
        e = range_error host "timeZone" "America/Sao_Paulo").
Proof.
  rewrite tick_rethrows. eexists. split; [reflexivity|].
  split; intros ->; reflexivity.
Qed.

(** The tick of Monday 09:00 with two medications due and every service
    answering: the RangeError of the day-of-week read, and an empty ledger
    and log. *)
Lemma tick_always_rethrows_witness :
  knows_time_zone host_monday_0900 "America/Sao_Paulo" = true
  /\ Forall (due_in 1 "09:00" w_registered) [("m1", losartana); ("m2", aas)]
  /\ checkMedicationReminders env_accepting host_monday_0900 w_registered
     = (Throw "Value numeric out of range for Intl.DateTimeFormat options property weekday",
        w_registered)
  /\ lembretes_status w_registered = ∅
  /\ log w_registered = [].
Proof.
  split; [reflexivity|]. split; [exact maria_medications_due|].
  split; [| split; reflexivity].
  destruct (tick_always_rethrows env_accepting host_monday_0900 w_registered)
    as (e & Hrun & He & _).
  rewrite Hrun. now rewrite (He eq_refl).
Defined.

Lemma send_val (env : Env) (to message : string) (w : World) (res : SendResult)
    (wa : World) :
  sendWhatsAppMessage env to message w = (Val res, wa) ->
  lembretes_status wa = lembretes_status w
  /\ log wa = (log w ++ [EvSend to message res])%list.
Proof.
  rewrite send_cases. intros H.
  destruct (twilioClient_of env) as [client | e]; [| discriminate H].
  destruct (negb client || JS.falsy _); injection H as <- <-; now split.
Qed.

(** X26: the delivery loop has no [try] of its own, so the first exception
    ends it and with it the tick.  When the gateway library refuses the
    configuration, the first send throws: nothing is sent and no entry is
    touched.  When the store rejects the update that records an outcome,
    the loop ends after that send: the message has gone out, its entry and
    the entries of all remaining reminders stay as committed, and no
    further message is sent. *)
Theorem delivery_loop_stops_at_the_first_exception (env : Env) (r : Reminder)
    (rest : list Reminder) (w1 : World) :
  (forall e, twilioClient_of env = Throw e -> deliver env (r :: rest) w1 = (Throw e, w1))
  /\ (forall res wa err,
        sendWhatsAppMessage env (i_whatsapp (r_idoso r).2) (reminderMessage r) w1
        = (Val res, wa) ->
        storage_rejects env (ops wa) = Some err ->
        exists w',
          deliver env (r :: rest) w1 = (Throw err, w')
          /\ lembretes_status w' = lembretes_status w1
          /\ log w'
             = (log w1 ++ [EvSend (i_whatsapp (r_idoso r).2) (reminderMessage r) res])%list).
Proof.
  split.
  - intros e Hc. simpl deliver. fold (reminderMessage r).
    apply bind_throw. rewrite send_cases. now rewrite Hc.
  - intros res wa err Hsend Hrej. simpl deliver. fold (reminderMessage r).
    rewrite (bind_val _ _ _ _ _ Hsend).
    destruct (send_val env _ _ _ _ _ Hsend) as [Hl Hlog].
    exists (set_ops (S (ops wa)) wa). split; [| split; [exact Hl | exact Hlog]].
    apply bind_throw. destruct res; unfold update_lembrete;
      now rewrite storage_throws with (e := err).
Qed.

(** Both reminders of Monday 09:00 are committed.  With an account SID the
    library refuses, the loop throws at the first send and the world stays
    as committed.  With a store that rejects the update after the first
    send, the loop throws after Losartana's message: the second reminder is
    never sent and both entries stay 'enviado'. *)
Lemma delivery_loop_stops_at_the_first_exception_witness :
  collect_and_commit env_accepting (Some 1) "09:00" w_registered
  = (Val [reminder_losartana; reminder_aas], w_committed)
  /\ twilioClient_of env_refused_sid = Throw "accountSid must start with AC"
  /\ deliver env_refused_sid [reminder_losartana; reminder_aas] w_committed
     = (Throw "accountSid must start with AC", w_committed)
  /\ storage_rejects env_storage_down_at_5 5 = Some "UNAVAILABLE"
  /\ exists w',
       deliver env_storage_down_at_5 [reminder_losartana; reminder_aas] w_committed
       = (Throw "UNAVAILABLE", w')
       /\ lembretes_status w' !! "0" = Some (lembreteStatus "m1" "p1" "09:00" 1003)
       /\ lembretes_status w' !! "1" = Some (lembreteStatus "m2" "p1" "09:00" 1003)
       /\ log w'
          = [EvBatchCommit "lembretes_status" ["0"; "1"];
             EvSend "11999998888" (createReminderMessage "Maria" "Losartana" "50mg")
               (SendOk "SM0001" "queued")].
Proof.
  pose proof (delivery_loop_stops_at_the_first_exception env_refused_sid
                reminder_losartana [reminder_aas] w_committed) as [Hrefused _].
  pose proof (delivery_loop_stops_at_the_first_exception env_storage_down_at_5
                reminder_losartana [reminder_aas] w_committed) as [_ Hrejected].
  split; [vm_compute; reflexivity|]. split; [reflexivity|].
  split; [exact (Hrefused _ eq_refl)|]. split; [reflexivity|].
  destruct (Hrejected (SendOk "SM0001" "queued")
              (sendWhatsAppMessage env_storage_down_at_5 "11999998888"
                 (reminderMessage reminder_losartana) w_committed).2
              "UNAVAILABLE")
    as (w' & Hrun & Hl & Hlog); [vm_compute; reflexivity | reflexivity |].
  exists w'. split; [exact Hrun|]. rewrite Hl, Hlog.
  split; [vm_compute; reflexivity|]. split; vm_compute; reflexivity.
Defined.

(** The ledger block of a reply does not use the gateway library. *)
Lemma record_reply_library (env : Env) (id message : string) (w : World) :
  record_reply env id message w = record_reply (with_accepting_library env) id message w.
Proof. reflexivity. Qed.

(** X27: a reply "1", "2" or "3" on a pending reminder while the gateway
    library refuses the configuration, the store answering: the transition
    is recorded (and for "3" the postponed entry written), then the
    confirmation send throws the library's exception; the webhook answers
    500 with its message, nothing was sent, and the recorded transition
    stays. *)
Theorem refused_library_fails_reply_after_recording (env : Env) (From : option string)
    (body code : string) (w : World) (id : string) (idoso : Idoso)
    (others : list (string * Idoso)) (k : string) (l : Lembrete) (e : string) :
  idosos_por_whatsapp (JS.replace "+55" "" (phoneNumber_of From)) w = (id, idoso) :: others ->
  JS.trim body = code ->
  code ∈ ["1"; "2"; "3"] ->
  (k, l) ∈ latest_pending id w ->
  (forall n, storage_rejects env n = None) ->
  twilioClient_of env = Throw e ->
  exists w',
    handleWhatsAppWebhook env From (Some body) w
    = (Val {| http_status := 500; success := false; error := Some e |}, w')
    /\ lembretes_status w' !! k
       = Some (update_reply (default "" (prop statusMap code))
                 (serverTimestamp env (2 + ops w)) code l)
    /\ (code <> "3" -> log w' = (log w ++ [EvUpdate "lembretes_status" k])%list)
    /\ (code = "3" ->
        exists ref,
          lembretes_status w !! ref = None
          /\ lembretes_status w' !! ref
             = Some (delayedReminder l id (serverTimestamp env (3 + ops w)))
          /\ log w' = (log w ++ [EvUpdate "lembretes_status" k;
                                 EvSet "lembretes_status" ref])%list).
Proof.
  intros Hknown Htrim Hcode Hpending Hstore Hclient.
  destruct (latest_pending id w) as [|[k0 l0] rest] eqn:Hlp; [inversion Hpending|].
  destruct (latest_pending_head id w k0 l0 rest Hlp) as (-> & Hk0 & _).
  apply list_elem_of_singleton in Hpending. injection Hpending as <- <-.
  assert (Hrel' : reliable (with_accepting_library env)).
  { split; [exact Hstore | intros e' H; discriminate H || idtac].
    unfold twilioClient_of in H. simpl in H.
    destruct (JS.falsy _ || JS.falsy _); discriminate H. }
  destruct (record_reply_some (with_accepting_library env) Hrel' id code
              (set_ops (S (ops w)) w) k l [] Hlp)
    as (w1 & Hrun & _ & _ & Hother & Hthree).
  rewrite <- record_reply_library in Hrun. simpl in Hother, Hthree.
  rewrite (webhook_known_patient_at env From (Some body) w id idoso others
             (Hstore _) Hknown).
  simpl message_of. rewrite Htrim, (handle_reply_coded env id idoso _ code _ Hcode).
  rewrite (bind_val _ _ _ _ _ Hrun).
  assert (Hsend : forall to message (cont : SendResult -> M unit),
             bind (sendWhatsAppMessage env to message) cont w1 = (Throw e, w1)).
  { intros to message cont. apply bind_throw. rewrite send_cases. now rewrite Hclient. }
  rewrite Hsend. exists w1. split; [reflexivity|].
  split; [| split].
  - destruct (decide (code = "3")) as [Hc | Hc].
    + destruct (Hthree Hc) as (ref & Hfresh & -> & _).
      rewrite lookup_insert_ne; [apply lookup_insert_eq|].
      intros ->. rewrite Hfresh in Hk0. discriminate Hk0.
    + destruct (Hother Hc) as [-> _]. apply lookup_insert_eq.
  - intros Hc. now destruct (Hother Hc) as [_ Hlog].
  - intros Hc. destruct (Hthree Hc) as (ref & Hfresh & Hl & Hlog).
    exists ref. split; [exact Hfresh|]. split; [| exact Hlog].
    rewrite Hl. apply lookup_insert_eq.
Qed.

(** Maria answers "1" while the account SID is one the library refuses. *)
Lemma refused_library_fails_reply_after_recording_witness :
  idosos_por_whatsapp (JS.replace "+55" "" (phoneNumber_of from_maria)) w_pending
  = [("p1", maria)]
  /\ JS.trim "1" = "1"
  /\ "1" ∈ ["1"; "2"; "3"]
  /\ ("L1", lembrete_pendente) ∈ latest_pending "p1" w_pending
  /\ (forall n, storage_rejects env_refused_sid n = None)
  /\ twilioClient_of env_refused_sid = Throw "accountSid must start with AC"
  /\ exists w',
       handleWhatsAppWebhook env_refused_sid from_maria (Some "1") w_pending
       = (Val {| http_status := 500; success := false;
                 error := Some "accountSid must start with AC" |}, w')
       /\ lembretes_status w' !! "L1"
          = Some (update_reply "tomou" 1002 "1" lembrete_pendente)
       /\ log w' = [EvUpdate "lembretes_status" "L1"].
Proof.
  assert (Hcode : "1" ∈ ["1"; "2"; "3"]) by left.
  assert (Hpending : ("L1", lembrete_pendente) ∈ latest_pending "p1" w_pending)
    by (vm_compute; left).
  assert (Hstore : forall n, storage_rejects env_refused_sid n = None)
    by (intros n; reflexivity).
  split; [exact maria_known_pending|]. split; [reflexivity|]. split; [exact Hcode|].
  split; [exact Hpending|]. split; [exact Hstore|]. split; [reflexivity|].
  destruct (refused_library_fails_reply_after_recording env_refused_sid from_maria
              "1" "1" w_pending "p1" maria [] "L1" lembrete_pendente
              "accountSid must start with AC" maria_known_pending eq_refl Hcode
              Hpending Hstore eq_refl)
    as (w' & Hrun & Hk & Hlog & _).
  exists w'. split; [exact Hrun|]. split; [exact Hk|].
  apply Hlog. discriminate.
Defined.
